(** * qmi-firmware-update: option parsing, validation and dispatch

    A shallow embedding of [src/qmi-firmware-update/qfu-main.c]:
    the two option callbacks [parse_busnum_devnum] and [parse_vid_pid],
    the option tables, and [main] with its validation sequence and the
    dispatch to one of the four operations.

    Platform assumptions, stated once: GLib on an LP64 system, so
    [guint] is 32 bits wide, [guint16] 16 bits and [gulong]
    (the result type of [strtoul]) 64 bits. *)

From Stdlib Require Import ZArith Bool List Lia.
From Stdlib Require Import Strings.Ascii Strings.String.
Import ListNotations.

Local Open Scope string_scope.
Local Open Scope Z_scope.

(* ================================================================== *)
(** ** Integer limits *)

Definition G_MAXUINT   : Z := 2 ^ 32 - 1.
Definition G_MAXUINT16 : Z := 2 ^ 16 - 1.
Definition G_MAXUINT8  : Z := 2 ^ 8 - 1.
Definition ULONG_MAX   : Z := 2 ^ 64 - 1.

(** C conversions to an unsigned type of [w] bits: reduction modulo [2^w]. *)
Definition to_guint   (x : Z) : Z := x mod 2 ^ 32.
Definition to_guint16 (x : Z) : Z := x mod 2 ^ 16.
Definition to_guint8  (x : Z) : Z := x mod 2 ^ 8.

Definition EXIT_SUCCESS : Z := 0.
Definition EXIT_FAILURE : Z := 1.

(* ================================================================== *)
(** ** Characters and strings *)

Definition nl : string := String (ascii_of_nat 10) EmptyString.

Definition code (c : ascii) : Z := Z.of_nat (nat_of_ascii c).

Definition colon : ascii := ":"%char.

(** [isspace] in the C locale: space, and the controls HT LF VT FF CR. *)
Definition isspace (c : ascii) : bool :=
  (code c =? 32) || ((9 <=? code c) && (code c <=? 13)).

(** Value of a character as a digit, as [strtoul] reads it:
    ['0'..'9'] are 0..9, letters of either case are 10..35. *)
Definition digit_value (c : ascii) : option Z :=
  let n := code c in
  if (48 <=? n) && (n <=? 57) then Some (n - 48)
  else if (97 <=? n) && (n <=? 122) then Some (n - 97 + 10)
  else if (65 <=? n) && (n <=? 90) then Some (n - 65 + 10)
  else None.

Definition digit_in_base (base : Z) (c : ascii) : option Z :=
  match digit_value c with
  | Some d => if d <? base then Some d else None
  | None => None
  end.

(** *** [g_strsplit (value, ":", -1)]

    GLib cuts the string at every occurrence of the delimiter and keeps
    empty pieces; the empty string is the special case that yields the
    empty vector.  [split_fields] returns the first piece and the
    remaining ones of a string. *)
Fixpoint split_fields (delim : ascii) (s : string) : string * list string :=
  match s with
  | EmptyString => (EmptyString, [])
  | String c r =>
      let '(t, ts) := split_fields delim r in
      if Ascii.eqb c delim then (EmptyString, t :: ts) else (String c t, ts)
  end.

Definition g_strsplit (s : string) (delim : ascii) : list string :=
  match s with
  | EmptyString => []
  | _ => let '(t, ts) := split_fields delim s in t :: ts
  end.

(** *** [strtoul (nptr, NULL, base)]

    The C library function: skip white space, read an optional sign,
    for base 16 an optional [0x] prefix, then the longest run of digits
    of the base.  No digits: 0.  A value that does not fit an
    [unsigned long]: [ULONG_MAX].  Otherwise the value, negated in
    unsigned arithmetic when the sign was a minus. *)
Fixpoint skip_spaces (s : string) : string :=
  match s with
  | String c r => if isspace c then skip_spaces r else s
  | EmptyString => s
  end.

Definition read_sign (s : string) : bool * string :=
  match s with
  | String c r =>
      if Ascii.eqb c "-"%char then (true, r)
      else if Ascii.eqb c "+"%char then (false, r)
      else (false, s)
  | EmptyString => (false, s)
  end.

Definition skip_0x (base : Z) (s : string) : string :=
  match s with
  | String c0 (String cx ((String d _) as r)) =>
      if (base =? 16) && Ascii.eqb c0 "0"%char
         && (Ascii.eqb cx "x"%char || Ascii.eqb cx "X"%char)
         && (match digit_in_base base d with Some _ => true | None => false end)
      then r else s
  | _ => s
  end.

(** The digits are accumulated exactly; the range check is made on the
    exact value, which is what the overflow test of the C loop decides. *)
Fixpoint accumulate (base : Z) (s : string) (acc : Z) : Z :=
  match s with
  | String c r =>
      match digit_in_base base c with
      | Some d => accumulate base r (acc * base + d)
      | None => acc
      end
  | EmptyString => acc
  end.

Definition strtoul (nptr : string) (base : Z) : Z :=
  let '(neg, s) := read_sign (skip_spaces nptr) in
  let v := accumulate base (skip_0x base s) 0 in
  if ULONG_MAX <? v then ULONG_MAX
  else if neg then (- v) mod (ULONG_MAX + 1)
  else v.

(* ================================================================== *)
(** ** File-scope option variables (lines 43-81)

    Grouped as the source groups them.  A [gchar *] that may be [NULL]
    is an [option string]; [image_strv], a [NULL]-terminated vector
    that may itself be [NULL], is an [option (list string)]. *)

(** Generic device selections *)
Record Selection := {
  busnum : Z;
  devnum : Z;
  vid : Z;
  pid : Z;
  cdc_wdm_str : option string;
  tty_str : option string
}.

Definition set_busnum (v : Z) (s : Selection) : Selection :=
  {| busnum := v; devnum := devnum s; vid := vid s; pid := pid s;
     cdc_wdm_str := cdc_wdm_str s; tty_str := tty_str s |}.
Definition set_devnum (v : Z) (s : Selection) : Selection :=
  {| busnum := busnum s; devnum := v; vid := vid s; pid := pid s;
     cdc_wdm_str := cdc_wdm_str s; tty_str := tty_str s |}.
Definition set_vid (v : Z) (s : Selection) : Selection :=
  {| busnum := busnum s; devnum := devnum s; vid := v; pid := pid s;
     cdc_wdm_str := cdc_wdm_str s; tty_str := tty_str s |}.
Definition set_pid (v : Z) (s : Selection) : Selection :=
  {| busnum := busnum s; devnum := devnum s; vid := vid s; pid := v;
     cdc_wdm_str := cdc_wdm_str s; tty_str := tty_str s |}.
Definition set_cdc_wdm_str (v : option string) (s : Selection) : Selection :=
  {| busnum := busnum s; devnum := devnum s; vid := vid s; pid := pid s;
     cdc_wdm_str := v; tty_str := tty_str s |}.
Definition set_tty_str (v : option string) (s : Selection) : Selection :=
  {| busnum := busnum s; devnum := devnum s; vid := vid s; pid := pid s;
     cdc_wdm_str := cdc_wdm_str s; tty_str := v |}.

(* ================================================================== *)
(** ** The option callbacks *)

(** What a [GOptionArgFunc] callback reports: [TRUE], [FALSE] with the
    [GError] message it set, or no return at all when a [g_assert]
    fails and the process aborts. *)
Inductive callback_result :=
| CbTrue
| CbFalse (message : string)
| CbAbort.

(** [parse_busnum_devnum] (lines 83-129).  [busnum_idx = -1] is the
    [None] of [busnum_field]. *)
Definition parse_busnum_devnum (value : string) (st : Selection)
  : callback_result * Selection :=
  match g_strsplit value colon with
  | [] => (CbAbort, st)                                   (* g_assert (strv[0]) *)
  | f0 :: rest =>
      let fields :=
        match rest with
        | [] => Some (None, f0)                           (* devnum_idx = 0 *)
        | f1 :: [] => Some (Some f0, f1)                  (* busnum_idx = 0, devnum_idx = 1 *)
        | _ :: _ :: _ => None                             (* strv[2] *)
        end in
      match fields with
      | None => (CbFalse "invalid busnum-devnum string: too many fields", st)
      | Some (busnum_field, devnum_field) =>
          let bus_step :=
            match busnum_field with
            | Some bf =>
                let aux := strtoul bf 10 in
                if (aux =? 0) || (G_MAXUINT <? aux)
                then inl ("invalid bus number: " ++ bf)
                else inr (set_busnum (to_guint aux) st)
            | None => inr st
            end in
          match bus_step with
          | inl msg => (CbFalse msg, st)
          | inr st1 =>
              let aux := strtoul devnum_field 10 in
              if (aux =? 0) || (G_MAXUINT <? aux)
              then (CbFalse ("invalid dev number: " ++ devnum_field), st1)
              else (CbTrue, set_devnum (to_guint aux) st1)
          end
      end
  end.

(** [parse_vid_pid] (lines 131-176).  The product id, when there is
    one, is read and stored first, the vendor id after it. *)
Definition parse_vid_pid (value : string) (st : Selection)
  : callback_result * Selection :=
  match g_strsplit value colon with
  | [] => (CbAbort, st)                                   (* g_assert (strv[0]) *)
  | f0 :: rest =>
      let fields :=
        match rest with
        | [] => Some (f0, None)                           (* pid_idx = -1 *)
        | f1 :: [] => Some (f0, Some f1)                  (* pid_idx = 1 *)
        | _ :: _ :: _ => None                             (* strv[2] *)
        end in
      match fields with
      | None => (CbFalse "invalid vid-pid string: too many fields", st)
      | Some (vid_field, pid_field) =>
          let pid_step :=
            match pid_field with
            | Some pf =>
                let aux := strtoul pf 16 in
                if (aux =? 0) || (G_MAXUINT16 <? aux)
                then inl ("invalid product id: " ++ pf)
                else inr (set_pid (to_guint16 (to_guint aux)) st)
            | None => inr st
            end in
          match pid_step with
          | inl msg => (CbFalse msg, st)
          | inr st1 =>
              let aux := strtoul vid_field 16 in
              if (aux =? 0) || (G_MAXUINT16 <? aux)
              then (CbFalse ("invalid vendor id: " ++ vid_field), st1)
              else (CbTrue, set_vid (to_guint16 aux) st1)
          end
      end
  end.

(* ================================================================== *)
(** ** The remaining option variables *)

(** Update; the four [device_open_*] flags are declared in this group
    (lines 56-59) although the main option table sets them. *)
Record UpdateOptions := {
  action_update_flag : bool;
  firmware_version_str : option string;
  config_version_str : option string;
  carrier_str : option string;
  device_open_proxy_flag : bool;
  device_open_qmi_flag : bool;
  device_open_mbim_flag : bool;
  device_open_auto_flag : bool;
  ignore_version_errors_flag : bool;
  override_download_flag : bool;
  modem_storage_index_int : Z;
  skip_validation_flag : bool
}.

Definition set_action_update_flag (v : bool) (s : UpdateOptions) : UpdateOptions :=
  {| action_update_flag := v; firmware_version_str := firmware_version_str s;
     config_version_str := config_version_str s;
     carrier_str := carrier_str s;
     device_open_proxy_flag := device_open_proxy_flag s;
     device_open_qmi_flag := device_open_qmi_flag s;
     device_open_mbim_flag := device_open_mbim_flag s;
     device_open_auto_flag := device_open_auto_flag s;
     ignore_version_errors_flag := ignore_version_errors_flag s;
     override_download_flag := override_download_flag s;
     modem_storage_index_int := modem_storage_index_int s;
     skip_validation_flag := skip_validation_flag s |}.
Definition set_firmware_version_str (v : option string) (s : UpdateOptions) : UpdateOptions :=
  {| action_update_flag := action_update_flag s; firmware_version_str := v;
     config_version_str := config_version_str s;
     carrier_str := carrier_str s;
     device_open_proxy_flag := device_open_proxy_flag s;
     device_open_qmi_flag := device_open_qmi_flag s;
     device_open_mbim_flag := device_open_mbim_flag s;
     device_open_auto_flag := device_open_auto_flag s;
     ignore_version_errors_flag := ignore_version_errors_flag s;
     override_download_flag := override_download_flag s;
     modem_storage_index_int := modem_storage_index_int s;
     skip_validation_flag := skip_validation_flag s |}.
Definition set_config_version_str (v : option string) (s : UpdateOptions) : UpdateOptions :=
  {| action_update_flag := action_update_flag s;
     firmware_version_str := firmware_version_str s; config_version_str := v;
     carrier_str := carrier_str s;
     device_open_proxy_flag := device_open_proxy_flag s;
     device_open_qmi_flag := device_open_qmi_flag s;
     device_open_mbim_flag := device_open_mbim_flag s;
     device_open_auto_flag := device_open_auto_flag s;
     ignore_version_errors_flag := ignore_version_errors_flag s;
     override_download_flag := override_download_flag s;
     modem_storage_index_int := modem_storage_index_int s;
     skip_validation_flag := skip_validation_flag s |}.
Definition set_carrier_str (v : option string) (s : UpdateOptions) : UpdateOptions :=
  {| action_update_flag := action_update_flag s;
     firmware_version_str := firmware_version_str s;
     config_version_str := config_version_str s; carrier_str := v;
     device_open_proxy_flag := device_open_proxy_flag s;
     device_open_qmi_flag := device_open_qmi_flag s;
     device_open_mbim_flag := device_open_mbim_flag s;
     device_open_auto_flag := device_open_auto_flag s;
     ignore_version_errors_flag := ignore_version_errors_flag s;
     override_download_flag := override_download_flag s;
     modem_storage_index_int := modem_storage_index_int s;
     skip_validation_flag := skip_validation_flag s |}.
Definition set_device_open_proxy_flag (v : bool) (s : UpdateOptions) : UpdateOptions :=
  {| action_update_flag := action_update_flag s;
     firmware_version_str := firmware_version_str s;
     config_version_str := config_version_str s;
     carrier_str := carrier_str s; device_open_proxy_flag := v;
     device_open_qmi_flag := device_open_qmi_flag s;
     device_open_mbim_flag := device_open_mbim_flag s;
     device_open_auto_flag := device_open_auto_flag s;
     ignore_version_errors_flag := ignore_version_errors_flag s;
     override_download_flag := override_download_flag s;
     modem_storage_index_int := modem_storage_index_int s;
     skip_validation_flag := skip_validation_flag s |}.
Definition set_device_open_qmi_flag (v : bool) (s : UpdateOptions) : UpdateOptions :=
  {| action_update_flag := action_update_flag s;
     firmware_version_str := firmware_version_str s;
     config_version_str := config_version_str s;
     carrier_str := carrier_str s;
     device_open_proxy_flag := device_open_proxy_flag s;
     device_open_qmi_flag := v;
     device_open_mbim_flag := device_open_mbim_flag s;
     device_open_auto_flag := device_open_auto_flag s;
     ignore_version_errors_flag := ignore_version_errors_flag s;
     override_download_flag := override_download_flag s;
     modem_storage_index_int := modem_storage_index_int s;
     skip_validation_flag := skip_validation_flag s |}.
Definition set_device_open_mbim_flag (v : bool) (s : UpdateOptions) : UpdateOptions :=
  {| action_update_flag := action_update_flag s;
     firmware_version_str := firmware_version_str s;
     config_version_str := config_version_str s;
     carrier_str := carrier_str s;
     device_open_proxy_flag := device_open_proxy_flag s;
     device_open_qmi_flag := device_open_qmi_flag s;
     device_open_mbim_flag := v;
     device_open_auto_flag := device_open_auto_flag s;
     ignore_version_errors_flag := ignore_version_errors_flag s;
     override_download_flag := override_download_flag s;
     modem_storage_index_int := modem_storage_index_int s;
     skip_validation_flag := skip_validation_flag s |}.
Definition set_device_open_auto_flag (v : bool) (s : UpdateOptions) : UpdateOptions :=
  {| action_update_flag := action_update_flag s;
     firmware_version_str := firmware_version_str s;
     config_version_str := config_version_str s;
     carrier_str := carrier_str s;
     device_open_proxy_flag := device_open_proxy_flag s;
     device_open_qmi_flag := device_open_qmi_flag s;
     device_open_mbim_flag := device_open_mbim_flag s;
     device_open_auto_flag := v;
     ignore_version_errors_flag := ignore_version_errors_flag s;
     override_download_flag := override_download_flag s;
     modem_storage_index_int := modem_storage_index_int s;
     skip_validation_flag := skip_validation_flag s |}.
Definition set_ignore_version_errors_flag (v : bool) (s : UpdateOptions) : UpdateOptions :=
  {| action_update_flag := action_update_flag s;
     firmware_version_str := firmware_version_str s;
     config_version_str := config_version_str s;
     carrier_str := carrier_str s;
     device_open_proxy_flag := device_open_proxy_flag s;
     device_open_qmi_flag := device_open_qmi_flag s;
     device_open_mbim_flag := device_open_mbim_flag s;
     device_open_auto_flag := device_open_auto_flag s;
     ignore_version_errors_flag := v;
     override_download_flag := override_download_flag s;
     modem_storage_index_int := modem_storage_index_int s;
     skip_validation_flag := skip_validation_flag s |}.
Definition set_override_download_flag (v : bool) (s : UpdateOptions) : UpdateOptions :=
  {| action_update_flag := action_update_flag s;
     firmware_version_str := firmware_version_str s;
     config_version_str := config_version_str s;
     carrier_str := carrier_str s;
     device_open_proxy_flag := device_open_proxy_flag s;
     device_open_qmi_flag := device_open_qmi_flag s;
     device_open_mbim_flag := device_open_mbim_flag s;
     device_open_auto_flag := device_open_auto_flag s;
     ignore_version_errors_flag := ignore_version_errors_flag s;
     override_download_flag := v;
     modem_storage_index_int := modem_storage_index_int s;
     skip_validation_flag := skip_validation_flag s |}.
Definition set_modem_storage_index_int (v : Z) (s : UpdateOptions) : UpdateOptions :=
  {| action_update_flag := action_update_flag s;
     firmware_version_str := firmware_version_str s;
     config_version_str := config_version_str s;
     carrier_str := carrier_str s;
     device_open_proxy_flag := device_open_proxy_flag s;
     device_open_qmi_flag := device_open_qmi_flag s;
     device_open_mbim_flag := device_open_mbim_flag s;
     device_open_auto_flag := device_open_auto_flag s;
     ignore_version_errors_flag := ignore_version_errors_flag s;
     override_download_flag := override_download_flag s;
     modem_storage_index_int := v;
     skip_validation_flag := skip_validation_flag s |}.
Definition set_skip_validation_flag (v : bool) (s : UpdateOptions) : UpdateOptions :=
  {| action_update_flag := action_update_flag s;
     firmware_version_str := firmware_version_str s;
     config_version_str := config_version_str s;
     carrier_str := carrier_str s;
     device_open_proxy_flag := device_open_proxy_flag s;
     device_open_qmi_flag := device_open_qmi_flag s;
     device_open_mbim_flag := device_open_mbim_flag s;
     device_open_auto_flag := device_open_auto_flag s;
     ignore_version_errors_flag := ignore_version_errors_flag s;
     override_download_flag := override_download_flag s;
     modem_storage_index_int := modem_storage_index_int s;
     skip_validation_flag := v |}.

(** Main *)
Record MainOptions := {
  image_strv : option (list string);
  stdout_verbose_flag : bool;
  stdout_silent_flag : bool;
  verbose_log_str : option string;
  version_flag : bool;
  help_flag : bool;
  help_examples_flag : bool
}.

Definition set_image_strv (v : option (list string)) (s : MainOptions) : MainOptions :=
  {| image_strv := v; stdout_verbose_flag := stdout_verbose_flag s;
     stdout_silent_flag := stdout_silent_flag s;
     verbose_log_str := verbose_log_str s; version_flag := version_flag s;
     help_flag := help_flag s; help_examples_flag := help_examples_flag s |}.
Definition set_stdout_verbose_flag (v : bool) (s : MainOptions) : MainOptions :=
  {| image_strv := image_strv s; stdout_verbose_flag := v;
     stdout_silent_flag := stdout_silent_flag s;
     verbose_log_str := verbose_log_str s; version_flag := version_flag s;
     help_flag := help_flag s; help_examples_flag := help_examples_flag s |}.
Definition set_stdout_silent_flag (v : bool) (s : MainOptions) : MainOptions :=
  {| image_strv := image_strv s;
     stdout_verbose_flag := stdout_verbose_flag s; stdout_silent_flag := v;
     verbose_log_str := verbose_log_str s; version_flag := version_flag s;
     help_flag := help_flag s; help_examples_flag := help_examples_flag s |}.
Definition set_verbose_log_str (v : option string) (s : MainOptions) : MainOptions :=
  {| image_strv := image_strv s;
     stdout_verbose_flag := stdout_verbose_flag s;
     stdout_silent_flag := stdout_silent_flag s; verbose_log_str := v;
     version_flag := version_flag s; help_flag := help_flag s;
     help_examples_flag := help_examples_flag s |}.
Definition set_version_flag (v : bool) (s : MainOptions) : MainOptions :=
  {| image_strv := image_strv s;
     stdout_verbose_flag := stdout_verbose_flag s;
     stdout_silent_flag := stdout_silent_flag s;
     verbose_log_str := verbose_log_str s; version_flag := v;
     help_flag := help_flag s; help_examples_flag := help_examples_flag s |}.
Definition set_help_flag (v : bool) (s : MainOptions) : MainOptions :=
  {| image_strv := image_strv s;
     stdout_verbose_flag := stdout_verbose_flag s;
     stdout_silent_flag := stdout_silent_flag s;
     verbose_log_str := verbose_log_str s; version_flag := version_flag s;
     help_flag := v; help_examples_flag := help_examples_flag s |}.
Definition set_help_examples_flag (v : bool) (s : MainOptions) : MainOptions :=
  {| image_strv := image_strv s;
     stdout_verbose_flag := stdout_verbose_flag s;
     stdout_silent_flag := stdout_silent_flag s;
     verbose_log_str := verbose_log_str s; version_flag := version_flag s;
     help_flag := help_flag s; help_examples_flag := v |}.

(** All the option variables, with the three action flags of the Reset,
    Update (QDL mode) and Verify groups. *)
Record Options := {
  selection : Selection;
  update : UpdateOptions;
  action_reset_flag : bool;
  action_update_qdl_flag : bool;
  action_verify_flag : bool;
  main_options : MainOptions
}.

Definition set_selection (v : Selection) (s : Options) : Options :=
  {| selection := v; update := update s;
     action_reset_flag := action_reset_flag s;
     action_update_qdl_flag := action_update_qdl_flag s;
     action_verify_flag := action_verify_flag s;
     main_options := main_options s |}.
Definition set_update (v : UpdateOptions) (s : Options) : Options :=
  {| selection := selection s; update := v;
     action_reset_flag := action_reset_flag s;
     action_update_qdl_flag := action_update_qdl_flag s;
     action_verify_flag := action_verify_flag s;
     main_options := main_options s |}.
Definition set_action_reset_flag (v : bool) (s : Options) : Options :=
  {| selection := selection s; update := update s; action_reset_flag := v;
     action_update_qdl_flag := action_update_qdl_flag s;
     action_verify_flag := action_verify_flag s;
     main_options := main_options s |}.
Definition set_action_update_qdl_flag (v : bool) (s : Options) : Options :=
  {| selection := selection s; update := update s;
     action_reset_flag := action_reset_flag s; action_update_qdl_flag := v;
     action_verify_flag := action_verify_flag s;
     main_options := main_options s |}.
Definition set_action_verify_flag (v : bool) (s : Options) : Options :=
  {| selection := selection s; update := update s;
     action_reset_flag := action_reset_flag s;
     action_update_qdl_flag := action_update_qdl_flag s;
     action_verify_flag := v; main_options := main_options s |}.
Definition set_main_options (v : MainOptions) (s : Options) : Options :=
  {| selection := selection s; update := update s;
     action_reset_flag := action_reset_flag s;
     action_update_qdl_flag := action_update_qdl_flag s;
     action_verify_flag := action_verify_flag s; main_options := v |}.

(** A [gboolean] flag is [FALSE] until its option sets it to [TRUE];
    every other variable starts as zero or [NULL]. *)
Definition selection0 : Selection :=
  {| busnum := 0; devnum := 0; vid := 0; pid := 0;
     cdc_wdm_str := None; tty_str := None |}.

Definition update0 : UpdateOptions :=
  {| action_update_flag := false; firmware_version_str := None;
     config_version_str := None; carrier_str := None;
     device_open_proxy_flag := false; device_open_qmi_flag := false;
     device_open_mbim_flag := false; device_open_auto_flag := false;
     ignore_version_errors_flag := false; override_download_flag := false;
     modem_storage_index_int := 0; skip_validation_flag := false |}.

Definition main_options0 : MainOptions :=
  {| image_strv := None; stdout_verbose_flag := false;
     stdout_silent_flag := false; verbose_log_str := None;
     version_flag := false; help_flag := false; help_examples_flag := false |}.

Definition options0 : Options :=
  {| selection := selection0; update := update0;
     action_reset_flag := false; action_update_qdl_flag := false;
     action_verify_flag := false; main_options := main_options0 |}.

Definition in_update (f : UpdateOptions -> UpdateOptions) (o : Options) : Options :=
  set_update (f (update o)) o.
Definition in_main (f : MainOptions -> MainOptions) (o : Options) : Options :=
  set_main_options (f (main_options o)) o.
Definition in_selection (f : Selection -> Selection) (o : Options) : Options :=
  set_selection (f (selection o)) o.

(* ================================================================== *)
(** ** The option tables (lines 178-303)

    One constructor per entry of the [GOptionEntry] tables, carrying the
    argument GLib hands to the entry.  A command line is the list of the
    entries met from left to right, as [g_option_context_parse] meets
    them; cutting [argv] into options and arguments is GLib's work and is
    not modelled.  [Glib_reject] stands for a place where GLib itself
    refuses the command line (an unknown option, a missing argument, a
    malformed integer), with GLib's message. *)
Inductive cli_arg :=
(* context_selection_entries *)
| Opt_busnum_devnum (value : string)          (* G_OPTION_ARG_CALLBACK *)
| Opt_vid_pid (value : string)                (* G_OPTION_ARG_CALLBACK *)
| Opt_cdc_wdm (path : string)
| Opt_tty (path : string)
(* context_update_entries *)
| Opt_update
| Opt_firmware_version (version : string)
| Opt_config_version (version : string)
| Opt_carrier (carrier : string)
| Opt_ignore_version_errors
| Opt_override_download
| Opt_modem_storage_index (index : Z)         (* G_OPTION_ARG_INT *)
| Opt_skip_validation
(* context_reset_entries, context_update_qdl_entries, context_verify_entries *)
| Opt_reset
| Opt_update_qdl
| Opt_verify
(* context_main_entries *)
| Arg_remaining (file : string)               (* G_OPTION_REMAINING *)
| Opt_device_open_proxy
| Opt_device_open_qmi
| Opt_device_open_mbim
| Opt_device_open_auto
| Opt_verbose
| Opt_silent
| Opt_verbose_log (path : string)
| Opt_version
| Opt_help
| Opt_help_examples
| Glib_reject (message : string).

Inductive parse_result :=
| ParseOk (o : Options)
| ParseError (message : string)
| ParseAbort.

Definition run_callback (cb : string -> Selection -> callback_result * Selection)
  (value : string) (o : Options) : parse_result :=
  match cb value (selection o) with
  | (CbTrue, st) => ParseOk (set_selection st o)
  | (CbFalse msg, _) => ParseError msg
  | (CbAbort, _) => ParseAbort
  end.

(** [G_OPTION_ARG_FILENAME_ARRAY]: the vector is allocated by the first
    file and grows by one with each further file. *)
Definition strv_append (v : option (list string)) (f : string) : option (list string) :=
  match v with
  | None => Some [f]
  | Some l => Some (l ++ [f])%list
  end.

Definition apply_entry (a : cli_arg) (o : Options) : parse_result :=
  match a with
  | Opt_busnum_devnum value => run_callback parse_busnum_devnum value o
  | Opt_vid_pid value => run_callback parse_vid_pid value o
  | Opt_cdc_wdm p => ParseOk (in_selection (set_cdc_wdm_str (Some p)) o)
  | Opt_tty p => ParseOk (in_selection (set_tty_str (Some p)) o)
  | Opt_update => ParseOk (in_update (set_action_update_flag true) o)
  | Opt_firmware_version v => ParseOk (in_update (set_firmware_version_str (Some v)) o)
  | Opt_config_version v => ParseOk (in_update (set_config_version_str (Some v)) o)
  | Opt_carrier c => ParseOk (in_update (set_carrier_str (Some c)) o)
  | Opt_ignore_version_errors => ParseOk (in_update (set_ignore_version_errors_flag true) o)
  | Opt_override_download => ParseOk (in_update (set_override_download_flag true) o)
  | Opt_modem_storage_index n => ParseOk (in_update (set_modem_storage_index_int n) o)
  | Opt_skip_validation => ParseOk (in_update (set_skip_validation_flag true) o)
  | Opt_reset => ParseOk (set_action_reset_flag true o)
  | Opt_update_qdl => ParseOk (set_action_update_qdl_flag true o)
  | Opt_verify => ParseOk (set_action_verify_flag true o)
  | Arg_remaining f =>
      ParseOk (in_main (fun m => set_image_strv (strv_append (image_strv m) f) m) o)
  | Opt_device_open_proxy => ParseOk (in_update (set_device_open_proxy_flag true) o)
  | Opt_device_open_qmi => ParseOk (in_update (set_device_open_qmi_flag true) o)
  | Opt_device_open_mbim => ParseOk (in_update (set_device_open_mbim_flag true) o)
  | Opt_device_open_auto => ParseOk (in_update (set_device_open_auto_flag true) o)
  | Opt_verbose => ParseOk (in_main (set_stdout_verbose_flag true) o)
  | Opt_silent => ParseOk (in_main (set_stdout_silent_flag true) o)
  | Opt_verbose_log p => ParseOk (in_main (set_verbose_log_str (Some p)) o)
  | Opt_version => ParseOk (in_main (set_version_flag true) o)
  | Opt_help => ParseOk (in_main (set_help_flag true) o)
  | Opt_help_examples => ParseOk (in_main (set_help_examples_flag true) o)
  | Glib_reject msg => ParseError msg
  end.

(** [g_option_context_parse]: the entries are applied in command-line
    order and the first failure ends the parse. *)
Fixpoint g_option_context_parse (argv : list cli_arg) (o : Options) : parse_result :=
  match argv with
  | [] => ParseOk o
  | a :: rest =>
      match apply_entry a o with
      | ParseOk o' => g_option_context_parse rest o'
      | failure => failure
      end
  end.

(* ================================================================== *)
(** ** [main] (lines 471-639) *)

(** [QMI_DEVICE_OPEN_FLAGS_NONE], the empty flag set. *)
Definition QMI_DEVICE_OPEN_FLAGS_NONE : Z := 0.

(** A statement of [main] either falls through to the next one, jumps
    to the label [out], or aborts the process ([g_assert]). *)
Inductive control (A : Type) :=
| Next (a : A)
| GotoOut
| Abort.
Arguments Next {A} a.
Arguments GotoOut {A}.
Arguments Abort {A}.

Section Main.

(** The collaborators of [main] that live outside this file: the
    [QfuDeviceSelection] object type with its constructor, the three
    [QmiDeviceOpenFlags] values [main] uses (from libqmi-glib), and
    the four operations. *)
Variable QfuDeviceSelection : Type.
Variables QMI_DEVICE_OPEN_FLAGS_PROXY
          QMI_DEVICE_OPEN_FLAGS_MBIM
          QMI_DEVICE_OPEN_FLAGS_AUTO : Z.

(** [qfu_device_selection_new (cdc_wdm, tty, vid, pid, busnum, devnum,
    &error)]: the new object, or [NULL] with an error message. *)
Variable qfu_device_selection_new :
  option string -> option string -> Z -> Z -> Z -> Z ->
  string + QfuDeviceSelection.

(** The four operation entry points, with the arguments [main] gives
    them. *)
Inductive operation :=
| qfu_operation_update_run
    (images : option (list string)) (device_selection : QfuDeviceSelection)
    (firmware_version config_version carrier : option string)
    (device_open_flags : Z)
    (ignore_version_errors override_download : bool)
    (modem_storage_index : Z) (skip_validation : bool)
| qfu_operation_update_qdl_run
    (images : option (list string)) (device_selection : QfuDeviceSelection)
| qfu_operation_reset_run
    (device_selection : QfuDeviceSelection) (device_open_flags : Z)
| qfu_operation_verify_run
    (images : option (list string)).

(** What the called operation returns. *)
Variable operation_returns : operation -> bool.

(** What [main] does that is visible from outside, in order. *)
Inductive event :=
| PrintVersion
| PrintHelp
| PrintHelpExamples
| Printerr (message : string)
| LogInit (verbose silent : bool) (verbose_log : option string)
| LogShutdown
| DeviceSelectionNew (cdc_wdm tty : option string) (vid pid busnum devnum : Z)
| Run (op : operation) (returned : bool)
| Unref (device_selection : QfuDeviceSelection).

(** The local variables of [main] that outlive a [goto out], and the
    events so far. *)
Record Locals := {
  result : bool;
  device_selection : option QfuDeviceSelection;
  device_open_flags : Z;
  trace : list event
}.

Definition locals0 : Locals :=
  {| result := false; device_selection := None;
     device_open_flags := QMI_DEVICE_OPEN_FLAGS_NONE; trace := [] |}.

Definition M (A : Type) : Type := Locals -> control A * Locals.

Definition ret {A} (a : A) : M A := fun l => (Next a, l).

Definition bind {A B} (c : M A) (k : A -> M B) : M B :=
  fun l =>
    match c l with
    | (Next a, l') => k a l'
    | (GotoOut, l') => (GotoOut, l')
    | (Abort, l') => (Abort, l')
    end.

Notation "x <- c ;; k" := (bind c (fun x => k))
  (at level 61, c at next level, right associativity).
Notation "c ;; k" := (bind c (fun _ => k))
  (at level 61, right associativity).

Definition goto_out : M unit := fun l => (GotoOut, l).
Definition abort : M unit := fun l => (Abort, l).

Definition emit (e : event) : M unit :=
  fun l => (Next tt,
            {| result := result l; device_selection := device_selection l;
               device_open_flags := device_open_flags l;
               trace := (trace l ++ [e])%list |}).

Definition set_result (r : bool) : M unit :=
  fun l => (Next tt,
            {| result := r; device_selection := device_selection l;
               device_open_flags := device_open_flags l; trace := trace l |}).

Definition set_device_selection (d : option QfuDeviceSelection) : M unit :=
  fun l => (Next tt,
            {| result := result l; device_selection := d;
               device_open_flags := device_open_flags l; trace := trace l |}).

(** [device_open_flags |= f] *)
Definition or_device_open_flags (f : Z) : M unit :=
  fun l => (Next tt,
            {| result := result l; device_selection := device_selection l;
               device_open_flags := Z.lor (device_open_flags l) f;
               trace := trace l |}).

Definition get_device_selection : M (option QfuDeviceSelection) :=
  fun l => (Next (device_selection l), l).
Definition get_device_open_flags : M Z :=
  fun l => (Next (device_open_flags l), l).

Definition when (b : bool) (c : M unit) : M unit := if b then c else ret tt.

Definition g_printerr (message : string) : M unit := emit (Printerr message).

(** Lines 518-534. *)
Definition informational_flags (o : Options) : M unit :=
  when (version_flag (main_options o))
    (emit PrintVersion ;; set_result true ;; goto_out) ;;
  when (help_flag (main_options o))
    (emit PrintHelp ;; set_result true ;; goto_out) ;;
  when (help_examples_flag (main_options o))
    (emit PrintHelpExamples ;; set_result true ;; goto_out).

(** Lines 540-551: "We don't allow multiple actions at the same time". *)
Definition n_actions (o : Options) : Z :=
  Z.b2z (action_verify_flag o) +
  Z.b2z (action_update_flag (update o)) +
  Z.b2z (action_update_qdl_flag o) +
  Z.b2z (action_reset_flag o).

Definition check_actions (o : Options) : M unit :=
  when (n_actions o =? 0)
    (g_printerr ("error: no actions specified" ++ nl) ;; goto_out) ;;
  when (1 <? n_actions o)
    (g_printerr ("error: too many actions specified" ++ nl) ;; goto_out).

(** Lines 554-557: "A list of images must be provided for update and
    verify operations". *)
Definition check_images (o : Options) : M unit :=
  when ((action_verify_flag o || action_update_flag (update o)
         || action_update_qdl_flag o)
        && match image_strv (main_options o) with
           | None => true
           | Some _ => false
           end)
    (g_printerr ("error: no firmware images specified" ++ nl) ;; goto_out).

(** Lines 560-567: "device selection must be performed for update and
    reset operations". *)
Definition select_device (o : Options) : M unit :=
  when (action_update_flag (update o) || action_update_qdl_flag o
        || action_reset_flag o)
    (let s := selection o in
     emit (DeviceSelectionNew (cdc_wdm_str s) (tty_str s)
                              (vid s) (pid s) (busnum s) (devnum s)) ;;
     match qfu_device_selection_new (cdc_wdm_str s) (tty_str s)
                                    (vid s) (pid s) (busnum s) (devnum s) with
     | inr d => set_device_selection (Some d)
     | inl message =>
         g_printerr ("error: couldn't select device:: " ++ message ++ nl) ;;
         goto_out
     end).

(** Lines 570-581: "Validate device open flags". *)
Definition validate_device_open_flags (o : Options) : M unit :=
  let u := update o in
  when (action_update_flag u || action_reset_flag o)
    (when (1 <? Z.b2z (device_open_mbim_flag u)
                + Z.b2z (device_open_qmi_flag u)
                + Z.b2z (device_open_auto_flag u))
       (g_printerr ("error: cannot specify multiple mode flags to open device" ++ nl) ;;
        goto_out) ;;
     when (device_open_proxy_flag u)
       (or_device_open_flags QMI_DEVICE_OPEN_FLAGS_PROXY) ;;
     when (device_open_mbim_flag u)
       (or_device_open_flags QMI_DEVICE_OPEN_FLAGS_MBIM) ;;
     when (device_open_auto_flag u
           || (negb (device_open_qmi_flag u) && negb (device_open_mbim_flag u)))
       (or_device_open_flags QMI_DEVICE_OPEN_FLAGS_AUTO)).

(** [g_assert (QFU_IS_DEVICE_SELECTION (device_selection))] *)
Definition assert_device_selection : M QfuDeviceSelection :=
  fun l =>
    match device_selection l with
    | Some d => (Next d, l)
    | None => (Abort, l)
    end.

(** [result = qfu_operation_..._run (...); goto out;] *)
Definition run_operation (op : operation) : M unit :=
  let r := operation_returns op in
  emit (Run op r) ;; set_result r ;; goto_out.

(** Lines 585-626: "Run". *)
Definition run_action (o : Options) : M unit :=
  let u := update o in
  when (action_update_flag u)
    (d <- assert_device_selection ;;
     when ((modem_storage_index_int u <? 0)
           || (G_MAXUINT8 <? modem_storage_index_int u))
       (g_printerr ("error: invalid modem storage index" ++ nl) ;; goto_out) ;;
     flags <- get_device_open_flags ;;
     run_operation
       (qfu_operation_update_run
          (image_strv (main_options o)) d
          (firmware_version_str u) (config_version_str u) (carrier_str u)
          flags
          (ignore_version_errors_flag u) (override_download_flag u)
          (to_guint8 (modem_storage_index_int u))
          (skip_validation_flag u))) ;;
  when (action_update_qdl_flag o)
    (d <- assert_device_selection ;;
     run_operation
       (qfu_operation_update_qdl_run (image_strv (main_options o)) d)) ;;
  when (action_reset_flag o)
    (d <- assert_device_selection ;;
     flags <- get_device_open_flags ;;
     run_operation (qfu_operation_reset_run d flags)) ;;
  when (action_verify_flag o)
    (run_operation (qfu_operation_verify_run (image_strv (main_options o)))) ;;
  abort.                                        (* g_assert_not_reached () *)

(** Lines 518-626, once the options are parsed. *)
Definition main_parsed (o : Options) : M unit :=
  informational_flags o ;;
  emit (LogInit (stdout_verbose_flag (main_options o))
                (stdout_silent_flag (main_options o))
                (verbose_log_str (main_options o))) ;;
  check_actions o ;;
  check_images o ;;
  select_device o ;;
  validate_device_open_flags o ;;
  run_action o.

(** How the process ends: [main] returns an exit status, or the
    process is aborted by a failed assertion. *)
Inductive process_end :=
| Exited (status : Z) (events : list event)
| Aborted (events : list event).

(** The label [out] (lines 628-638). *)
Definition out (l : Locals) : process_end :=
  Exited (if result l then EXIT_SUCCESS else EXIT_FAILURE)
         (trace l ++ [LogShutdown]
            ++ match device_selection l with
               | Some d => [Unref d]
               | None => []
               end)%list.

Definition finish (r : control unit * Locals) : process_end :=
  match r with
  | (Abort, l) => Aborted (trace l)
  | (_, l) => out l
  end.

(** [main] on the options as they stand after a successful parse. *)
Definition main_with (o : Options) : process_end :=
  finish (main_parsed o locals0).

Definition main (argv : list cli_arg) : process_end :=
  match g_option_context_parse argv options0 with
  | ParseAbort => Aborted []
  | ParseError message =>
      finish ((g_printerr ("error: couldn't parse option context: "
                           ++ message ++ nl) ;; goto_out) locals0)
  | ParseOk o => main_with o
  end.

End Main.

Arguments Exited {QfuDeviceSelection} status events.
Arguments Aborted {QfuDeviceSelection} events.
Arguments PrintVersion {QfuDeviceSelection}.
Arguments PrintHelp {QfuDeviceSelection}.
Arguments PrintHelpExamples {QfuDeviceSelection}.
Arguments Printerr {QfuDeviceSelection} message.
Arguments LogInit {QfuDeviceSelection} verbose silent verbose_log.
Arguments LogShutdown {QfuDeviceSelection}.
Arguments DeviceSelectionNew {QfuDeviceSelection} cdc_wdm tty vid pid busnum devnum.
Arguments Run {QfuDeviceSelection} op returned.
Arguments Unref {QfuDeviceSelection} device_selection.
Arguments qfu_operation_update_run {QfuDeviceSelection}.
Arguments qfu_operation_update_qdl_run {QfuDeviceSelection}.
Arguments qfu_operation_reset_run {QfuDeviceSelection}.
Arguments qfu_operation_verify_run {QfuDeviceSelection}.

(* ================================================================== *)
(** ** Reading numerals and tokens

    The words of the specification about tokens: a numeral of a base is
    a non-empty string of digits of that base, and its value is the
    positional one. *)

Fixpoint numeral_value (base : Z) (s : string) : option Z :=
  match s with
  | EmptyString => Some 0
  | String c r =>
      match digit_in_base base c, numeral_value base r with
      | Some d, Some v => Some (d * base ^ Z.of_nat (String.length r) + v)
      | _, _ => None
      end
  end.

Definition is_numeral (base : Z) (s : string) (v : Z) : Prop :=
  s <> EmptyString /\ numeral_value base s = Some v.

Fixpoint has_colon (s : string) : bool :=
  match s with
  | EmptyString => false
  | String c r => Ascii.eqb c colon || has_colon r
  end.

(** A field value the parsers refuse: zero, or above the maximum. *)
Definition refused (max v : Z) : bool := (v =? 0) || (max <? v).

(** What [parse_busnum_devnum] does with the fields of its token. *)
Definition busnum_devnum_of_fields (fields : list string) (st : Selection)
  : callback_result * Selection :=
  match fields with
  | [] => (CbAbort, st)
  | [d] =>
      if refused G_MAXUINT (strtoul d 10)
      then (CbFalse ("invalid dev number: " ++ d), st)
      else (CbTrue, set_devnum (strtoul d 10) st)
  | [b; d] =>
      if refused G_MAXUINT (strtoul b 10)
      then (CbFalse ("invalid bus number: " ++ b), st)
      else if refused G_MAXUINT (strtoul d 10)
      then (CbFalse ("invalid dev number: " ++ d), set_busnum (strtoul b 10) st)
      else (CbTrue, set_devnum (strtoul d 10) (set_busnum (strtoul b 10) st))
  | _ :: _ :: _ :: _ =>
      (CbFalse "invalid busnum-devnum string: too many fields", st)
  end.

(** What [parse_vid_pid] does with the fields of its token. *)
Definition vid_pid_of_fields (fields : list string) (st : Selection)
  : callback_result * Selection :=
  match fields with
  | [] => (CbAbort, st)
  | [v] =>
      if refused G_MAXUINT16 (strtoul v 16)
      then (CbFalse ("invalid vendor id: " ++ v), st)
      else (CbTrue, set_vid (strtoul v 16) st)
  | [v; p] =>
      if refused G_MAXUINT16 (strtoul p 16)
      then (CbFalse ("invalid product id: " ++ p), st)
      else if refused G_MAXUINT16 (strtoul v 16)
      then (CbFalse ("invalid vendor id: " ++ v), set_pid (strtoul p 16) st)
      else (CbTrue, set_vid (strtoul v 16) (set_pid (strtoul p 16) st))
  | _ :: _ :: _ :: _ =>
      (CbFalse "invalid vid-pid string: too many fields", st)
  end.

(* ================================================================== *)
(** ** The words of the claims about [main] *)

Arguments trace {QfuDeviceSelection} l.
Arguments result {QfuDeviceSelection} l.
Arguments device_selection {QfuDeviceSelection} l.
Arguments device_open_flags {QfuDeviceSelection} l.
Arguments check_actions {QfuDeviceSelection} o _.
Arguments check_images {QfuDeviceSelection} o _.

(** The four actions, and the action of an invocation that asks for
    exactly one. *)
Inductive action := Update | UpdateQdl | Reset | Verify.

Definition sole_action (o : Options) : option action :=
  match action_verify_flag o, action_update_flag (update o),
        action_update_qdl_flag o, action_reset_flag o with
  | true, false, false, false => Some Verify
  | false, true, false, false => Some Update
  | false, false, true, false => Some UpdateQdl
  | false, false, false, true => Some Reset
  | _, _, _, _ => None
  end.

(** How many of the four action flags are set. *)
Definition actions_requested (o : Options) : nat :=
  List.length (filter (fun b : bool => b)
                 [action_verify_flag o; action_update_flag (update o);
                  action_update_qdl_flag o; action_reset_flag o]).

Definition no_informational_flag (o : Options) : bool :=
  negb (version_flag (main_options o))
  && negb (help_flag (main_options o))
  && negb (help_examples_flag (main_options o)).

(** More than one of the three mode flags. *)
Definition conflicting_modes (o : Options) : bool :=
  let u := update o in
  (device_open_qmi_flag u && device_open_mbim_flag u)
  || (device_open_qmi_flag u && device_open_auto_flag u)
  || (device_open_mbim_flag u && device_open_auto_flag u).

(** The open flags [main] arrives at when the modes do not conflict. *)
Definition resolved_open_flags (PROXY MBIM AUTO : Z) (o : Options) : Z :=
  let u := update o in
  Z.lor (Z.lor (if device_open_proxy_flag u then PROXY else 0)
               (if device_open_mbim_flag u then MBIM else 0))
        (if device_open_auto_flag u
            || (negb (device_open_qmi_flag u) && negb (device_open_mbim_flag u))
         then AUTO else 0).

Definition exit_status (r : bool) : Z :=
  if r then EXIT_SUCCESS else EXIT_FAILURE.

Definition log_init_event {DS : Type} (o : Options) : event DS :=
  LogInit (stdout_verbose_flag (main_options o))
          (stdout_silent_flag (main_options o))
          (verbose_log_str (main_options o)).

Definition device_selection_event {DS : Type} (o : Options) : event DS :=
  let s := selection o in
  DeviceSelectionNew (cdc_wdm_str s) (tty_str s) (vid s) (pid s)
                     (busnum s) (devnum s).

Definition select_call {DS : Type}
  (new : option string -> option string -> Z -> Z -> Z -> Z -> string + DS)
  (o : Options) : string + DS :=
  let s := selection o in
  new (cdc_wdm_str s) (tty_str s) (vid s) (pid s) (busnum s) (devnum s).

(** The update operation as [main] calls it for the options [o]. *)
Definition update_call {DS : Type} (o : Options) (d : DS) (flags index : Z)
  : operation DS :=
  let u := update o in
  qfu_operation_update_run (image_strv (main_options o)) d
    (firmware_version_str u) (config_version_str u) (carrier_str u)
    flags (ignore_version_errors_flag u) (override_download_flag u)
    index (skip_validation_flag u).

Definition is_run {DS : Type} (e : event DS) : bool :=
  match e with Run _ _ => true | _ => false end.

Definition is_printerr {DS : Type} (e : event DS) : bool :=
  match e with Printerr _ => true | _ => false end.

Definition is_informational {DS : Type} (e : event DS) : bool :=
  match e with
  | PrintVersion | PrintHelp | PrintHelpExamples => true
  | _ => false
  end.

Definition is_device_selection {DS : Type} (e : event DS) : bool :=
  match e with DeviceSelectionNew _ _ _ _ _ _ => true | _ => false end.

Definition is_successful_run {DS : Type} (e : event DS) : bool :=
  match e with Run _ r => r | _ => false end.

Definition count_runs {DS : Type} (tr : list (event DS)) : nat :=
  List.length (filter is_run tr).

Definition events_of {DS : Type} (p : process_end DS) : list (event DS) :=
  match p with
  | Exited _ tr => tr
  | Aborted tr => tr
  end.

(** Events that are neither an operation, nor an error message, nor an
    informational print. *)
Definition quiet {DS : Type} (tr : list (event DS)) : bool :=
  forallb (fun e => negb (is_run e || is_printerr e || is_informational e)) tr.

(** The positional arguments of a command line, in order. *)
Fixpoint positional (argv : list cli_arg) : list string :=
  match argv with
  | [] => []
  | Arg_remaining f :: rest => f :: positional rest
  | _ :: rest => positional rest
  end.

(** The error messages of [main], with their final newline. *)
Definition msg_no_actions : string := "error: no actions specified" ++ nl.
Definition msg_too_many_actions : string := "error: too many actions specified" ++ nl.
Definition msg_no_images : string := "error: no firmware images specified" ++ nl.
Definition msg_multiple_modes : string :=
  "error: cannot specify multiple mode flags to open device" ++ nl.
Definition msg_storage_index : string := "error: invalid modem storage index" ++ nl.
Definition msg_select (message : string) : string :=
  "error: couldn't select device:: " ++ message ++ nl.

(* ================================================================== *)
(** ** A concrete setting, for the examples

    Collaborators to run [main] with: a device selection that succeeds
    as soon as one criterion is given, the open flags as three distinct
    bits, and operations that all succeed but the reset. *)

Definition example_selection_new (cdc_wdm tty : option string)
  (vid pid busnum devnum : Z) : string + unit :=
  match cdc_wdm, tty with
  | None, None =>
      if (vid =? 0) && (busnum =? 0) && (devnum =? 0)
      then inl "No device selected"
      else inr tt
  | _, _ => inr tt
  end.

Definition example_returns (op : operation unit) : bool :=
  match op with
  | qfu_operation_reset_run _ _ => false
  | _ => true
  end.

Definition example_main (argv : list cli_arg) : process_end unit :=
  main unit (2 ^ 6) (2 ^ 7) (2 ^ 8) example_selection_new example_returns argv.

Definition example_main_with (o : Options) : process_end unit :=
  main_with unit (2 ^ 6) (2 ^ 7) (2 ^ 8) example_selection_new example_returns o.

(** The options a command line leaves behind ([options0] if it is
    refused). *)
Definition parsed (argv : list cli_arg) : Options :=
  match g_option_context_parse argv options0 with
  | ParseOk o => o
  | _ => options0
  end.

Definition cli_update : list cli_arg :=
  [Opt_update; Opt_vid_pid "1199:68c0";
   Arg_remaining "file1.cwe"; Arg_remaining "file2.nvu"].

Definition cli_update_index (n : Z) : list cli_arg :=
  Opt_modem_storage_index n :: cli_update.

Definition cli_reset_modes : list cli_arg :=
  [Opt_reset; Opt_busnum_devnum "1:2"; Opt_device_open_qmi; Opt_device_open_mbim].

Definition cli_reset_proxy_auto : list cli_arg :=
  [Opt_reset; Opt_busnum_devnum "1:2"; Opt_device_open_proxy; Opt_device_open_auto].

Definition cli_verify_modes : list cli_arg :=
  [Opt_verify; Opt_device_open_qmi; Opt_device_open_mbim; Arg_remaining "file.cwe"].

Definition cli_update_qdl_modes : list cli_arg :=
  [Opt_update_qdl; Opt_tty "/dev/ttyUSB2"; Opt_device_open_qmi;
   Opt_device_open_mbim; Arg_remaining "file.cwe"].

(* ================================================================== *)
(** ** Further words, for the properties beyond the claims *)

Fixpoint count_colons (s : string) : nat :=
  match s with
  | EmptyString => O
  | String c r => if Ascii.eqb c colon then S (count_colons r) else count_colons r
  end.

Fixpoint all_spaces (s : string) : bool :=
  match s with
  | EmptyString => true
  | String c r => isspace c && all_spaces r
  end.

Definition starts_with_digit (base : Z) (s : string) : bool :=
  match s with
  | String c _ =>
      match digit_in_base base c with Some _ => true | None => false end
  | EmptyString => false
  end.

(** The values of a [Selection] fit the C types of its variables. *)
Definition selection_fits (st : Selection) : Prop :=
  0 <= busnum st <= G_MAXUINT /\ 0 <= devnum st <= G_MAXUINT
  /\ 0 <= vid st <= G_MAXUINT16 /\ 0 <= pid st <= G_MAXUINT16.

(** The entries of kind [G_OPTION_ARG_NONE]. *)
Definition is_flag_entry (a : cli_arg) : bool :=
  match a with
  | Opt_update | Opt_ignore_version_errors | Opt_override_download
  | Opt_skip_validation | Opt_reset | Opt_update_qdl | Opt_verify
  | Opt_device_open_proxy | Opt_device_open_qmi | Opt_device_open_mbim
  | Opt_device_open_auto | Opt_verbose | Opt_silent
  | Opt_version | Opt_help | Opt_help_examples => true
  | _ => false
  end.

(** The action an operation belongs to, and the image vector it is
    given ([None] for the reset operation, which takes none). *)
Definition action_of {DS : Type} (op : operation DS) : action :=
  match op with
  | qfu_operation_update_run _ _ _ _ _ _ _ _ _ _ => Update
  | qfu_operation_update_qdl_run _ _ => UpdateQdl
  | qfu_operation_reset_run _ _ => Reset
  | qfu_operation_verify_run _ => Verify
  end.

Definition images_of {DS : Type} (op : operation DS) : option (list string) :=
  match op with
  | qfu_operation_update_run images _ _ _ _ _ _ _ _ _ => images
  | qfu_operation_update_qdl_run images _ => images
  | qfu_operation_reset_run _ _ => None
  | qfu_operation_verify_run images => images
  end.

Definition is_unref {DS : Type} (e : event DS) : bool :=
  match e with Unref _ => true | _ => false end.

Definition is_log_shutdown {DS : Type} (e : event DS) : bool :=
  match e with LogShutdown => true | _ => false end.

Definition is_log_init {DS : Type} (e : event DS) : bool :=
  match e with LogInit _ _ _ => true | _ => false end.

Definition msg_parse (message : string) : string :=
  "error: couldn't parse option context: " ++ message ++ nl.

(* ================================================================== *)
(** ** The option tables as data (lines 178-303)

    The long name, the short name (absent where the source has 0) and
    the argument kind of every entry.  [G_OPTION_REMAINING] is GLib's
    name for the entry that collects the positional arguments. *)

Inductive GOptionArg :=
| G_OPTION_ARG_NONE
| G_OPTION_ARG_STRING
| G_OPTION_ARG_INT
| G_OPTION_ARG_CALLBACK
| G_OPTION_ARG_FILENAME
| G_OPTION_ARG_FILENAME_ARRAY.

Record GOptionEntry := {
  long_name : string;
  short_name : option ascii;
  arg : GOptionArg
}.

Definition G_OPTION_REMAINING : string := EmptyString.

Definition context_selection_entries : list GOptionEntry :=
  [{| long_name := "busnum-devnum"; short_name := Some "s"%char;
      arg := G_OPTION_ARG_CALLBACK |};
   {| long_name := "vid-pid"; short_name := Some "d"%char;
      arg := G_OPTION_ARG_CALLBACK |};
   {| long_name := "cdc-wdm"; short_name := Some "w"%char;
      arg := G_OPTION_ARG_FILENAME |};
   {| long_name := "tty"; short_name := Some "t"%char;
      arg := G_OPTION_ARG_FILENAME |}].

Definition context_update_entries : list GOptionEntry :=
  [{| long_name := "update"; short_name := Some "u"%char;
      arg := G_OPTION_ARG_NONE |};
   {| long_name := "firmware-version"; short_name := Some "f"%char;
      arg := G_OPTION_ARG_STRING |};
   {| long_name := "config-version"; short_name := Some "c"%char;
      arg := G_OPTION_ARG_STRING |};
   {| long_name := "carrier"; short_name := Some "C"%char;
      arg := G_OPTION_ARG_STRING |};
   {| long_name := "ignore-version-errors"; short_name := None;
      arg := G_OPTION_ARG_NONE |};
   {| long_name := "override-download"; short_name := None;
      arg := G_OPTION_ARG_NONE |};
   {| long_name := "modem-storage-index"; short_name := None;
      arg := G_OPTION_ARG_INT |};
   {| long_name := "skip-validation"; short_name := None;
      arg := G_OPTION_ARG_NONE |}].

Definition context_reset_entries : list GOptionEntry :=
  [{| long_name := "reset"; short_name := Some "b"%char;
      arg := G_OPTION_ARG_NONE |}].

Definition context_update_qdl_entries : list GOptionEntry :=
  [{| long_name := "update-qdl"; short_name := Some "U"%char;
      arg := G_OPTION_ARG_NONE |}].

Definition context_verify_entries : list GOptionEntry :=
  [{| long_name := "verify"; short_name := Some "z"%char;
      arg := G_OPTION_ARG_NONE |}].

Definition context_main_entries : list GOptionEntry :=
  [{| long_name := G_OPTION_REMAINING; short_name := None;
      arg := G_OPTION_ARG_FILENAME_ARRAY |};
   {| long_name := "device-open-proxy"; short_name := Some "p"%char;
      arg := G_OPTION_ARG_NONE |};
   {| long_name := "device-open-qmi"; short_name := None;
      arg := G_OPTION_ARG_NONE |};
   {| long_name := "device-open-mbim"; short_name := None;
      arg := G_OPTION_ARG_NONE |};
   {| long_name := "device-open-auto"; short_name := None;
      arg := G_OPTION_ARG_NONE |};
   {| long_name := "verbose"; short_name := Some "v"%char;
      arg := G_OPTION_ARG_NONE |};
   {| long_name := "silent"; short_name := Some "S"%char;
      arg := G_OPTION_ARG_NONE |};
   {| long_name := "verbose-log"; short_name := Some "L"%char;
      arg := G_OPTION_ARG_FILENAME |};
   {| long_name := "version"; short_name := Some "V"%char;
      arg := G_OPTION_ARG_NONE |};
   {| long_name := "help"; short_name := Some "h"%char;
      arg := G_OPTION_ARG_NONE |};
   {| long_name := "help-examples"; short_name := Some "H"%char;
      arg := G_OPTION_ARG_NONE |}].

(** All the entries [main] registers, group by group and then the main
    entries (lines 489-509). *)
Definition all_entries : list GOptionEntry :=
  (context_selection_entries ++ context_update_entries
   ++ context_reset_entries ++ context_update_qdl_entries
   ++ context_verify_entries ++ context_main_entries)%list.

Definition short_names (es : list GOptionEntry) : list ascii :=
  flat_map (fun e => match short_name e with Some c => [c] | None => [] end) es.

(** The long name of the entry a parsed option came from. *)
Definition entry_name (a : cli_arg) : option string :=
  match a with
  | Opt_busnum_devnum _ => Some "busnum-devnum"
  | Opt_vid_pid _ => Some "vid-pid"
  | Opt_cdc_wdm _ => Some "cdc-wdm"
  | Opt_tty _ => Some "tty"
  | Opt_update => Some "update"
  | Opt_firmware_version _ => Some "firmware-version"
  | Opt_config_version _ => Some "config-version"
  | Opt_carrier _ => Some "carrier"
  | Opt_ignore_version_errors => Some "ignore-version-errors"
  | Opt_override_download => Some "override-download"
  | Opt_modem_storage_index _ => Some "modem-storage-index"
  | Opt_skip_validation => Some "skip-validation"
  | Opt_reset => Some "reset"
  | Opt_update_qdl => Some "update-qdl"
  | Opt_verify => Some "verify"
  | Arg_remaining _ => Some G_OPTION_REMAINING
  | Opt_device_open_proxy => Some "device-open-proxy"
  | Opt_device_open_qmi => Some "device-open-qmi"
  | Opt_device_open_mbim => Some "device-open-mbim"
  | Opt_device_open_auto => Some "device-open-auto"
  | Opt_verbose => Some "verbose"
  | Opt_silent => Some "silent"
  | Opt_verbose_log _ => Some "verbose-log"
  | Opt_version => Some "version"
  | Opt_help => Some "help"
  | Opt_help_examples => Some "help-examples"
  | Glib_reject _ => None
  end.

(* ================================================================== *)
(** ** Lemmas on [g_strsplit] *)

Lemma split_fields_no_colon (s : string) :
  has_colon s = false -> split_fields colon s = (s, []).
Proof.
  induction s as [|c r IH]; simpl; [reflexivity|].
  intros H. apply orb_false_iff in H. destruct H as [Hc Hr].
  rewrite (IH Hr), Hc. reflexivity.
Qed.

Lemma split_fields_app (a b : string) :
  has_colon a = false ->
  split_fields colon (a ++ String colon b)
  = (a, fst (split_fields colon b) :: snd (split_fields colon b)).
Proof.
  induction a as [|c r IH]; simpl.
  - intros _. destruct (split_fields colon b) as [t ts]. reflexivity.
  - intros H. apply orb_false_iff in H. destruct H as [Hc Hr].
    rewrite (IH Hr), Hc. reflexivity.
Qed.

Lemma g_strsplit_one (d : string) :
  d <> EmptyString -> has_colon d = false -> g_strsplit d colon = [d].
Proof.
  intros Hne Hd. unfold g_strsplit.
  rewrite (split_fields_no_colon d Hd).
  destruct d; [congruence | reflexivity].
Qed.

Lemma g_strsplit_two (b d : string) :
  has_colon b = false -> has_colon d = false ->
  g_strsplit (b ++ String colon d) colon = [b; d].
Proof.
  intros Hb Hd. unfold g_strsplit.
  rewrite (split_fields_app b d Hb), (split_fields_no_colon d Hd).
  destruct b; reflexivity.
Qed.

(** Every colon of the string opens one more field. *)
Lemma split_fields_colon_more (a b : string) :
  exists t x ts, split_fields colon (a ++ String colon b) = (t, x :: ts).
Proof.
  induction a as [|c r IH]; simpl.
  - destruct (split_fields colon b) as [t ts]. eauto.
  - destruct IH as (t & x & ts & ->).
    destruct (Ascii.eqb c colon); eauto.
Qed.

Lemma split_fields_two_colons (a b c : string) :
  exists t x y ts,
    split_fields colon (a ++ String colon (b ++ String colon c))
    = (t, x :: y :: ts).
Proof.
  induction a as [|ch r IH]; simpl.
  - destruct (split_fields_colon_more b c) as (t & x & ts & ->). eauto.
  - destruct IH as (t & x & y & ts & ->).
    destruct (Ascii.eqb ch colon); eauto.
Qed.

Lemma g_strsplit_three_or_more (a b c : string) :
  exists f0 f1 f2 rest,
    g_strsplit (a ++ String colon (b ++ String colon c)) colon
    = f0 :: f1 :: f2 :: rest.
Proof.
  unfold g_strsplit.
  destruct (split_fields_two_colons a b c) as (t & x & y & ts & E).
  rewrite E. destruct a; simpl; eauto.
Qed.

Lemma g_strsplit_nil (s : string) :
  g_strsplit s colon = [] -> s = EmptyString.
Proof.
  destruct s; [reflexivity|]. unfold g_strsplit.
  destruct (split_fields colon (String a s)). discriminate.
Qed.

(* ================================================================== *)
(** ** Lemmas on [strtoul] *)

Lemma digit_value_code (c : ascii) (d : Z) :
  digit_value c = Some d -> 48 <= code c /\ 0 <= d < 36.
Proof.
  unfold digit_value.
  destruct ((48 <=? code c) && (code c <=? 57)) eqn:E1.
  { apply andb_true_iff in E1. intros [= <-]. lia. }
  destruct ((97 <=? code c) && (code c <=? 122)) eqn:E2.
  { apply andb_true_iff in E2. intros [= <-]. lia. }
  destruct ((65 <=? code c) && (code c <=? 90)) eqn:E3.
  { apply andb_true_iff in E3. intros [= <-]. lia. }
  discriminate.
Qed.

Lemma digit_in_base_some (base : Z) (c : ascii) (d : Z) :
  digit_in_base base c = Some d ->
  digit_value c = Some d /\ 0 <= d < base.
Proof.
  unfold digit_in_base. destruct (digit_value c) as [d'|] eqn:E; [|discriminate].
  destruct (d' <? base) eqn:L; [|discriminate].
  intros [= <-]. apply digit_value_code in E. split; [reflexivity|lia].
Qed.

Lemma digit_not_space (base : Z) (c : ascii) (d : Z) :
  digit_in_base base c = Some d -> isspace c = false.
Proof.
  intros H. apply digit_in_base_some in H. destruct H as [H _].
  apply digit_value_code in H. unfold isspace. lia.
Qed.

Lemma digit_not_sign (base : Z) (c : ascii) (d : Z) (r : string) :
  digit_in_base base c = Some d -> read_sign (String c r) = (false, String c r).
Proof.
  intros H. apply digit_in_base_some in H. destruct H as [H _].
  unfold read_sign.
  destruct (Ascii.eqb_spec c "-"%char) as [->|_]; [discriminate H|].
  destruct (Ascii.eqb_spec c "+"%char) as [->|_]; [discriminate H|].
  reflexivity.
Qed.

Lemma numeral_head (base : Z) (c : ascii) (r : string) (v : Z) :
  numeral_value base (String c r) = Some v ->
  exists d w, digit_in_base base c = Some d /\ numeral_value base r = Some w
              /\ v = d * base ^ Z.of_nat (String.length r) + w.
Proof.
  simpl. destruct (digit_in_base base c) as [d|]; [|discriminate].
  destruct (numeral_value base r) as [w|]; [|discriminate].
  intros [= <-]. eauto.
Qed.

Lemma numeral_no_0x (base : Z) (s : string) (v : Z) :
  base <= 16 -> numeral_value base s = Some v -> skip_0x base s = s.
Proof.
  intros Hb H. destruct s as [|c0 [|cx [|d r]]]; try reflexivity.
  apply numeral_head in H. destruct H as (_ & w & _ & H & _).
  apply numeral_head in H. destruct H as (dx & _ & Hx & _ & _).
  apply digit_in_base_some in Hx. destruct Hx as [Hx Hlt].
  unfold skip_0x.
  destruct (Ascii.eqb_spec cx "x"%char) as [->|_].
  { vm_compute in Hx. injection Hx as <-. lia. }
  destruct (Ascii.eqb_spec cx "X"%char) as [->|_].
  { vm_compute in Hx. injection Hx as <-. lia. }
  rewrite andb_false_r. reflexivity.
Qed.

Lemma accumulate_numeral (base : Z) (s : string) :
  forall acc v, numeral_value base s = Some v ->
  accumulate base s acc = acc * base ^ Z.of_nat (String.length s) + v.
Proof.
  induction s as [|c r IH]; intros acc v H.
  - injection H as <-. simpl. lia.
  - apply numeral_head in H. destruct H as (d & w & Hd & Hw & ->).
    cbn [accumulate]. rewrite Hd, (IH _ _ Hw).
    cbn [String.length]. rewrite Nat2Z.inj_succ, Z.pow_succ_r by lia. ring.
Qed.

Lemma numeral_value_nonneg (base : Z) (s : string) :
  0 <= base -> forall v, numeral_value base s = Some v -> 0 <= v.
Proof.
  intros Hb. induction s as [|c r IH]; intros v H.
  - injection H as <-. lia.
  - apply numeral_head in H. destruct H as (d & w & Hd & Hw & ->).
    apply digit_in_base_some in Hd. specialize (IH _ Hw).
    assert (0 <= base ^ Z.of_nat (String.length r)) by (apply Z.pow_nonneg; lia).
    nia.
Qed.

(** On a numeral [strtoul] returns the value, or [ULONG_MAX] when the
    value does not fit. *)
Lemma strtoul_numeral (base : Z) (s : string) (v : Z) :
  0 <= base <= 16 -> numeral_value base s = Some v ->
  strtoul s base = Z.min v ULONG_MAX.
Proof.
  intros Hb H. unfold strtoul.
  assert (Hpre : read_sign (skip_spaces s) = (false, s)).
  { destruct s as [|c r]; [reflexivity|].
    destruct (numeral_head _ _ _ _ H) as (d & _ & Hd & _).
    simpl skip_spaces. rewrite (digit_not_space _ _ _ Hd).
    apply (digit_not_sign _ _ _ _ Hd). }
  rewrite Hpre, (numeral_no_0x base s v) by (lia || assumption).
  rewrite (accumulate_numeral _ _ 0 v H). simpl (0 * _ + v).
  destruct (ULONG_MAX <? v) eqn:E; lia.
Qed.

Lemma numeral_no_colon (base : Z) (s : string) (v : Z) :
  numeral_value base s = Some v -> has_colon s = false.
Proof.
  revert v. induction s as [|c r IH]; intros v H; [reflexivity|].
  apply numeral_head in H. destruct H as (d & w & Hd & Hw & _).
  simpl. rewrite (IH _ Hw), orb_false_r.
  apply digit_in_base_some in Hd. destruct Hd as [Hd _].
  destruct (Ascii.eqb_spec c colon) as [->|_]; [discriminate Hd | reflexivity].
Qed.

(** The range test of the parsers, on a numeral, is a test on its value. *)
Lemma refused_numeral (base max : Z) (s : string) (v : Z) :
  0 <= base <= 16 -> 0 <= max < ULONG_MAX ->
  numeral_value base s = Some v ->
  refused max (strtoul s base) = refused max v
  /\ (refused max v = false -> strtoul s base = v).
Proof.
  intros Hb Hm H. rewrite (strtoul_numeral base s v Hb H).
  pose proof (numeral_value_nonneg base s ltac:(lia) v H) as Hv.
  unfold refused. unfold ULONG_MAX in *.
  split.
  - destruct (Z.min_spec v (2 ^ 64 - 1)) as [[_ ->]|[Hle ->]]; [reflexivity|].
    destruct (v =? 0) eqn:E0; destruct (max <? v) eqn:E1;
    destruct (2 ^ 64 - 1 =? 0) eqn:E2; destruct (max <? 2 ^ 64 - 1) eqn:E3;
    simpl; try reflexivity; lia.
  - intros R. apply orb_false_iff in R. destruct R as [_ R]. lia.
Qed.

Lemma accumulate_nonneg (base : Z) (s : string) :
  0 <= base -> forall acc, 0 <= acc -> 0 <= accumulate base s acc.
Proof.
  intros Hb. induction s as [|c r IH]; intros acc Ha; simpl; [assumption|].
  destruct (digit_in_base base c) as [d|] eqn:Hd; [|assumption].
  apply digit_in_base_some in Hd. apply IH. nia.
Qed.

Lemma strtoul_range (s : string) (base : Z) :
  0 <= base -> 0 <= strtoul s base <= ULONG_MAX.
Proof.
  intros Hb. unfold strtoul.
  destruct (read_sign (skip_spaces s)) as [neg t].
  pose proof (accumulate_nonneg base (skip_0x base t) Hb 0 ltac:(lia)) as Hv.
  set (v := accumulate base (skip_0x base t) 0) in *.
  destruct (ULONG_MAX <? v) eqn:E; [unfold ULONG_MAX; lia|].
  destruct neg; [|lia].
  pose proof (Z.mod_pos_bound (- v) (ULONG_MAX + 1) ltac:(unfold ULONG_MAX; lia)).
  lia.
Qed.

(** An accepted value is stored unchanged by the conversions. *)
Lemma accepted_guint (s : string) :
  refused G_MAXUINT (strtoul s 10) = false ->
  to_guint (strtoul s 10) = strtoul s 10.
Proof.
  intros R. apply orb_false_iff in R. destruct R as [_ R].
  pose proof (strtoul_range s 10 ltac:(lia)).
  unfold to_guint. apply Z.mod_small. unfold G_MAXUINT in R. lia.
Qed.

Lemma accepted_guint16 (s : string) :
  refused G_MAXUINT16 (strtoul s 16) = false ->
  to_guint16 (strtoul s 16) = strtoul s 16
  /\ to_guint16 (to_guint (strtoul s 16)) = strtoul s 16.
Proof.
  intros R. apply orb_false_iff in R. destruct R as [_ R].
  pose proof (strtoul_range s 16 ltac:(lia)).
  unfold to_guint16, to_guint. unfold G_MAXUINT16 in R.
  rewrite (Z.mod_small (strtoul s 16) (2 ^ 32)) by lia.
  split; apply Z.mod_small; lia.
Qed.

(* ================================================================== *)
(** ** The parsers, field by field *)

Lemma parse_busnum_devnum_fields (value : string) (st : Selection) :
  parse_busnum_devnum value st
  = busnum_devnum_of_fields (g_strsplit value colon) st.
Proof.
  unfold parse_busnum_devnum, busnum_devnum_of_fields.
  destruct (g_strsplit value colon) as [|f0 [|f1 [|f2 rest]]]; try reflexivity.
  - fold (refused G_MAXUINT (strtoul f0 10)).
    destruct (refused G_MAXUINT (strtoul f0 10)) eqn:R; [reflexivity|].
    rewrite (accepted_guint f0 R). reflexivity.
  - fold (refused G_MAXUINT (strtoul f0 10)).
    destruct (refused G_MAXUINT (strtoul f0 10)) eqn:R0; [reflexivity|].
    fold (refused G_MAXUINT (strtoul f1 10)).
    destruct (refused G_MAXUINT (strtoul f1 10)) eqn:R1;
      rewrite (accepted_guint f0 R0); [reflexivity|].
    rewrite (accepted_guint f1 R1). reflexivity.
Qed.

Lemma parse_vid_pid_fields (value : string) (st : Selection) :
  parse_vid_pid value st = vid_pid_of_fields (g_strsplit value colon) st.
Proof.
  unfold parse_vid_pid, vid_pid_of_fields.
  destruct (g_strsplit value colon) as [|f0 [|f1 [|f2 rest]]]; try reflexivity.
  - fold (refused G_MAXUINT16 (strtoul f0 16)).
    destruct (refused G_MAXUINT16 (strtoul f0 16)) eqn:R; [reflexivity|].
    rewrite (proj1 (accepted_guint16 f0 R)). reflexivity.
  - fold (refused G_MAXUINT16 (strtoul f1 16)).
    destruct (refused G_MAXUINT16 (strtoul f1 16)) eqn:R1; [reflexivity|].
    fold (refused G_MAXUINT16 (strtoul f0 16)).
    destruct (refused G_MAXUINT16 (strtoul f0 16)) eqn:R0;
      rewrite (proj2 (accepted_guint16 f1 R1)); [reflexivity|].
    rewrite (proj1 (accepted_guint16 f0 R0)). reflexivity.
Qed.

Lemma parse_busnum_devnum_too_many (a b c : string) (st : Selection) :
  parse_busnum_devnum (a ++ String colon (b ++ String colon c)) st
  = (CbFalse "invalid busnum-devnum string: too many fields", st).
Proof.
  rewrite parse_busnum_devnum_fields.
  destruct (g_strsplit_three_or_more a b c) as (f0 & f1 & f2 & rest & ->).
  reflexivity.
Qed.

Lemma parse_vid_pid_too_many (a b c : string) (st : Selection) :
  parse_vid_pid (a ++ String colon (b ++ String colon c)) st
  = (CbFalse "invalid vid-pid string: too many fields", st).
Proof.
  rewrite parse_vid_pid_fields.
  destruct (g_strsplit_three_or_more a b c) as (f0 & f1 & f2 & rest & ->).
  reflexivity.
Qed.

Lemma decimal_field (s : string) (v : Z) :
  numeral_value 10 s = Some v ->
  refused G_MAXUINT (strtoul s 10) = refused G_MAXUINT v
  /\ (refused G_MAXUINT v = false -> strtoul s 10 = v).
Proof.
  apply refused_numeral; [lia | unfold G_MAXUINT, ULONG_MAX; lia].
Qed.

Lemma hexadecimal_field (s : string) (v : Z) :
  numeral_value 16 s = Some v ->
  refused G_MAXUINT16 (strtoul s 16) = refused G_MAXUINT16 v
  /\ (refused G_MAXUINT16 v = false -> strtoul s 16 = v).
Proof.
  apply refused_numeral; [lia | unfold G_MAXUINT16, ULONG_MAX; lia].
Qed.

Lemma refused_false (max v : Z) : 0 < v <= max -> refused max v = false.
Proof. unfold refused. intros H. apply orb_false_iff. lia. Qed.

Lemma refused_true (max v : Z) : v = 0 \/ max < v -> refused max v = true.
Proof. unfold refused. intros H. apply orb_true_iff. lia. Qed.

(* ================================================================== *)
(** ** Claims on the identifier parsers *)

(** C3.  [parse_busnum_devnum] cuts its token at the colons.  With one
    field it sets the device number only and leaves the bus number as it
    was; with two fields the first is the bus number and the second the
    device number, so a token [B:D] of two decimal numerals with values
    in 1..[G_MAXUINT] gives [busnum = B] and [devnum = D]; with three or
    more fields it fails with "too many fields"; a decimal field whose
    value is 0 or above [G_MAXUINT] makes it fail with the message that
    names the field.  What is stored is read back from the variables
    [busnum] and [devnum] themselves. *)
Theorem C3_parse_busnum_devnum :
  (* every token: the fields decide *)
  (forall value st,
      parse_busnum_devnum value st
      = busnum_devnum_of_fields (g_strsplit value colon) st)
  (* one numeral: device number only *)
  /\ (forall D vd st,
         is_numeral 10 D vd -> 0 < vd <= G_MAXUINT ->
         parse_busnum_devnum D st = (CbTrue, set_devnum vd st)
         /\ busnum (set_devnum vd st) = busnum st
         /\ devnum (snd (parse_busnum_devnum D st)) = vd
         /\ busnum (snd (parse_busnum_devnum D st)) = busnum st)
  (* two numerals: bus, then device *)
  /\ (forall B D vb vd st,
         is_numeral 10 B vb -> is_numeral 10 D vd ->
         0 < vb <= G_MAXUINT -> 0 < vd <= G_MAXUINT ->
         parse_busnum_devnum (B ++ ":" ++ D) st
         = (CbTrue, set_devnum vd (set_busnum vb st))
         /\ busnum (snd (parse_busnum_devnum (B ++ ":" ++ D) st)) = vb
         /\ devnum (snd (parse_busnum_devnum (B ++ ":" ++ D) st)) = vd)
  (* three or more fields *)
  /\ (forall a b c st,
         parse_busnum_devnum (a ++ ":" ++ b ++ ":" ++ c) st
         = (CbFalse "invalid busnum-devnum string: too many fields", st))
  (* a refused device number, alone or after a good bus number *)
  /\ (forall D vd st,
         is_numeral 10 D vd -> vd = 0 \/ G_MAXUINT < vd ->
         parse_busnum_devnum D st = (CbFalse ("invalid dev number: " ++ D), st))
  /\ (forall B D vb vd st,
         is_numeral 10 B vb -> is_numeral 10 D vd ->
         0 < vb <= G_MAXUINT -> vd = 0 \/ G_MAXUINT < vd ->
         fst (parse_busnum_devnum (B ++ ":" ++ D) st)
         = CbFalse ("invalid dev number: " ++ D))
  (* a refused bus number *)
  /\ (forall B D vb st,
         is_numeral 10 B vb -> has_colon D = false ->
         vb = 0 \/ G_MAXUINT < vb ->
         parse_busnum_devnum (B ++ ":" ++ D) st
         = (CbFalse ("invalid bus number: " ++ B), st)).
Proof.
  split; [exact parse_busnum_devnum_fields|].
  split.
  { intros D vd st [Hne HD] Hr.
    assert (E1 : parse_busnum_devnum D st = (CbTrue, set_devnum vd st)).
    { rewrite parse_busnum_devnum_fields,
        (g_strsplit_one D Hne (numeral_no_colon _ _ _ HD)).
      destruct (decimal_field D vd HD) as [E V]. cbn [busnum_devnum_of_fields].
      rewrite E, (refused_false _ _ Hr), (V (refused_false _ _ Hr)). reflexivity. }
    rewrite E1. repeat split. }
  split.
  { intros B D vb vd st [_ HB] [_ HD] Hb Hd.
    assert (E2 : parse_busnum_devnum (B ++ ":" ++ D) st
                 = (CbTrue, set_devnum vd (set_busnum vb st))).
    { rewrite parse_busnum_devnum_fields.
      change (B ++ ":" ++ D)%string with (B ++ String colon D)%string.
      rewrite (g_strsplit_two B D (numeral_no_colon _ _ _ HB) (numeral_no_colon _ _ _ HD)).
      destruct (decimal_field B vb HB) as [EB VB].
      destruct (decimal_field D vd HD) as [ED VD]. cbn [busnum_devnum_of_fields].
      rewrite EB, ED, (refused_false _ _ Hb), (refused_false _ _ Hd),
        (VB (refused_false _ _ Hb)), (VD (refused_false _ _ Hd)). reflexivity. }
    rewrite E2. repeat split. }
  split.
  { intros a b c st. apply parse_busnum_devnum_too_many. }
  split.
  { intros D vd st [Hne HD] Hr.
    rewrite parse_busnum_devnum_fields,
      (g_strsplit_one D Hne (numeral_no_colon _ _ _ HD)).
    destruct (decimal_field D vd HD) as [E _]. cbn [busnum_devnum_of_fields].
    rewrite E, (refused_true _ _ Hr). reflexivity. }
  split.
  { intros B D vb vd st [_ HB] [_ HD] Hb Hd.
    rewrite parse_busnum_devnum_fields.
    change (B ++ ":" ++ D)%string with (B ++ String colon D)%string.
    rewrite (g_strsplit_two B D (numeral_no_colon _ _ _ HB) (numeral_no_colon _ _ _ HD)).
    destruct (decimal_field B vb HB) as [EB _].
    destruct (decimal_field D vd HD) as [ED _]. cbn [busnum_devnum_of_fields].
    rewrite EB, ED, (refused_false _ _ Hb), (refused_true _ _ Hd). reflexivity. }
  { intros B D vb st [_ HB] HD Hb.
    rewrite parse_busnum_devnum_fields.
    change (B ++ ":" ++ D)%string with (B ++ String colon D)%string.
    rewrite (g_strsplit_two B D (numeral_no_colon _ _ _ HB) HD).
    destruct (decimal_field B vb HB) as [EB _]. cbn [busnum_devnum_of_fields].
    rewrite EB, (refused_true _ _ Hb). reflexivity. }
Qed.

(** C4.  [parse_vid_pid] cuts its token at the colons.  With one field
    it sets the vendor id only; with two fields the first is the vendor
    id and the second the product id; with three or more fields it
    fails; a hexadecimal field whose value is 0 or above [G_MAXUINT16]
    makes it fail with "invalid vendor id" for the first field and
    "invalid product id" for the second.  What is stored is read back
    from the variables [vid] and [pid] themselves. *)
Theorem C4_parse_vid_pid :
  (forall value st,
      parse_vid_pid value st = vid_pid_of_fields (g_strsplit value colon) st)
  (* one numeral: vendor id only *)
  /\ (forall V vv st,
         is_numeral 16 V vv -> 0 < vv <= G_MAXUINT16 ->
         parse_vid_pid V st = (CbTrue, set_vid vv st)
         /\ pid (set_vid vv st) = pid st
         /\ vid (snd (parse_vid_pid V st)) = vv
         /\ pid (snd (parse_vid_pid V st)) = pid st)
  (* two numerals: vendor id, then product id *)
  /\ (forall V P vv vp st,
         is_numeral 16 V vv -> is_numeral 16 P vp ->
         0 < vv <= G_MAXUINT16 -> 0 < vp <= G_MAXUINT16 ->
         parse_vid_pid (V ++ ":" ++ P) st
         = (CbTrue, set_vid vv (set_pid vp st))
         /\ vid (snd (parse_vid_pid (V ++ ":" ++ P) st)) = vv
         /\ pid (snd (parse_vid_pid (V ++ ":" ++ P) st)) = vp)
  (* three or more fields *)
  /\ (forall a b c st,
         parse_vid_pid (a ++ ":" ++ b ++ ":" ++ c) st
         = (CbFalse "invalid vid-pid string: too many fields", st))
  (* a refused vendor id, alone or before a good product id *)
  /\ (forall V vv st,
         is_numeral 16 V vv -> vv = 0 \/ G_MAXUINT16 < vv ->
         parse_vid_pid V st = (CbFalse ("invalid vendor id: " ++ V), st))
  /\ (forall V P vv vp st,
         is_numeral 16 V vv -> is_numeral 16 P vp ->
         vv = 0 \/ G_MAXUINT16 < vv -> 0 < vp <= G_MAXUINT16 ->
         fst (parse_vid_pid (V ++ ":" ++ P) st)
         = CbFalse ("invalid vendor id: " ++ V))
  (* a refused product id *)
  /\ (forall V P vp st,
         has_colon V = false -> is_numeral 16 P vp ->
         vp = 0 \/ G_MAXUINT16 < vp ->
         parse_vid_pid (V ++ ":" ++ P) st
         = (CbFalse ("invalid product id: " ++ P), st)).
Proof.
  split; [exact parse_vid_pid_fields|].
  split.
  { intros V vv st [Hne HV] Hr.
    assert (E1 : parse_vid_pid V st = (CbTrue, set_vid vv st)).
    { rewrite parse_vid_pid_fields,
        (g_strsplit_one V Hne (numeral_no_colon _ _ _ HV)).
      destruct (hexadecimal_field V vv HV) as [E W]. cbn [vid_pid_of_fields].
      rewrite E, (refused_false _ _ Hr), (W (refused_false _ _ Hr)). reflexivity. }
    rewrite E1. repeat split. }
  split.
  { intros V P vv vp st [_ HV] [_ HP] Hv Hp.
    assert (E2 : parse_vid_pid (V ++ ":" ++ P) st
                 = (CbTrue, set_vid vv (set_pid vp st))).
    { rewrite parse_vid_pid_fields.
      change (V ++ ":" ++ P)%string with (V ++ String colon P)%string.
      rewrite (g_strsplit_two V P (numeral_no_colon _ _ _ HV) (numeral_no_colon _ _ _ HP)).
      destruct (hexadecimal_field V vv HV) as [EV WV].
      destruct (hexadecimal_field P vp HP) as [EP WP]. cbn [vid_pid_of_fields].
      rewrite EV, EP, (refused_false _ _ Hv), (refused_false _ _ Hp),
        (WV (refused_false _ _ Hv)), (WP (refused_false _ _ Hp)). reflexivity. }
    rewrite E2. repeat split. }
  split.
  { intros a b c st. apply parse_vid_pid_too_many. }
  split.
  { intros V vv st [Hne HV] Hr.
    rewrite parse_vid_pid_fields,
      (g_strsplit_one V Hne (numeral_no_colon _ _ _ HV)).
    destruct (hexadecimal_field V vv HV) as [E _]. cbn [vid_pid_of_fields].
    rewrite E, (refused_true _ _ Hr). reflexivity. }
  split.
  { intros V P vv vp st [_ HV] [_ HP] Hv Hp.
    rewrite parse_vid_pid_fields.
    change (V ++ ":" ++ P)%string with (V ++ String colon P)%string.
    rewrite (g_strsplit_two V P (numeral_no_colon _ _ _ HV) (numeral_no_colon _ _ _ HP)).
    destruct (hexadecimal_field V vv HV) as [EV _].
    destruct (hexadecimal_field P vp HP) as [EP _]. cbn [vid_pid_of_fields].
    rewrite EV, EP, (refused_true _ _ Hv), (refused_false _ _ Hp). reflexivity. }
  { intros V P vp st HV [_ HP] Hp.
    rewrite parse_vid_pid_fields.
    change (V ++ ":" ++ P)%string with (V ++ String colon P)%string.
    rewrite (g_strsplit_two V P HV (numeral_no_colon _ _ _ HP)).
    destruct (hexadecimal_field P vp HP) as [EP _]. cbn [vid_pid_of_fields].
    rewrite EP, (refused_true _ _ Hp). reflexivity. }
Qed.

(** C10.  On a two-field token [V:P], [parse_vid_pid] reads and checks
    the product-id field before the vendor-id field: when the product
    field is accepted and the vendor field refused, the call fails with
    "invalid vendor id" and [pid] already holds the parsed product id
    while [vid] is untouched; when both fields are refused, the error
    names the product id and nothing is stored. *)
Theorem C10_parse_vid_pid_product_first
  (V P : string) (st : Selection)
  (HV : has_colon V = false) (HP : has_colon P = false) :
  (refused G_MAXUINT16 (strtoul P 16) = false ->
   refused G_MAXUINT16 (strtoul V 16) = true ->
   parse_vid_pid (V ++ ":" ++ P) st
   = (CbFalse ("invalid vendor id: " ++ V), set_pid (strtoul P 16) st)
   /\ pid (snd (parse_vid_pid (V ++ ":" ++ P) st)) = strtoul P 16
   /\ vid (snd (parse_vid_pid (V ++ ":" ++ P) st)) = vid st)
  /\ (refused G_MAXUINT16 (strtoul P 16) = true ->
      refused G_MAXUINT16 (strtoul V 16) = true ->
      parse_vid_pid (V ++ ":" ++ P) st
      = (CbFalse ("invalid product id: " ++ P), st)).
Proof.
  assert (E : parse_vid_pid (V ++ ":" ++ P) st = vid_pid_of_fields [V; P] st).
  { rewrite parse_vid_pid_fields.
    change (V ++ ":" ++ P)%string with (V ++ String colon P)%string.
    rewrite (g_strsplit_two V P HV HP). reflexivity. }
  rewrite E. cbn [vid_pid_of_fields]. split.
  - intros RP RV. rewrite RP, RV. repeat split.
  - intros RP _. rewrite RP. reflexivity.
Qed.

(* ================================================================== *)
(** ** [main], path by path *)

Section MainProperties.

Variable QfuDeviceSelection : Type.
Variables QMI_DEVICE_OPEN_FLAGS_PROXY
          QMI_DEVICE_OPEN_FLAGS_MBIM
          QMI_DEVICE_OPEN_FLAGS_AUTO : Z.
Variable qfu_device_selection_new :
  option string -> option string -> Z -> Z -> Z -> Z ->
  string + QfuDeviceSelection.
Variable operation_returns : operation QfuDeviceSelection -> bool.

Local Abbreviation main_with' :=
  (main_with QfuDeviceSelection QMI_DEVICE_OPEN_FLAGS_PROXY
     QMI_DEVICE_OPEN_FLAGS_MBIM QMI_DEVICE_OPEN_FLAGS_AUTO
     qfu_device_selection_new operation_returns).
Local Abbreviation main' :=
  (main QfuDeviceSelection QMI_DEVICE_OPEN_FLAGS_PROXY
     QMI_DEVICE_OPEN_FLAGS_MBIM QMI_DEVICE_OPEN_FLAGS_AUTO
     qfu_device_selection_new operation_returns).
Local Abbreviation validate_device_open_flags' :=
  (validate_device_open_flags QfuDeviceSelection QMI_DEVICE_OPEN_FLAGS_PROXY
     QMI_DEVICE_OPEN_FLAGS_MBIM QMI_DEVICE_OPEN_FLAGS_AUTO).
Local Abbreviation open_flags :=
  (resolved_open_flags QMI_DEVICE_OPEN_FLAGS_PROXY
     QMI_DEVICE_OPEN_FLAGS_MBIM QMI_DEVICE_OPEN_FLAGS_AUTO).
Local Abbreviation selected := (select_call qfu_device_selection_new).

Ltac unfold_main :=
  unfold main_with, main_parsed, informational_flags,
    check_actions, n_actions, check_images, select_device,
    validate_device_open_flags, run_action, select_call,
    log_init_event, device_selection_event, update_call,
    msg_no_actions, msg_too_many_actions, msg_no_images, msg_multiple_modes,
    msg_storage_index, msg_select in *.

Lemma no_informational_flag_true (o : Options) :
  no_informational_flag o = true ->
  version_flag (main_options o) = false
  /\ help_flag (main_options o) = false
  /\ help_examples_flag (main_options o) = false.
Proof.
  unfold no_informational_flag.
  destruct (version_flag _), (help_flag _), (help_examples_flag _);
    simpl; intros H; try discriminate; auto.
Qed.

Lemma sole_action_flags (o : Options) (a : action) :
  sole_action o = Some a ->
  action_verify_flag o = match a with Verify => true | _ => false end
  /\ action_update_flag (update o) = match a with Update => true | _ => false end
  /\ action_update_qdl_flag o = match a with UpdateQdl => true | _ => false end
  /\ action_reset_flag o = match a with Reset => true | _ => false end.
Proof.
  unfold sole_action.
  destruct (action_verify_flag o), (action_update_flag (update o)),
    (action_update_qdl_flag o), (action_reset_flag o);
    intros H; try discriminate; injection H as <-; auto.
Qed.

Ltac use_flags Hi Ha :=
  let Hv := fresh "Hv" in let Hh := fresh "Hh" in let He := fresh "He" in
  let Av := fresh "Av" in let Au := fresh "Au" in
  let Aq := fresh "Aq" in let Ar := fresh "Ar" in
  destruct (no_informational_flag_true _ Hi) as (Hv & Hh & He);
  destruct (sole_action_flags _ _ Ha) as (Av & Au & Aq & Ar);
  unfold_main; rewrite Hv, Hh, He, Av, Au, Aq, Ar.

(** The informational flags end the run at once. *)
Lemma main_with_informational (o : Options) :
  no_informational_flag o = false ->
  main_with' o
  = Exited EXIT_SUCCESS
      [if version_flag (main_options o) then PrintVersion
       else if help_flag (main_options o) then PrintHelp
       else PrintHelpExamples;
       LogShutdown].
Proof.
  unfold no_informational_flag. unfold_main.
  destruct (version_flag _); [reflexivity|].
  destruct (help_flag _); [reflexivity|].
  destruct (help_examples_flag _); [reflexivity|]. discriminate.
Qed.

Lemma main_with_no_action (o : Options) :
  no_informational_flag o = true -> actions_requested o = 0%nat ->
  main_with' o
  = Exited EXIT_FAILURE [log_init_event o; Printerr msg_no_actions; LogShutdown].
Proof.
  intros Hi Hn. destruct (no_informational_flag_true _ Hi) as (Hv & Hh & He).
  unfold actions_requested in Hn. unfold_main. rewrite Hv, Hh, He.
  destruct (action_verify_flag o), (action_update_flag (update o)),
    (action_update_qdl_flag o), (action_reset_flag o);
    try discriminate Hn; reflexivity.
Qed.

Lemma main_with_many_actions (o : Options) :
  no_informational_flag o = true -> (2 <= actions_requested o)%nat ->
  main_with' o
  = Exited EXIT_FAILURE
      [log_init_event o; Printerr msg_too_many_actions; LogShutdown].
Proof.
  intros Hi Hn. destruct (no_informational_flag_true _ Hi) as (Hv & Hh & He).
  unfold actions_requested in Hn. unfold_main. rewrite Hv, Hh, He.
  destruct (action_verify_flag o), (action_update_flag (update o)),
    (action_update_qdl_flag o), (action_reset_flag o);
    simpl in Hn; try lia; reflexivity.
Qed.

Lemma main_with_verify (o : Options) :
  no_informational_flag o = true -> sole_action o = Some Verify ->
  main_with' o
  = match image_strv (main_options o) with
    | None =>
        Exited EXIT_FAILURE [log_init_event o; Printerr msg_no_images; LogShutdown]
    | Some images =>
        let op := qfu_operation_verify_run (Some images) in
        Exited (exit_status (operation_returns op))
          [log_init_event o; Run op (operation_returns op); LogShutdown]
    end.
Proof.
  intros Hi Ha. use_flags Hi Ha.
  destruct (image_strv (main_options o)); reflexivity.
Qed.

Lemma main_with_update_qdl (o : Options) :
  no_informational_flag o = true -> sole_action o = Some UpdateQdl ->
  main_with' o
  = match image_strv (main_options o) with
    | None =>
        Exited EXIT_FAILURE [log_init_event o; Printerr msg_no_images; LogShutdown]
    | Some images =>
        match selected o with
        | inl message =>
            Exited EXIT_FAILURE
              [log_init_event o; device_selection_event o;
               Printerr (msg_select message); LogShutdown]
        | inr d =>
            let op := qfu_operation_update_qdl_run (Some images) d in
            Exited (exit_status (operation_returns op))
              [log_init_event o; device_selection_event o;
               Run op (operation_returns op); LogShutdown; Unref d]
        end
    end.
Proof.
  intros Hi Ha. use_flags Hi Ha.
  destruct (image_strv (main_options o)); [|reflexivity].
  cbn. destruct (qfu_device_selection_new _ _ _ _ _ _); reflexivity.
Qed.

(** The arithmetic test of line 571 is the test for two mode flags. *)
Lemma conflicting_modes_sum (o : Options) :
  (1 <? Z.b2z (device_open_mbim_flag (update o))
        + Z.b2z (device_open_qmi_flag (update o))
        + Z.b2z (device_open_auto_flag (update o)))
  = conflicting_modes o.
Proof.
  unfold conflicting_modes.
  destruct (device_open_mbim_flag _), (device_open_qmi_flag _),
    (device_open_auto_flag _); reflexivity.
Qed.

(** The open-flags step on its own, from any state of the locals. *)
Lemma validate_device_open_flags_skipped (o : Options) (l : Locals QfuDeviceSelection) :
  action_update_flag (update o) || action_reset_flag o = false ->
  validate_device_open_flags' o l = (Next tt, l).
Proof.
  intros H. unfold validate_device_open_flags. rewrite H. reflexivity.
Qed.

Lemma validate_device_open_flags_done (o : Options) (l : Locals QfuDeviceSelection) :
  action_update_flag (update o) || action_reset_flag o = true ->
  device_open_flags l = QMI_DEVICE_OPEN_FLAGS_NONE ->
  validate_device_open_flags' o l
  = if conflicting_modes o
    then (GotoOut,
          {| result := result l; device_selection := device_selection l;
             device_open_flags := device_open_flags l;
             trace := (trace l ++ [Printerr msg_multiple_modes])%list |})
    else (Next tt,
          {| result := result l; device_selection := device_selection l;
             device_open_flags := open_flags o;
             trace := trace l |}).
Proof.
  intros H Hl. unfold validate_device_open_flags.
  rewrite H, conflicting_modes_sum.
  unfold conflicting_modes, resolved_open_flags, msg_multiple_modes.
  destruct l as [r d f tr]. cbn in Hl. subst f.
  destruct (device_open_proxy_flag _), (device_open_mbim_flag _),
    (device_open_qmi_flag _), (device_open_auto_flag _);
    cbn; rewrite ?Z.lor_0_r; reflexivity.
Qed.

Lemma main_with_reset (o : Options) :
  no_informational_flag o = true -> sole_action o = Some Reset ->
  main_with' o
  = match selected o with
    | inl message =>
        Exited EXIT_FAILURE
          [log_init_event o; device_selection_event o;
           Printerr (msg_select message); LogShutdown]
    | inr d =>
        if conflicting_modes o
        then Exited EXIT_FAILURE
               [log_init_event o; device_selection_event o;
                Printerr msg_multiple_modes; LogShutdown; Unref d]
        else
          let op := qfu_operation_reset_run d (open_flags o) in
          Exited (exit_status (operation_returns op))
            [log_init_event o; device_selection_event o;
             Run op (operation_returns op); LogShutdown; Unref d]
    end.
Proof.
  intros Hi Ha. use_flags Hi Ha. rewrite conflicting_modes_sum.
  cbn. destruct (qfu_device_selection_new _ _ _ _ _ _); [reflexivity|].
  unfold conflicting_modes, resolved_open_flags.
  destruct (device_open_proxy_flag _), (device_open_mbim_flag _),
    (device_open_qmi_flag _), (device_open_auto_flag _);
    cbn; rewrite ?Z.lor_0_r; reflexivity.
Qed.

Lemma main_with_update (o : Options) :
  no_informational_flag o = true -> sole_action o = Some Update ->
  main_with' o
  = match image_strv (main_options o) with
    | None =>
        Exited EXIT_FAILURE [log_init_event o; Printerr msg_no_images; LogShutdown]
    | Some _ =>
        match selected o with
        | inl message =>
            Exited EXIT_FAILURE
              [log_init_event o; device_selection_event o;
               Printerr (msg_select message); LogShutdown]
        | inr d =>
            if conflicting_modes o
            then Exited EXIT_FAILURE
                   [log_init_event o; device_selection_event o;
                    Printerr msg_multiple_modes; LogShutdown; Unref d]
            else if (modem_storage_index_int (update o) <? 0)
                    || (G_MAXUINT8 <? modem_storage_index_int (update o))
            then Exited EXIT_FAILURE
                   [log_init_event o; device_selection_event o;
                    Printerr msg_storage_index; LogShutdown; Unref d]
            else
              let op := update_call o d (open_flags o)
                          (modem_storage_index_int (update o)) in
              Exited (exit_status (operation_returns op))
                [log_init_event o; device_selection_event o;
                 Run op (operation_returns op); LogShutdown; Unref d]
        end
    end.
Proof.
  intros Hi Ha. use_flags Hi Ha. rewrite conflicting_modes_sum.
  destruct (image_strv (main_options o)) as [images|]; [|reflexivity].
  assert (Hidx : (modem_storage_index_int (update o) <? 0)
                 || (G_MAXUINT8 <? modem_storage_index_int (update o)) = false ->
                 to_guint8 (modem_storage_index_int (update o))
                 = modem_storage_index_int (update o)).
  { intros E. apply orb_false_iff in E. destruct E as [E0 E1].
    unfold to_guint8. unfold G_MAXUINT8 in E1. apply Z.mod_small. lia. }
  destruct ((modem_storage_index_int (update o) <? 0)
            || (G_MAXUINT8 <? modem_storage_index_int (update o))) eqn:E;
    [|rewrite (Hidx eq_refl)]; clear Hidx;
    cbn; (destruct (qfu_device_selection_new _ _ _ _ _ _); [reflexivity|]);
    unfold conflicting_modes, resolved_open_flags;
    destruct (device_open_proxy_flag _), (device_open_mbim_flag _),
      (device_open_qmi_flag _), (device_open_auto_flag _);
    cbn; rewrite ?Z.lor_0_r; reflexivity.
Qed.

Lemma sole_action_none (o : Options) :
  sole_action o = None ->
  actions_requested o = 0%nat \/ (2 <= actions_requested o)%nat.
Proof.
  unfold sole_action, actions_requested.
  destruct (action_verify_flag o), (action_update_flag (update o)),
    (action_update_qdl_flag o), (action_reset_flag o);
    simpl; intros H; try discriminate; lia.
Qed.

Lemma sole_action_some (o : Options) (a : action) :
  sole_action o = Some a -> actions_requested o = 1%nat.
Proof.
  unfold sole_action, actions_requested.
  destruct (action_verify_flag o), (action_update_flag (update o)),
    (action_update_qdl_flag o), (action_reset_flag o);
    simpl; intros H; try discriminate; reflexivity.
Qed.

(** Every run of [main] after a successful parse takes one of three
    shapes: an informational print; an error message and nothing else
    of note; one operation and nothing else of note. *)
Lemma main_with_paths (P : process_end QfuDeviceSelection -> Prop) :
  (forall e, is_informational e = true ->
             P (Exited EXIT_SUCCESS [e; LogShutdown])) ->
  (forall pre message post, quiet pre = true -> quiet post = true ->
             P (Exited EXIT_FAILURE
                  (pre ++ Printerr message :: LogShutdown :: post)%list)) ->
  (forall pre op post, quiet pre = true -> quiet post = true ->
             P (Exited (exit_status (operation_returns op))
                  (pre ++ Run op (operation_returns op)
                       :: LogShutdown :: post)%list)) ->
  forall o, P (main_with' o).
Proof.
  intros Pinfo Pfail Prun o.
  destruct (no_informational_flag o) eqn:Hi.
  2:{ rewrite (main_with_informational o Hi). apply Pinfo.
      destruct (version_flag _); [reflexivity|].
      destruct (help_flag _); reflexivity. }
  pose (i := @log_init_event QfuDeviceSelection o).
  pose (s := @device_selection_event QfuDeviceSelection o).
  destruct (sole_action o) as [a|] eqn:Ha.
  2:{ destruct (sole_action_none o Ha) as [H0|H2].
      - rewrite (main_with_no_action o Hi H0). apply (Pfail [i] _ []); reflexivity.
      - rewrite (main_with_many_actions o Hi H2). apply (Pfail [i] _ []); reflexivity. }
  destruct a.
  - rewrite (main_with_update o Hi Ha).
    destruct (image_strv (main_options o)); [|apply (Pfail [i] _ []); reflexivity].
    destruct (selected o) as [m|d]; [apply (Pfail [i; s] _ []); reflexivity|].
    destruct (conflicting_modes o); [apply (Pfail [i; s] _ [Unref d]); reflexivity|].
    destruct (_ || _); [apply (Pfail [i; s] _ [Unref d]); reflexivity|].
    apply (Prun [i; s] _ [Unref d]); reflexivity.
  - rewrite (main_with_update_qdl o Hi Ha).
    destruct (image_strv (main_options o)); [|apply (Pfail [i] _ []); reflexivity].
    destruct (selected o) as [m|d]; [apply (Pfail [i; s] _ []); reflexivity|].
    apply (Prun [i; s] _ [Unref d]); reflexivity.
  - rewrite (main_with_reset o Hi Ha).
    destruct (selected o) as [m|d]; [apply (Pfail [i; s] _ []); reflexivity|].
    destruct (conflicting_modes o); [apply (Pfail [i; s] _ [Unref d]); reflexivity|].
    apply (Prun [i; s] _ [Unref d]); reflexivity.
  - rewrite (main_with_verify o Hi Ha).
    destruct (image_strv (main_options o)); [|apply (Pfail [i] _ []); reflexivity].
    apply (Prun [i] _ []); reflexivity.
Qed.

(** The same for [main] on a command line, where the parse may also
    fail with a message or abort. *)
Lemma main_paths (P : process_end QfuDeviceSelection -> Prop) :
  P (Aborted []) ->
  (forall e, is_informational e = true ->
             P (Exited EXIT_SUCCESS [e; LogShutdown])) ->
  (forall pre message post, quiet pre = true -> quiet post = true ->
             P (Exited EXIT_FAILURE
                  (pre ++ Printerr message :: LogShutdown :: post)%list)) ->
  (forall pre op post, quiet pre = true -> quiet post = true ->
             P (Exited (exit_status (operation_returns op))
                  (pre ++ Run op (operation_returns op)
                       :: LogShutdown :: post)%list)) ->
  forall argv, P (main' argv).
Proof.
  intros Pabort Pinfo Pfail Prun argv. unfold main.
  destruct (g_option_context_parse argv options0) as [o|message|].
  - apply main_with_paths; assumption.
  - apply (Pfail [] _ []); reflexivity.
  - exact Pabort.
Qed.

Lemma quiet_filter (tr : list (event QfuDeviceSelection)) :
  quiet tr = true ->
  filter is_run tr = [] /\ existsb is_printerr tr = false
  /\ existsb is_informational tr = false
  /\ existsb is_successful_run tr = false
  /\ (forall op r, ~ In (Run op r) tr).
Proof.
  induction tr as [|e tr IH]; simpl.
  - intros _. repeat split; auto.
  - intros H. apply andb_true_iff in H. destruct H as [He Ht].
    destruct (IH Ht) as (I1 & I2 & I3 & I4 & I5).
    destruct e; simpl in He; try discriminate; simpl;
      rewrite ?I1, ?I2, ?I3, ?I4; repeat split; auto;
      intros op r [H|H]; try discriminate; exact (I5 _ _ H).
Qed.

(** *** When the process aborts

    [main] itself never trips an assertion; the only abort is the
    [g_assert (strv[0])] of a callback that was given the empty string. *)

Lemma callback_abort_busnum_devnum (value : string) (st : Selection) :
  fst (parse_busnum_devnum value st) = CbAbort -> value = EmptyString.
Proof.
  rewrite parse_busnum_devnum_fields. intros H. apply g_strsplit_nil.
  destruct (g_strsplit value colon) as [|f0 [|f1 [|f2 rest]]];
    [reflexivity | | |]; cbn in H.
  - destruct (refused _ _); discriminate H.
  - destruct (refused _ _); [discriminate H|].
    destruct (refused _ _); discriminate H.
  - discriminate H.
Qed.

Lemma callback_abort_vid_pid (value : string) (st : Selection) :
  fst (parse_vid_pid value st) = CbAbort -> value = EmptyString.
Proof.
  rewrite parse_vid_pid_fields. intros H. apply g_strsplit_nil.
  destruct (g_strsplit value colon) as [|f0 [|f1 [|f2 rest]]];
    [reflexivity | | |]; cbn in H.
  - destruct (refused _ _); discriminate H.
  - destruct (refused _ _); [discriminate H|].
    destruct (refused _ _); discriminate H.
  - discriminate H.
Qed.

Lemma parse_abort_empty_token (argv : list cli_arg) :
  forall o, g_option_context_parse argv o = ParseAbort ->
  In (Opt_busnum_devnum EmptyString) argv \/ In (Opt_vid_pid EmptyString) argv.
Proof.
  induction argv as [|a rest IH]; intros o H; simpl in H; [discriminate H|].
  destruct (apply_entry a o) as [o1|m|] eqn:E.
  - destruct (IH _ H); [left | right]; right; assumption.
  - discriminate H.
  - clear H IH. destruct a; simpl in E; try discriminate E; unfold run_callback in E.
    + left. left. f_equal.
      apply (callback_abort_busnum_devnum value (selection o)).
      destruct (parse_busnum_devnum value (selection o)) as [[| |] st];
        (discriminate E || reflexivity).
    + right. left. f_equal.
      apply (callback_abort_vid_pid value (selection o)).
      destruct (parse_vid_pid value (selection o)) as [[| |] st];
        (discriminate E || reflexivity).
Qed.

Lemma main_abort_empty_token (argv : list cli_arg) (tr : list (event QfuDeviceSelection)) :
  main' argv = Aborted tr ->
  In (Opt_busnum_devnum EmptyString) argv \/ In (Opt_vid_pid EmptyString) argv.
Proof.
  unfold main.
  destruct (g_option_context_parse argv options0) as [o|m|] eqn:E.
  - apply (main_with_paths (fun p => p = Aborted tr -> _)); discriminate.
  - discriminate.
  - intros _. exact (parse_abort_empty_token argv options0 E).
Qed.

(** *** The image vector after the parse *)

Lemma apply_entry_images (a : cli_arg) (o o' : Options) :
  apply_entry a o = ParseOk o' ->
  image_strv (main_options o')
  = match a with
    | Arg_remaining f => strv_append (image_strv (main_options o)) f
    | _ => image_strv (main_options o)
    end.
Proof.
  destruct a; simpl; unfold run_callback;
    try (intros [= <-]; reflexivity); try discriminate.
  - destruct (parse_busnum_devnum value (selection o)) as [[| |] st];
      intros [= <-] || discriminate; reflexivity.
  - destruct (parse_vid_pid value (selection o)) as [[| |] st];
      intros [= <-] || discriminate; reflexivity.
Qed.

Lemma parse_images (argv : list cli_arg) :
  forall o o', g_option_context_parse argv o = ParseOk o' ->
  image_strv (main_options o')
  = fold_left strv_append (positional argv) (image_strv (main_options o)).
Proof.
  induction argv as [|a rest IH]; intros o o' H; simpl in H.
  - injection H as <-. reflexivity.
  - destruct (apply_entry a o) as [o1| |] eqn:E; try discriminate.
    rewrite (IH _ _ H), (apply_entry_images _ _ _ E).
    destruct a; reflexivity.
Qed.

Lemma fold_strv_append (fs : list string) :
  forall l, fold_left strv_append fs (Some l) = Some (l ++ fs)%list.
Proof.
  induction fs as [|f fs IH]; intros l; simpl.
  - rewrite app_nil_r. reflexivity.
  - rewrite IH, <- app_assoc. reflexivity.
Qed.

(** After the parse the image vector is [NULL] when the command line has
    no positional argument, and holds the positional arguments
    otherwise: it is never an empty vector. *)
Lemma parsed_images (argv : list cli_arg) (o : Options) :
  g_option_context_parse argv options0 = ParseOk o ->
  image_strv (main_options o)
  = match positional argv with
    | [] => None
    | fs => Some fs
    end.
Proof.
  intros H. rewrite (parse_images _ _ _ H). simpl.
  destruct (positional argv) as [|f fs]; [reflexivity|].
  simpl. rewrite fold_strv_append. reflexivity.
Qed.

(* ================================================================== *)
(** ** Claims on [main] *)

(** C1.  Whatever the four action flags are, the run gets past the
    action check exactly when exactly one flag is set; with none set it
    prints "no actions specified" and fails, with two or more set it
    prints "too many actions specified" and fails. *)
Theorem C1_action_exclusivity (o : Options)
  (Hinfo : no_informational_flag o = true) :
  (actions_requested o = 0%nat ->
   main_with' o
   = Exited EXIT_FAILURE [log_init_event o; Printerr msg_no_actions; LogShutdown])
  /\ ((2 <= actions_requested o)%nat ->
      main_with' o
      = Exited EXIT_FAILURE
          [log_init_event o; Printerr msg_too_many_actions; LogShutdown])
  /\ (actions_requested o = 1%nat <->
      forall l : Locals QfuDeviceSelection, check_actions o l = (Next tt, l))
  /\ (actions_requested o = 1%nat <-> exists a, sole_action o = Some a).
Proof.
  split; [apply main_with_no_action; assumption|].
  split; [apply main_with_many_actions; assumption|].
  split.
  - unfold actions_requested, check_actions, n_actions, msg_no_actions.
    destruct (action_verify_flag o), (action_update_flag (update o)),
      (action_update_qdl_flag o), (action_reset_flag o); simpl;
      (split; [intros H; try discriminate H; intros l; reflexivity
              | intros H; try reflexivity;
                specialize (H (locals0 QfuDeviceSelection)); discriminate H]).
  - split.
    + intros H. destruct (sole_action o) as [a|] eqn:Ha; [eauto|].
      destruct (sole_action_none o Ha); lia.
    + intros [a Ha]. exact (sole_action_some o a Ha).
Qed.

(** C5.  When the single action is verify, update or update-qdl and no
    image was given, the run prints "no firmware images specified" and
    fails; a command line with that action and no positional argument,
    [--verify] alone in particular, ends this way. *)
Theorem C5_images_required :
  (forall o a,
      no_informational_flag o = true -> sole_action o = Some a ->
      a <> Reset -> image_strv (main_options o) = None ->
      main_with' o
      = Exited EXIT_FAILURE [log_init_event o; Printerr msg_no_images; LogShutdown])
  /\ (forall argv o a,
         g_option_context_parse argv options0 = ParseOk o ->
         no_informational_flag o = true -> sole_action o = Some a ->
         a <> Reset -> positional argv = [] ->
         main' argv
         = Exited EXIT_FAILURE
             [log_init_event o; Printerr msg_no_images; LogShutdown])
  /\ (forall argv o,
         g_option_context_parse argv options0 = ParseOk o ->
         image_strv (main_options o) <> Some [])
  /\ main' [Opt_verify]
     = Exited EXIT_FAILURE
         [LogInit false false None; Printerr msg_no_images; LogShutdown].
Proof.
  assert (A : forall o a,
      no_informational_flag o = true -> sole_action o = Some a ->
      a <> Reset -> image_strv (main_options o) = None ->
      main_with' o
      = Exited EXIT_FAILURE [log_init_event o; Printerr msg_no_images; LogShutdown]).
  { intros o a Hi Ha Hr Him. destruct a; try congruence.
    - rewrite (main_with_update o Hi Ha), Him. reflexivity.
    - rewrite (main_with_update_qdl o Hi Ha), Him. reflexivity.
    - rewrite (main_with_verify o Hi Ha), Him. reflexivity. }
  split; [exact A|]. split.
  { intros argv o a Hp Hi Ha Hr Hpos. unfold main. rewrite Hp.
    apply (A o a Hi Ha Hr). rewrite (parsed_images argv o Hp), Hpos. reflexivity. }
  split.
  { intros argv o Hp. rewrite (parsed_images argv o Hp).
    destruct (positional argv); discriminate. }
  reflexivity.
Qed.

(** C6.  For the update action the storage index is accepted exactly
    when it lies in 0..255 (0 standing for no index requested); any
    other value, every negative one included, ends the run with "invalid
    modem storage index"; an accepted index is handed to the operation
    unchanged.  The other actions never look at the index. *)
Theorem C6_storage_index :
  (forall o images d,
      no_informational_flag o = true -> sole_action o = Some Update ->
      image_strv (main_options o) = Some images ->
      selected o = inr d -> conflicting_modes o = false ->
      let index := modem_storage_index_int (update o) in
      (0 <= index <= 255 ->
       let op := update_call o d (open_flags o) index in
       main_with' o
       = Exited (exit_status (operation_returns op))
           [log_init_event o; device_selection_event o;
            Run op (operation_returns op); LogShutdown; Unref d])
      /\ (index < 0 \/ 255 < index ->
          main_with' o
          = Exited EXIT_FAILURE
              [log_init_event o; device_selection_event o;
               Printerr msg_storage_index; LogShutdown; Unref d]))
  /\ (forall o a n,
         no_informational_flag o = true -> sole_action o = Some a ->
         a <> Update ->
         main_with' (in_update (set_modem_storage_index_int n) o) = main_with' o).
Proof.
  split.
  - intros o images d Hi Ha Him Hs Hc index.
    rewrite (main_with_update o Hi Ha), Him, Hs, Hc. fold index.
    unfold G_MAXUINT8. split; intros H.
    + replace ((index <? 0) || (2 ^ 8 - 1 <? index)) with false; [reflexivity|].
      symmetry. apply orb_false_iff. lia.
    + replace ((index <? 0) || (2 ^ 8 - 1 <? index)) with true; [reflexivity|].
      symmetry. apply orb_true_iff. lia.
  - intros o a n Hi Ha Hu.
    set (o' := in_update (set_modem_storage_index_int n) o).
    assert (Hi' : no_informational_flag o' = true) by exact Hi.
    assert (Ha' : sole_action o' = Some a).
    { rewrite <- Ha. destruct o as [s u r q v m]. destruct u. reflexivity. }
    destruct a; try congruence.
    + rewrite (main_with_update_qdl o' Hi' Ha'), (main_with_update_qdl o Hi Ha).
      reflexivity.
    + rewrite (main_with_reset o' Hi' Ha'), (main_with_reset o Hi Ha).
      destruct o as [s u r q v m]. destruct u. reflexivity.
    + rewrite (main_with_verify o' Hi' Ha'), (main_with_verify o Hi Ha).
      reflexivity.
Qed.

Lemma testbit_flag (b : bool) (n k : Z) :
  0 <= n -> Z.testbit (if b then 2 ^ n else 0) k = b && (n =? k).
Proof.
  intros Hn. destruct b; simpl andb.
  - apply Z.pow2_bits_eqb. assumption.
  - apply Z.bits_0.
Qed.

(** C2.  When the action is update or reset: with more than one of the
    qmi, mbim and auto flags set, the open-flags step prints "cannot
    specify multiple mode flags to open device" and the run fails;
    otherwise the resulting flags have the proxy bit set iff proxy was
    asked, the mbim bit set iff mbim was asked, and the auto bit set iff
    auto was asked or neither qmi nor mbim was.  So no flag at all gives
    auto, mbim alone gives mbim, and proxy with auto gives proxy and
    auto.  These are the flags the reset and update operations receive. *)
Theorem C2_open_flags :
  (* the step itself *)
  (forall o (l : Locals QfuDeviceSelection),
      action_update_flag (update o) || action_reset_flag o = true ->
      device_open_flags l = QMI_DEVICE_OPEN_FLAGS_NONE ->
      validate_device_open_flags' o l
      = if conflicting_modes o
        then (GotoOut,
              {| result := result l; device_selection := device_selection l;
                 device_open_flags := device_open_flags l;
                 trace := (trace l ++ [Printerr msg_multiple_modes])%list |})
        else (Next tt,
              {| result := result l; device_selection := device_selection l;
                 device_open_flags := open_flags o;
                 trace := trace l |}))
  (* the bits of the result *)
  /\ (forall o p m a,
         0 <= p -> 0 <= m -> 0 <= a -> p <> m -> p <> a -> m <> a ->
         QMI_DEVICE_OPEN_FLAGS_PROXY = 2 ^ p ->
         QMI_DEVICE_OPEN_FLAGS_MBIM = 2 ^ m ->
         QMI_DEVICE_OPEN_FLAGS_AUTO = 2 ^ a ->
         conflicting_modes o = false ->
         let u := update o in
         Z.testbit (open_flags o) p = device_open_proxy_flag u
         /\ Z.testbit (open_flags o) m = device_open_mbim_flag u
         /\ Z.testbit (open_flags o) a
            = device_open_auto_flag u
              || (negb (device_open_qmi_flag u) && negb (device_open_mbim_flag u)))
  (* the three examples *)
  /\ (forall o,
         let u := update o in
         (device_open_proxy_flag u = false -> device_open_qmi_flag u = false ->
          device_open_mbim_flag u = false -> device_open_auto_flag u = false ->
          open_flags o = QMI_DEVICE_OPEN_FLAGS_AUTO)
         /\ (device_open_proxy_flag u = false -> device_open_qmi_flag u = false ->
             device_open_mbim_flag u = true -> device_open_auto_flag u = false ->
             open_flags o = QMI_DEVICE_OPEN_FLAGS_MBIM)
         /\ (device_open_proxy_flag u = true -> device_open_qmi_flag u = false ->
             device_open_mbim_flag u = false -> device_open_auto_flag u = true ->
             open_flags o
             = Z.lor QMI_DEVICE_OPEN_FLAGS_PROXY QMI_DEVICE_OPEN_FLAGS_AUTO))
  (* the whole run, for reset and for update *)
  /\ (forall o d,
         no_informational_flag o = true -> sole_action o = Some Reset ->
         selected o = inr d ->
         main_with' o
         = if conflicting_modes o
           then Exited EXIT_FAILURE
                  [log_init_event o; device_selection_event o;
                   Printerr msg_multiple_modes; LogShutdown; Unref d]
           else
             let op := qfu_operation_reset_run d (open_flags o) in
             Exited (exit_status (operation_returns op))
               [log_init_event o; device_selection_event o;
                Run op (operation_returns op); LogShutdown; Unref d])
  /\ (forall o images d,
         no_informational_flag o = true -> sole_action o = Some Update ->
         image_strv (main_options o) = Some images -> selected o = inr d ->
         (conflicting_modes o = true ->
          main_with' o
          = Exited EXIT_FAILURE
              [log_init_event o; device_selection_event o;
               Printerr msg_multiple_modes; LogShutdown; Unref d])
         /\ (conflicting_modes o = false ->
             0 <= modem_storage_index_int (update o) <= 255 ->
             let op := update_call o d (open_flags o)
                         (modem_storage_index_int (update o)) in
             main_with' o
             = Exited (exit_status (operation_returns op))
                 [log_init_event o; device_selection_event o;
                  Run op (operation_returns op); LogShutdown; Unref d])).
Proof.
  split; [exact validate_device_open_flags_done|].
  split.
  { intros o p m a Hp Hm Ha Hpm Hpa Hma -> -> -> Hc u.
    unfold resolved_open_flags, conflicting_modes in *. fold u in Hc |- *.
    rewrite !Z.lor_spec, !testbit_flag by assumption.
    rewrite !Z.eqb_refl.
    rewrite (proj2 (Z.eqb_neq m p)), (proj2 (Z.eqb_neq a p)),
      (proj2 (Z.eqb_neq p m)), (proj2 (Z.eqb_neq a m)),
      (proj2 (Z.eqb_neq p a)), (proj2 (Z.eqb_neq m a)) by congruence.
    destruct (device_open_proxy_flag u), (device_open_mbim_flag u),
      (device_open_qmi_flag u), (device_open_auto_flag u);
      try discriminate Hc; repeat split. }
  split.
  { intros o u. unfold resolved_open_flags. fold u.
    repeat split; intros -> -> -> ->; simpl; rewrite ?Z.lor_0_r; reflexivity. }
  split.
  { intros o d Hi Ha Hs. rewrite (main_with_reset o Hi Ha), Hs. reflexivity. }
  { intros o images d Hi Ha Him Hs.
    rewrite (main_with_update o Hi Ha), Him, Hs. split.
    - intros ->. reflexivity.
    - intros -> Hidx.
      replace ((modem_storage_index_int (update o) <? 0)
               || (G_MAXUINT8 <? modem_storage_index_int (update o))) with false;
        [reflexivity|].
      symmetry. apply orb_false_iff. unfold G_MAXUINT8. lia. }
Qed.

Lemma count_runs_shape (pre post : list (event QfuDeviceSelection))
  (e : event QfuDeviceSelection) :
  quiet pre = true -> quiet post = true ->
  count_runs (pre ++ e :: LogShutdown :: post)
  = (if is_run e then 1%nat else 0%nat)
  /\ existsb is_printerr (pre ++ e :: LogShutdown :: post) = is_printerr e
  /\ existsb is_informational (pre ++ e :: LogShutdown :: post) = is_informational e
  /\ existsb is_successful_run (pre ++ e :: LogShutdown :: post) = is_successful_run e
  /\ (forall op r, In (Run op r) (pre ++ e :: LogShutdown :: post) -> e = Run op r).
Proof.
  intros Hpre Hpost.
  destruct (quiet_filter pre Hpre) as (A1 & A2 & A3 & A4 & A5).
  destruct (quiet_filter post Hpost) as (B1 & B2 & B3 & B4 & B5).
  unfold count_runs. rewrite filter_app, !existsb_app, A1, A2, A3, A4.
  simpl. rewrite B1, B2, B3, B4, !orb_false_r.
  repeat split.
  - destruct (is_run e); reflexivity.
  - intros op r H. apply in_app_or in H.
    destruct H as [H|[H|[H|H]]]; [elim (A5 _ _ H) | exact H | discriminate H
                                 | elim (B5 _ _ H)].
Qed.

(** C7.  A run calls at most one operation, and none when it printed an
    error; with both the update and the reset flag set it prints "too
    many actions specified" and fails without a device selection and
    without an operation. *)
Theorem C7_at_most_one_operation :
  (forall argv,
      (count_runs (events_of (main' argv)) <= 1)%nat
      /\ (existsb is_printerr (events_of (main' argv)) = true ->
          count_runs (events_of (main' argv)) = 0%nat))
  /\ (forall o,
         no_informational_flag o = true ->
         action_update_flag (update o) = true -> action_reset_flag o = true ->
         main_with' o
         = Exited EXIT_FAILURE
             [log_init_event o; Printerr msg_too_many_actions; LogShutdown]
         /\ existsb is_device_selection (events_of (main_with' o)) = false
         /\ count_runs (events_of (main_with' o)) = 0%nat)
  /\ main' [Opt_update; Opt_reset]
     = Exited EXIT_FAILURE
         [LogInit false false None; Printerr msg_too_many_actions; LogShutdown].
Proof.
  split.
  { intros argv.
    apply (main_paths (fun p =>
             (count_runs (events_of p) <= 1)%nat
             /\ (existsb is_printerr (events_of p) = true ->
                 count_runs (events_of p) = 0%nat))).
    - split; [cbn; lia | reflexivity].
    - intros e He. destruct e; try discriminate He; cbn; split; (lia || reflexivity).
    - intros pre message post Hpre Hpost. cbn [events_of].
      destruct (count_runs_shape pre post (Printerr message) Hpre Hpost)
        as (-> & _). cbn. split; [lia | reflexivity].
    - intros pre op post Hpre Hpost. cbn [events_of].
      destruct (count_runs_shape pre post (Run op (operation_returns op)) Hpre Hpost)
        as (-> & -> & _). cbn. split; [lia | discriminate]. }
  split; [|reflexivity].
  intros o Hi Hu Hr.
  assert (E : main_with' o
              = Exited EXIT_FAILURE
                  [log_init_event o; Printerr msg_too_many_actions; LogShutdown]).
  { apply (main_with_many_actions o Hi). unfold actions_requested.
    rewrite Hu, Hr. destruct (action_verify_flag o), (action_update_qdl_flag o);
      simpl; lia. }
  rewrite E. repeat split.
Qed.

(** C8.  [main] returns 0 exactly when it handled an informational flag
    or the operation it called returned true; otherwise it returns the
    non-zero [EXIT_FAILURE], in particular whenever it printed an error.
    The value recorded for the operation is the one it returned, and
    the exit status is that value's translation, nothing else. *)
Theorem C8_exit_status (argv : list cli_arg) :
  match main' argv with
  | Exited status tr =>
      (status = 0 <->
       existsb is_informational tr = true \/ existsb is_successful_run tr = true)
      /\ (status = 0 \/ status = EXIT_FAILURE)
      /\ EXIT_FAILURE <> 0
      /\ (existsb is_printerr tr = true -> status = EXIT_FAILURE)
      /\ (forall op r, In (Run op r) tr ->
                       r = operation_returns op /\ status = exit_status r)
  | Aborted tr => tr = []
  end.
Proof.
  apply (main_paths (fun p =>
    match p with
    | Exited status tr =>
        (status = 0 <->
         existsb is_informational tr = true \/ existsb is_successful_run tr = true)
        /\ (status = 0 \/ status = EXIT_FAILURE)
        /\ EXIT_FAILURE <> 0
        /\ (existsb is_printerr tr = true -> status = EXIT_FAILURE)
        /\ (forall op r, In (Run op r) tr ->
                         r = operation_returns op /\ status = exit_status r)
    | Aborted tr => tr = []
    end)).
  - reflexivity.
  - intros e He. destruct e; try discriminate He; cbn;
      (split; [split; auto|]); (split; [auto|]); (split; [discriminate|]);
      (split; [discriminate|]); intros op r [H|[H|[]]]; discriminate H.
  - intros pre message post Hpre Hpost.
    destruct (count_runs_shape pre post (Printerr message) Hpre Hpost)
      as (_ & _ & -> & -> & Hin). cbn.
    split; [split; [discriminate | intros [H|H]; discriminate H]|].
    split; [auto|]. split; [discriminate|]. split; [reflexivity|].
    intros op r H. discriminate (Hin _ _ H).
  - intros pre op post Hpre Hpost.
    destruct (count_runs_shape pre post (Run op (operation_returns op)) Hpre Hpost)
      as (_ & -> & -> & -> & Hin). cbn.
    split.
    { unfold exit_status, EXIT_SUCCESS, EXIT_FAILURE.
      destruct (operation_returns op); split; auto; try discriminate.
      intros [H|H]; discriminate H. }
    split.
    { unfold exit_status, EXIT_SUCCESS. destruct (operation_returns op); auto. }
    split; [discriminate|]. split; [discriminate|].
    intros op' r H. specialize (Hin _ _ H). injection Hin as <- <-. auto.
Qed.

(** C9.  The open-flags step is run for update and reset only.  When the
    single action is verify or update-qdl it changes nothing and prints
    nothing, whatever the four open-mode flags are, and the run goes on
    to the operation. *)
Theorem C9_open_flags_only_for_update_and_reset :
  (forall o a (l : Locals QfuDeviceSelection),
      sole_action o = Some a -> a = Verify \/ a = UpdateQdl ->
      validate_device_open_flags' o l = (Next tt, l))
  /\ (forall o images,
         no_informational_flag o = true -> sole_action o = Some Verify ->
         image_strv (main_options o) = Some images ->
         let op := qfu_operation_verify_run (Some images) in
         main_with' o
         = Exited (exit_status (operation_returns op))
             [log_init_event o; Run op (operation_returns op); LogShutdown])
  /\ (forall o images d,
         no_informational_flag o = true -> sole_action o = Some UpdateQdl ->
         image_strv (main_options o) = Some images -> selected o = inr d ->
         let op := qfu_operation_update_qdl_run (Some images) d in
         main_with' o
         = Exited (exit_status (operation_returns op))
             [log_init_event o; device_selection_event o;
              Run op (operation_returns op); LogShutdown; Unref d])
  /\ (forall o a,
         no_informational_flag o = true -> sole_action o = Some a ->
         a = Verify \/ a = UpdateQdl ->
         ~ In (Printerr msg_multiple_modes) (events_of (main_with' o))).
Proof.
  split.
  { intros o a l Ha Hv. apply validate_device_open_flags_skipped.
    destruct (sole_action_flags o a Ha) as (_ & -> & _ & ->).
    destruct Hv as [-> | ->]; reflexivity. }
  split.
  { intros o images Hi Ha Him. rewrite (main_with_verify o Hi Ha), Him. reflexivity. }
  split.
  { intros o images d Hi Ha Him Hs.
    rewrite (main_with_update_qdl o Hi Ha), Him, Hs. reflexivity. }
  intros o a Hi Ha [-> | ->].
  - rewrite (main_with_verify o Hi Ha).
    destruct (image_strv (main_options o)); cbn;
      intros [H|[H|[H|[]]]]; discriminate H.
  - rewrite (main_with_update_qdl o Hi Ha).
    destruct (image_strv (main_options o)); [destruct (selected o)|]; cbn;
      intuition discriminate.
Qed.

End MainProperties.

(* ================================================================== *)
(** ** The claims at concrete inputs *)

Lemma C1_action_exclusivity_witness :
  example_main_with (parsed [])
  = Exited EXIT_FAILURE
      [LogInit false false None; Printerr msg_no_actions; LogShutdown]
  /\ example_main_with (parsed [Opt_update; Opt_reset; Opt_verify])
     = Exited EXIT_FAILURE
         [LogInit false false None; Printerr msg_too_many_actions; LogShutdown]
  /\ (forall l : Locals unit, check_actions (parsed [Opt_update_qdl]) l = (Next tt, l)).
Proof.
  split; [|split].
  - apply (C1_action_exclusivity unit (2 ^ 6) (2 ^ 7) (2 ^ 8)
             example_selection_new example_returns (parsed []) eq_refl).
    reflexivity.
  - apply (C1_action_exclusivity unit (2 ^ 6) (2 ^ 7) (2 ^ 8)
             example_selection_new example_returns
             (parsed [Opt_update; Opt_reset; Opt_verify]) eq_refl).
    vm_compute. lia.
  - apply (C1_action_exclusivity unit (2 ^ 6) (2 ^ 7) (2 ^ 8)
             example_selection_new example_returns
             (parsed [Opt_update_qdl]) eq_refl).
    reflexivity.
Defined.

Lemma C2_open_flags_witness :
  (* qmi and mbim together, on reset *)
  example_main cli_reset_modes
  = Exited EXIT_FAILURE
      [LogInit false false None; DeviceSelectionNew None None 0 0 1 2;
       Printerr msg_multiple_modes; LogShutdown; Unref tt]
  (* proxy and auto: bits 6 and 8, not bit 7 *)
  /\ (Z.testbit (resolved_open_flags (2 ^ 6) (2 ^ 7) (2 ^ 8)
                   (parsed cli_reset_proxy_auto)) 6 = true
      /\ Z.testbit (resolved_open_flags (2 ^ 6) (2 ^ 7) (2 ^ 8)
                      (parsed cli_reset_proxy_auto)) 7 = false
      /\ Z.testbit (resolved_open_flags (2 ^ 6) (2 ^ 7) (2 ^ 8)
                      (parsed cli_reset_proxy_auto)) 8 = true)
  (* no mode flag at all: auto *)
  /\ resolved_open_flags (2 ^ 6) (2 ^ 7) (2 ^ 8) (parsed cli_update) = 2 ^ 8
  (* the update operation receives the resolved flags *)
  /\ example_main cli_update
     = Exited EXIT_SUCCESS
         [LogInit false false None; DeviceSelectionNew None None 4505 26816 0 0;
          Run (qfu_operation_update_run (Some ["file1.cwe"; "file2.nvu"]) tt
                 None None None (2 ^ 8) false false 0 false) true;
          LogShutdown; Unref tt].
Proof.
  pose proof (C2_open_flags unit (2 ^ 6) (2 ^ 7) (2 ^ 8)
                example_selection_new example_returns)
    as (_ & Bits & Examples & OnReset & OnUpdate).
  split; [|split; [|split]].
  - exact (OnReset (parsed cli_reset_modes) tt eq_refl eq_refl eq_refl).
  - apply (Bits (parsed cli_reset_proxy_auto) 6 7 8);
      (lia || reflexivity).
  - apply (Examples (parsed cli_update)); reflexivity.
  - apply (OnUpdate (parsed cli_update) ["file1.cwe"; "file2.nvu"] tt
             eq_refl eq_refl eq_refl eq_refl); [reflexivity | vm_compute; intuition discriminate].
Defined.

Lemma C3_parse_busnum_devnum_witness :
  (busnum (snd (parse_busnum_devnum "1:2" selection0)) = 1
   /\ devnum (snd (parse_busnum_devnum "1:2" selection0)) = 2)
  /\ (devnum (snd (parse_busnum_devnum "42" selection0)) = 42
      /\ busnum (snd (parse_busnum_devnum "42" selection0)) = 0)
  /\ parse_busnum_devnum "0" selection0 = (CbFalse "invalid dev number: 0", selection0)
  /\ fst (parse_busnum_devnum "3:4294967296" selection0)
     = CbFalse "invalid dev number: 4294967296"
  /\ parse_busnum_devnum "0:7" selection0
     = (CbFalse "invalid bus number: 0", selection0).
Proof.
  pose proof C3_parse_busnum_devnum
    as (_ & One & Two & _ & BadDev & BadDevAfterBus & BadBus).
  assert (N : forall s v, s <> EmptyString -> numeral_value 10 s = Some v ->
                          is_numeral 10 s v) by (intros; split; assumption).
  split; [|split; [|split; [|split]]].
  - assert (T : is_numeral 10 "1" 1 /\ is_numeral 10 "2" 2
                /\ 0 < 1 <= G_MAXUINT /\ 0 < 2 <= G_MAXUINT).
    { repeat split; try discriminate; unfold G_MAXUINT; lia. }
    destruct T as (T1 & T2 & T3 & T4).
    destruct (Two "1" "2" 1 2 selection0 T1 T2 T3 T4) as (_ & Hb & Hd).
    split; [exact Hb | exact Hd].
  - assert (T : is_numeral 10 "42" 42 /\ 0 < 42 <= G_MAXUINT).
    { repeat split; try discriminate; unfold G_MAXUINT; lia. }
    destruct T as (T1 & T2).
    destruct (One "42" 42 selection0 T1 T2) as (_ & _ & Hd & Hb).
    split; [exact Hd | exact Hb].
  - apply (BadDev "0" 0 selection0);
      try (apply N; [discriminate | reflexivity]); lia.
  - apply (BadDevAfterBus "3" "4294967296" 3 4294967296 selection0);
      try (apply N; [discriminate | reflexivity]); unfold G_MAXUINT; lia.
  - apply (BadBus "0" "7" 0 selection0);
      try (apply N; [discriminate | reflexivity]); try reflexivity; lia.
Defined.

Lemma C4_parse_vid_pid_witness :
  (vid (snd (parse_vid_pid "1199:68c0" selection0)) = 4505
   /\ pid (snd (parse_vid_pid "1199:68c0" selection0)) = 26816)
  /\ (vid (snd (parse_vid_pid "1199" selection0)) = 4505
      /\ pid (snd (parse_vid_pid "1199" selection0)) = 0)
  /\ parse_vid_pid "10000" selection0
     = (CbFalse "invalid vendor id: 10000", selection0)
  /\ fst (parse_vid_pid "0:68c0" selection0) = CbFalse "invalid vendor id: 0"
  /\ parse_vid_pid "1199:0" selection0
     = (CbFalse "invalid product id: 0", selection0).
Proof.
  pose proof C4_parse_vid_pid
    as (_ & One & Two & _ & BadVid & BadVidBeforePid & BadPid).
  assert (N : forall s v, s <> EmptyString -> numeral_value 16 s = Some v ->
                          is_numeral 16 s v) by (intros; split; assumption).
  split; [|split; [|split; [|split]]].
  - assert (T : is_numeral 16 "1199" 4505 /\ is_numeral 16 "68c0" 26816
                /\ 0 < 4505 <= G_MAXUINT16 /\ 0 < 26816 <= G_MAXUINT16).
    { repeat split; try discriminate; unfold G_MAXUINT16; lia. }
    destruct T as (T1 & T2 & T3 & T4).
    destruct (Two "1199" "68c0" 4505 26816 selection0 T1 T2 T3 T4)
      as (_ & Hv & Hp).
    split; [exact Hv | exact Hp].
  - assert (T : is_numeral 16 "1199" 4505 /\ 0 < 4505 <= G_MAXUINT16).
    { repeat split; try discriminate; unfold G_MAXUINT16; lia. }
    destruct T as (T1 & T2).
    destruct (One "1199" 4505 selection0 T1 T2) as (_ & _ & Hv & Hp).
    split; [exact Hv | exact Hp].
  - apply (BadVid "10000" 65536 selection0);
      try (apply N; [discriminate | reflexivity]); unfold G_MAXUINT16; lia.
  - apply (BadVidBeforePid "0" "68c0" 0 26816 selection0);
      try (apply N; [discriminate | reflexivity]); unfold G_MAXUINT16; lia.
  - apply (BadPid "1199" "0" 0 selection0);
      try (apply N; [discriminate | reflexivity]); try reflexivity; lia.
Defined.

Lemma C5_images_required_witness :
  example_main [Opt_update_qdl; Opt_tty "/dev/ttyUSB2"]
  = Exited EXIT_FAILURE
      [LogInit false false None; Printerr msg_no_images; LogShutdown]
  /\ example_main_with (parsed [Opt_update; Opt_vid_pid "1199:68c0"])
     = Exited EXIT_FAILURE
         [LogInit false false None; Printerr msg_no_images; LogShutdown].
Proof.
  pose proof (C5_images_required unit (2 ^ 6) (2 ^ 7) (2 ^ 8)
                example_selection_new example_returns)
    as (OnOptions & OnCommandLine & _).
  split.
  - apply (OnCommandLine [Opt_update_qdl; Opt_tty "/dev/ttyUSB2"]
             (parsed [Opt_update_qdl; Opt_tty "/dev/ttyUSB2"]) UpdateQdl);
      (reflexivity || discriminate).
  - apply (OnOptions (parsed [Opt_update; Opt_vid_pid "1199:68c0"]) Update);
      (reflexivity || discriminate).
Defined.

Lemma C6_storage_index_witness :
  (* 255 is accepted and passed on *)
  example_main_with (parsed (cli_update_index 255))
  = Exited EXIT_SUCCESS
      [LogInit false false None; DeviceSelectionNew None None 4505 26816 0 0;
       Run (qfu_operation_update_run (Some ["file1.cwe"; "file2.nvu"]) tt
              None None None (2 ^ 8) false false 255 false) true;
       LogShutdown; Unref tt]
  (* 256 and -1 are refused *)
  /\ example_main_with (parsed (cli_update_index 256))
     = Exited EXIT_FAILURE
         [LogInit false false None; DeviceSelectionNew None None 4505 26816 0 0;
          Printerr msg_storage_index; LogShutdown; Unref tt]
  /\ example_main_with (parsed (cli_update_index (-1)))
     = Exited EXIT_FAILURE
         [LogInit false false None; DeviceSelectionNew None None 4505 26816 0 0;
          Printerr msg_storage_index; LogShutdown; Unref tt]
  (* verify does not look at the index *)
  /\ example_main_with
       (in_update (set_modem_storage_index_int 256) (parsed cli_verify_modes))
     = example_main_with (parsed cli_verify_modes).
Proof.
  pose proof (C6_storage_index unit (2 ^ 6) (2 ^ 7) (2 ^ 8)
                example_selection_new example_returns)
    as (OnUpdate & Others).
  split; [|split; [|split]].
  - apply (OnUpdate (parsed (cli_update_index 255)) ["file1.cwe"; "file2.nvu"] tt
             eq_refl eq_refl eq_refl eq_refl eq_refl).
    vm_compute. intuition discriminate.
  - apply (OnUpdate (parsed (cli_update_index 256)) ["file1.cwe"; "file2.nvu"] tt
             eq_refl eq_refl eq_refl eq_refl eq_refl).
    right. reflexivity.
  - apply (OnUpdate (parsed (cli_update_index (-1))) ["file1.cwe"; "file2.nvu"] tt
             eq_refl eq_refl eq_refl eq_refl eq_refl).
    left. reflexivity.
  - apply (Others (parsed cli_verify_modes) Verify 256 eq_refl eq_refl).
    discriminate.
Defined.

Lemma C7_at_most_one_operation_witness :
  (count_runs (events_of (example_main cli_update)) <= 1)%nat
  /\ count_runs (events_of (example_main cli_reset_modes)) = 0%nat
  /\ example_main_with (parsed [Opt_update; Opt_reset; Opt_cdc_wdm "/dev/cdc-wdm0"])
     = Exited EXIT_FAILURE
         [LogInit false false None; Printerr msg_too_many_actions; LogShutdown].
Proof.
  pose proof (C7_at_most_one_operation unit (2 ^ 6) (2 ^ 7) (2 ^ 8)
                example_selection_new example_returns)
    as (General & UpdateAndReset & _).
  split; [|split].
  - apply (General cli_update).
  - apply (General cli_reset_modes). reflexivity.
  - apply (UpdateAndReset
             (parsed [Opt_update; Opt_reset; Opt_cdc_wdm "/dev/cdc-wdm0"]));
      reflexivity.
Defined.

Lemma C8_exit_status_witness :
  (exists tr, example_main cli_update = Exited 0 tr)
  /\ (exists tr, example_main [Opt_reset; Opt_busnum_devnum "1:2"]
                 = Exited EXIT_FAILURE tr)
  /\ (exists tr, example_main [Opt_version; Opt_update; Opt_reset] = Exited 0 tr).
Proof.
  split; [|split].
  - pose proof (C8_exit_status unit (2 ^ 6) (2 ^ 7) (2 ^ 8)
                  example_selection_new example_returns cli_update) as H.
    change (main unit (2 ^ 6) (2 ^ 7) (2 ^ 8) example_selection_new
              example_returns cli_update) with (example_main cli_update) in H.
    destruct (example_main cli_update) as [status tr|tr] eqn:E;
      [|discriminate E].
    destruct H as (H & _). exists tr. f_equal. apply H.
    injection E as _ <-. right. reflexivity.
  - pose proof (C8_exit_status unit (2 ^ 6) (2 ^ 7) (2 ^ 8)
                  example_selection_new example_returns
                  [Opt_reset; Opt_busnum_devnum "1:2"]) as H.
    change (main unit (2 ^ 6) (2 ^ 7) (2 ^ 8) example_selection_new
              example_returns [Opt_reset; Opt_busnum_devnum "1:2"])
      with (example_main [Opt_reset; Opt_busnum_devnum "1:2"]) in H.
    destruct (example_main [Opt_reset; Opt_busnum_devnum "1:2"])
      as [status tr|tr] eqn:E; [|discriminate E].
    destruct H as (_ & _ & _ & _ & H). exists tr. f_equal.
    apply (H (qfu_operation_reset_run tt (2 ^ 8)) false).
    injection E as _ <-. right. right. left. reflexivity.
  - pose proof (C8_exit_status unit (2 ^ 6) (2 ^ 7) (2 ^ 8)
                  example_selection_new example_returns
                  [Opt_version; Opt_update; Opt_reset]) as H.
    change (main unit (2 ^ 6) (2 ^ 7) (2 ^ 8) example_selection_new
              example_returns [Opt_version; Opt_update; Opt_reset])
      with (example_main [Opt_version; Opt_update; Opt_reset]) in H.
    destruct (example_main [Opt_version; Opt_update; Opt_reset])
      as [status tr|tr] eqn:E; [|discriminate E].
    destruct H as (H & _). exists tr. f_equal. apply H.
    injection E as _ <-. left. reflexivity.
Defined.

Lemma C9_open_flags_only_for_update_and_reset_witness :
  example_main_with (parsed cli_verify_modes)
  = Exited EXIT_SUCCESS
      [LogInit false false None;
       Run (qfu_operation_verify_run (Some ["file.cwe"])) true; LogShutdown]
  /\ example_main_with (parsed cli_update_qdl_modes)
     = Exited EXIT_SUCCESS
         [LogInit false false None;
          DeviceSelectionNew None (Some "/dev/ttyUSB2") 0 0 0 0;
          Run (qfu_operation_update_qdl_run (Some ["file.cwe"]) tt) true;
          LogShutdown; Unref tt]
  /\ ~ In (Printerr msg_multiple_modes)
          (events_of (example_main_with (parsed cli_update_qdl_modes))).
Proof.
  pose proof (C9_open_flags_only_for_update_and_reset unit (2 ^ 6) (2 ^ 7) (2 ^ 8)
                example_selection_new example_returns)
    as (_ & OnVerify & OnUpdateQdl & NoConfigError).
  split; [|split].
  - exact (OnVerify (parsed cli_verify_modes) ["file.cwe"] eq_refl eq_refl eq_refl).
  - exact (OnUpdateQdl (parsed cli_update_qdl_modes) ["file.cwe"] tt
             eq_refl eq_refl eq_refl eq_refl).
  - apply (NoConfigError (parsed cli_update_qdl_modes) UpdateQdl eq_refl eq_refl).
    right. reflexivity.
Defined.

Lemma C10_parse_vid_pid_product_first_witness :
  parse_vid_pid "0:68c0" selection0
  = (CbFalse "invalid vendor id: 0", set_pid 26816 selection0)
  /\ parse_vid_pid "0:10000" selection0
     = (CbFalse "invalid product id: 10000", selection0).
Proof.
  split.
  - apply (C10_parse_vid_pid_product_first "0" "68c0" selection0 eq_refl eq_refl);
      reflexivity.
  - apply (C10_parse_vid_pid_product_first "0" "10000" selection0 eq_refl eq_refl);
      reflexivity.
Defined.

(* ================================================================== *)
(** ** Beyond the claims: the option callbacks *)

Lemma split_fields_count (s : string) :
  List.length (snd (split_fields colon s)) = count_colons s.
Proof.
  induction s as [|c r IH]; simpl; [reflexivity|].
  destruct (split_fields colon r) as [t ts]. simpl in IH.
  destruct (Ascii.eqb c colon); simpl; congruence.
Qed.

Lemma g_strsplit_length (s : string) :
  List.length (g_strsplit s colon)
  = match s with EmptyString => O | _ => S (count_colons s) end.
Proof.
  destruct s as [|c r]; [reflexivity|]. unfold g_strsplit.
  pose proof (split_fields_count (String c r)) as H.
  destruct (split_fields colon (String c r)) as [t ts]. simpl in *. congruence.
Qed.

(** X1.  A callback aborts (its [g_assert (strv[0])] fails) exactly on
    the empty token, and then it has stored nothing. *)
Theorem X1_callback_aborts_iff_empty (value : string) (st : Selection) :
  (fst (parse_busnum_devnum value st) = CbAbort <-> value = EmptyString)
  /\ (fst (parse_vid_pid value st) = CbAbort <-> value = EmptyString)
  /\ parse_busnum_devnum EmptyString st = (CbAbort, st)
  /\ parse_vid_pid EmptyString st = (CbAbort, st).
Proof.
  split; [|split; [|split; reflexivity]].
  - split; [apply callback_abort_busnum_devnum | intros ->; reflexivity].
  - split; [apply callback_abort_vid_pid | intros ->; reflexivity].
Qed.

(** X2.  "too many fields" is the answer exactly when the token holds
    two colons or more, whatever stands between them. *)
Theorem X2_too_many_fields_iff_two_colons (value : string) (st : Selection) :
  (fst (parse_busnum_devnum value st)
   = CbFalse "invalid busnum-devnum string: too many fields"
   <-> (2 <= count_colons value)%nat)
  /\ (fst (parse_vid_pid value st)
      = CbFalse "invalid vid-pid string: too many fields"
      <-> (2 <= count_colons value)%nat).
Proof.
  destruct value as [|c r].
  { cbn. split; (split; [discriminate | lia]). }
  assert (L : List.length (g_strsplit (String c r) colon)
              = S (count_colons (String c r))) by apply g_strsplit_length.
  rewrite parse_busnum_devnum_fields, parse_vid_pid_fields.
  set (n := count_colons (String c r)) in *.
  destruct (g_strsplit (String c r) colon) as [|f0 [|f1 [|f2 rest]]];
    cbn [List.length] in L;
    cbn [busnum_devnum_of_fields vid_pid_of_fields].
  - discriminate L.
  - split; (split; [destruct (refused _ _); cbn; discriminate | lia]).
  - split;
      (split; [repeat (destruct (refused _ _); cbn; try discriminate) | lia]).
  - split; (split; [intros _; lia | reflexivity]).
Qed.

Lemma refused_false_inv (max v : Z) :
  refused max v = false -> 0 <= v -> 0 < v <= max.
Proof.
  unfold refused. intros H Hv. apply orb_false_iff in H. lia.
Qed.

Lemma accepted_decimal (s : string) :
  refused G_MAXUINT (strtoul s 10) = false -> 0 < strtoul s 10 <= G_MAXUINT.
Proof.
  intros H. apply (refused_false_inv _ _ H). apply strtoul_range. lia.
Qed.

Lemma accepted_hexadecimal (s : string) :
  refused G_MAXUINT16 (strtoul s 16) = false -> 0 < strtoul s 16 <= G_MAXUINT16.
Proof.
  intros H. apply (refused_false_inv _ _ H). apply strtoul_range. lia.
Qed.

(** X3.  Whatever the token, [parse_busnum_devnum] leaves the vendor
    id, the product id and the two paths alone; when it returns [TRUE]
    the device number is in 1..[G_MAXUINT]; when it does not, the device
    number is as before; the bus number is either as before or in
    1..[G_MAXUINT]; and values that fitted their C types still do. *)
Theorem X3_parse_busnum_devnum_frame (value : string) (st : Selection) :
  let r := parse_busnum_devnum value st in
  (vid (snd r) = vid st /\ pid (snd r) = pid st
   /\ cdc_wdm_str (snd r) = cdc_wdm_str st /\ tty_str (snd r) = tty_str st)
  /\ (fst r = CbTrue -> 0 < devnum (snd r) <= G_MAXUINT)
  /\ (fst r <> CbTrue -> devnum (snd r) = devnum st)
  /\ (busnum (snd r) = busnum st \/ 0 < busnum (snd r) <= G_MAXUINT)
  /\ (selection_fits st -> selection_fits (snd r)).
Proof.
  cbv zeta. rewrite parse_busnum_devnum_fields. unfold selection_fits.
  destruct (g_strsplit value colon) as [|f0 [|f1 [|f2 rest]]];
    cbn [busnum_devnum_of_fields];
    repeat (match goal with
            | |- context [refused ?m (strtoul ?s ?b)] =>
                let R := fresh "R" in
                destruct (refused m (strtoul s b)) eqn:R;
                [|pose proof (accepted_decimal s R)]
            end);
    unfold G_MAXUINT, G_MAXUINT16 in *; cbn;
    repeat (match goal with |- _ /\ _ => split end);
    intros; try reflexivity; try congruence; lia.
Qed.

(** X4.  Whatever the token, [parse_vid_pid] leaves the bus number, the
    device number and the two paths alone; when it returns [TRUE] the
    vendor id is in 1..0xFFFF; when it does not, the vendor id is as
    before; the product id is either as before or in 1..0xFFFF; and
    values that fitted their C types still do. *)
Theorem X4_parse_vid_pid_frame (value : string) (st : Selection) :
  let r := parse_vid_pid value st in
  (busnum (snd r) = busnum st /\ devnum (snd r) = devnum st
   /\ cdc_wdm_str (snd r) = cdc_wdm_str st /\ tty_str (snd r) = tty_str st)
  /\ (fst r = CbTrue -> 0 < vid (snd r) <= G_MAXUINT16)
  /\ (fst r <> CbTrue -> vid (snd r) = vid st)
  /\ (pid (snd r) = pid st \/ 0 < pid (snd r) <= G_MAXUINT16)
  /\ (selection_fits st -> selection_fits (snd r)).
Proof.
  cbv zeta. rewrite parse_vid_pid_fields. unfold selection_fits.
  destruct (g_strsplit value colon) as [|f0 [|f1 [|f2 rest]]];
    cbn [vid_pid_of_fields];
    repeat (match goal with
            | |- context [refused ?m (strtoul ?s ?b)] =>
                let R := fresh "R" in
                destruct (refused m (strtoul s b)) eqn:R;
                [|pose proof (accepted_hexadecimal s R)]
            end);
    unfold G_MAXUINT, G_MAXUINT16 in *; cbn;
    repeat (match goal with |- _ /\ _ => split end);
    intros; try reflexivity; try congruence; lia.
Qed.

(** X5.  On a two-field token [B:D], [parse_busnum_devnum] checks and
    stores the bus number before it looks at the device number: with the
    bus field accepted and the device field refused the call fails with
    "invalid dev number" and [busnum] already holds the new bus number;
    with the bus field refused the error names the bus number, whatever
    the device field is, and nothing is stored. *)
Theorem X5_parse_busnum_devnum_bus_first
  (B D : string) (st : Selection)
  (HB : has_colon B = false) (HD : has_colon D = false) :
  (refused G_MAXUINT (strtoul B 10) = false ->
   refused G_MAXUINT (strtoul D 10) = true ->
   parse_busnum_devnum (B ++ ":" ++ D) st
   = (CbFalse ("invalid dev number: " ++ D), set_busnum (strtoul B 10) st)
   /\ busnum (snd (parse_busnum_devnum (B ++ ":" ++ D) st)) = strtoul B 10
   /\ devnum (snd (parse_busnum_devnum (B ++ ":" ++ D) st)) = devnum st)
  /\ (refused G_MAXUINT (strtoul B 10) = true ->
      parse_busnum_devnum (B ++ ":" ++ D) st
      = (CbFalse ("invalid bus number: " ++ B), st)).
Proof.
  assert (E : parse_busnum_devnum (B ++ ":" ++ D) st
              = busnum_devnum_of_fields [B; D] st).
  { rewrite parse_busnum_devnum_fields.
    change (B ++ ":" ++ D)%string with (B ++ String colon D)%string.
    rewrite (g_strsplit_two B D HB HD). reflexivity. }
  rewrite E. cbn [busnum_devnum_of_fields]. split.
  - intros RB RD. rewrite RB, RD. repeat split.
  - intros RB. rewrite RB. reflexivity.
Qed.

(** *** What [strtoul] lets through *)

Lemma has_colon_app (a b : string) :
  has_colon (a ++ b) = has_colon a || has_colon b.
Proof.
  induction a as [|c r IH]; simpl; [reflexivity|].
  rewrite IH, orb_assoc. reflexivity.
Qed.

Lemma all_spaces_no_colon (ws : string) :
  all_spaces ws = true -> has_colon ws = false.
Proof.
  induction ws as [|c r IH]; simpl; [reflexivity|].
  intros H. apply andb_true_iff in H. destruct H as [Hc Hr].
  rewrite (IH Hr), orb_false_r.
  destruct (Ascii.eqb_spec c colon) as [->|_]; [discriminate Hc | reflexivity].
Qed.

Lemma skip_spaces_app (ws s : string) :
  all_spaces ws = true -> skip_spaces (ws ++ s) = skip_spaces s.
Proof.
  induction ws as [|c r IH]; simpl; [reflexivity|].
  intros H. apply andb_true_iff in H. destruct H as [-> Hr]. exact (IH Hr).
Qed.

Lemma accumulate_junk (base : Z) (junk : string) (acc : Z) :
  starts_with_digit base junk = false -> accumulate base junk acc = acc.
Proof.
  destruct junk as [|c r]; simpl; [reflexivity|].
  destruct (digit_in_base base c); [discriminate | reflexivity].
Qed.

Lemma accumulate_app (base : Z) (D junk : string) :
  starts_with_digit base junk = false ->
  forall acc v, numeral_value base D = Some v ->
  accumulate base (D ++ junk) acc = accumulate base D acc.
Proof.
  intros Hj. induction D as [|c r IH]; intros acc v H.
  - simpl. apply accumulate_junk. assumption.
  - apply numeral_head in H. destruct H as (d & w & Hd & Hw & _).
    simpl. rewrite Hd. apply (IH _ _ Hw).
Qed.

Lemma numeral_first_digit (base : Z) (D : string) (v : Z) :
  is_numeral base D v ->
  exists c r d, D = String c r /\ digit_in_base base c = Some d.
Proof.
  intros [Hne H]. destruct D as [|c r]; [congruence|].
  destruct (numeral_head _ _ _ _ H) as (d & _ & Hd & _). eauto.
Qed.

(** A decimal numeral, after white space and an optional plus sign and
    before anything that is not a digit, reads as the numeral alone. *)
Lemma strtoul_decimal_lenient (ws D junk : string) (plus : bool) (v : Z) :
  all_spaces ws = true -> is_numeral 10 D v ->
  starts_with_digit 10 junk = false ->
  strtoul (ws ++ (if plus then "+" else "") ++ D ++ junk) 10 = Z.min v ULONG_MAX.
Proof.
  intros Hws HD Hj.
  destruct (numeral_first_digit 10 D v HD) as (c & r & d & -> & Hd).
  destruct HD as [_ HD].
  rewrite <- (strtoul_numeral 10 (String c r) v ltac:(lia) HD).
  unfold strtoul. rewrite (skip_spaces_app ws _ Hws).
  assert (E : read_sign (skip_spaces ((if plus then "+" else "") ++ String c r ++ junk))
              = (false, (String c r ++ junk)%string)).
  { destruct plus.
    - reflexivity.
    - cbn [append]. cbn [skip_spaces]. rewrite (digit_not_space _ _ _ Hd).
      apply (digit_not_sign _ _ _ _ Hd). }
  rewrite E.
  assert (E' : read_sign (skip_spaces (String c r)) = (false, String c r)).
  { cbn [skip_spaces]. rewrite (digit_not_space _ _ _ Hd).
    apply (digit_not_sign _ _ _ _ Hd). }
  rewrite E'.
  assert (S10 : forall s, skip_0x 10 s = s).
  { intros s. destruct s as [|c0 [|cx [|dd rr]]]; reflexivity. }
  rewrite !S10, (accumulate_app 10 (String c r) junk Hj 0 v HD). reflexivity.
Qed.

(** X6.  [parse_busnum_devnum] reads its numbers as [strtoul] does: white
    space and a plus sign before the digits, and anything after them
    that is not a digit (and not a colon), do not change the number that
    is stored. *)
Theorem X6_parse_busnum_devnum_lenient
  (ws D junk : string) (plus : bool) (v : Z) (st : Selection) :
  all_spaces ws = true -> is_numeral 10 D v ->
  starts_with_digit 10 junk = false -> has_colon junk = false ->
  0 < v <= G_MAXUINT ->
  parse_busnum_devnum (ws ++ (if plus then "+" else "") ++ D ++ junk) st
  = (CbTrue, set_devnum v st).
Proof.
  intros Hws HD Hj Hc Hv.
  set (token := (ws ++ (if plus then "+" else "") ++ D ++ junk)%string).
  assert (Hnc : has_colon token = false).
  { unfold token. rewrite !has_colon_app, (all_spaces_no_colon ws Hws), Hc,
      (numeral_no_colon 10 D v (proj2 HD)). destruct plus; reflexivity. }
  assert (Hne : token <> EmptyString).
  { unfold token. destruct (numeral_first_digit 10 D v HD) as (c & r & d & -> & _).
    destruct ws; [destruct plus|]; discriminate. }
  rewrite parse_busnum_devnum_fields, (g_strsplit_one token Hne Hnc).
  cbn [busnum_devnum_of_fields]. unfold token.
  rewrite (strtoul_decimal_lenient ws D junk plus v Hws HD Hj).
  replace (Z.min v ULONG_MAX) with v
    by (unfold ULONG_MAX, G_MAXUINT in *; lia).
  rewrite (refused_false _ _ Hv). reflexivity.
Qed.

(** X7.  A minus sign is read too, and the value negated in 64 bits: a
    decimal numeral of value [v] behind a minus sign is refused when
    [v] is at most [2^64 - 2^32], and is taken as the device number
    [2^64 - v] when [v] is above that and below [2^64]. *)
Theorem X7_parse_busnum_devnum_minus (D : string) (v : Z) (st : Selection) :
  is_numeral 10 D v ->
  (0 <= v <= ULONG_MAX - G_MAXUINT ->
   parse_busnum_devnum ("-" ++ D) st
   = (CbFalse ("invalid dev number: -" ++ D), st))
  /\ (ULONG_MAX - G_MAXUINT < v <= ULONG_MAX ->
      parse_busnum_devnum ("-" ++ D) st
      = (CbTrue, set_devnum (ULONG_MAX + 1 - v) st)
      /\ devnum (snd (parse_busnum_devnum ("-" ++ D) st)) = ULONG_MAX + 1 - v
      /\ busnum (snd (parse_busnum_devnum ("-" ++ D) st)) = busnum st).
Proof.
  intros HD.
  destruct (numeral_first_digit 10 D v HD) as (c & r & d & -> & Hd).
  destruct HD as [_ HD].
  assert (Hnc : has_colon ("-" ++ String c r) = false).
  { cbn [append has_colon]. rewrite <- (numeral_no_colon 10 _ v HD). reflexivity. }
  assert (S : strtoul ("-" ++ String c r) 10
              = if ULONG_MAX <? v then ULONG_MAX
                else (- v) mod (ULONG_MAX + 1)).
  { unfold strtoul. cbn [append skip_spaces]. change (isspace "-") with false.
    cbn [read_sign]. change (Ascii.eqb "-" "-") with true. cbv iota.
    replace (skip_0x 10 (String c r)) with (String c r)
      by (destruct r as [|cx [|dd rr]]; reflexivity).
    rewrite (accumulate_numeral 10 _ 0 v HD). reflexivity. }
  rewrite !parse_busnum_devnum_fields,
    (g_strsplit_one ("-" ++ String c r) ltac:(discriminate) Hnc).
  cbn [busnum_devnum_of_fields]. rewrite S.
  unfold ULONG_MAX, G_MAXUINT. split; intros Hv.
  - replace (2 ^ 64 - 1 <? v) with false by (symmetry; apply Z.ltb_ge; lia).
    destruct (Z.eq_dec v 0) as [->|Hnz]; [reflexivity|].
    replace ((- v) mod (2 ^ 64 - 1 + 1)) with (2 ^ 64 - v).
    2:{ apply Z.mod_unique with (q := -1); lia. }
    rewrite refused_true by lia. reflexivity.
  - replace (2 ^ 64 - 1 <? v) with false by (symmetry; apply Z.ltb_ge; lia).
    replace ((- v) mod (2 ^ 64 - 1 + 1)) with (2 ^ 64 - 1 + 1 - v).
    2:{ apply Z.mod_unique with (q := -1); lia. }
    rewrite refused_false by lia. repeat split.
Qed.

(** X8.  [parse_vid_pid] accepts the [0x] or [0X] prefix before a
    hexadecimal numeral and stores the same vendor id as without it. *)
Theorem X8_parse_vid_pid_hex_prefix (V : string) (vv : Z) (st : Selection) :
  is_numeral 16 V vv -> 0 < vv <= G_MAXUINT16 ->
  parse_vid_pid ("0x" ++ V) st = (CbTrue, set_vid vv st)
  /\ parse_vid_pid ("0X" ++ V) st = (CbTrue, set_vid vv st)
  /\ parse_vid_pid V st = (CbTrue, set_vid vv st).
Proof.
  intros HV Hr.
  destruct (numeral_first_digit 16 V vv HV) as (c & r & d & -> & Hd).
  destruct HV as [Hne HV].
  pose proof (numeral_no_colon 16 _ vv HV) as Hnc.
  destruct (hexadecimal_field _ vv HV) as [E W].
  assert (P : forall x, x = "x"%char \/ x = "X"%char ->
              parse_vid_pid (String "0" (String x (String c r))) st
              = (CbTrue, set_vid vv st)).
  { intros x Hx.
    assert (Hxc : has_colon (String "0" (String x (String c r))) = false).
    { destruct Hx as [-> | ->]; exact Hnc. }
    assert (S : strtoul (String "0" (String x (String c r))) 16
                = strtoul (String c r) 16).
    { rewrite (strtoul_numeral 16 _ vv ltac:(lia) HV). unfold strtoul.
      cbn [skip_spaces]. change (isspace "0") with false. cbv iota.
      cbn [read_sign]. change (Ascii.eqb "0" "-") with false.
      change (Ascii.eqb "0" "+") with false. cbv iota.
      assert (K : skip_0x 16 (String "0" (String x (String c r))) = String c r).
      { unfold skip_0x. rewrite Hd. destruct Hx as [-> | ->]; reflexivity. }
      rewrite K, (accumulate_numeral 16 _ 0 vv HV).
      destruct (ULONG_MAX <? 0 * 16 ^ Z.of_nat (String.length (String c r)) + vv) eqn:L;
        unfold ULONG_MAX in *; lia. }
    assert (Hxe : String "0" (String x (String c r)) <> EmptyString)
      by discriminate.
    rewrite parse_vid_pid_fields, (g_strsplit_one _ Hxe Hxc).
    cbn [vid_pid_of_fields]. rewrite S, E, (refused_false _ _ Hr),
      (W (refused_false _ _ Hr)). reflexivity. }
  split; [apply (P "x"%char); auto|]. split; [apply (P "X"%char); auto|].
  rewrite parse_vid_pid_fields, (g_strsplit_one _ Hne Hnc).
  cbn [vid_pid_of_fields].
  rewrite E, (refused_false _ _ Hr), (W (refused_false _ _ Hr)). reflexivity.
Qed.

(** *** One option after another *)

Lemma parse_busnum_devnum_single (D : string) (vd : Z) (st : Selection) :
  is_numeral 10 D vd -> 0 < vd <= G_MAXUINT ->
  parse_busnum_devnum D st = (CbTrue, set_devnum vd st).
Proof.
  intros [Hne HD] Hr.
  rewrite parse_busnum_devnum_fields,
    (g_strsplit_one D Hne (numeral_no_colon _ _ _ HD)).
  destruct (decimal_field D vd HD) as [E V]. cbn [busnum_devnum_of_fields].
  rewrite E, (refused_false _ _ Hr), (V (refused_false _ _ Hr)). reflexivity.
Qed.

Lemma parse_busnum_devnum_pair (B D : string) (vb vd : Z) (st : Selection) :
  is_numeral 10 B vb -> is_numeral 10 D vd ->
  0 < vb <= G_MAXUINT -> 0 < vd <= G_MAXUINT ->
  parse_busnum_devnum (B ++ ":" ++ D) st
  = (CbTrue, set_devnum vd (set_busnum vb st)).
Proof.
  intros [_ HB] [_ HD] Hb Hd.
  rewrite parse_busnum_devnum_fields.
  change (B ++ ":" ++ D)%string with (B ++ String colon D)%string.
  rewrite (g_strsplit_two B D (numeral_no_colon _ _ _ HB) (numeral_no_colon _ _ _ HD)).
  destruct (decimal_field B vb HB) as [EB VB].
  destruct (decimal_field D vd HD) as [ED VD]. cbn [busnum_devnum_of_fields].
  rewrite EB, ED, (refused_false _ _ Hb), (refused_false _ _ Hd),
    (VB (refused_false _ _ Hb)), (VD (refused_false _ _ Hd)). reflexivity.
Qed.

Lemma parse_vid_pid_single (V : string) (vv : Z) (st : Selection) :
  is_numeral 16 V vv -> 0 < vv <= G_MAXUINT16 ->
  parse_vid_pid V st = (CbTrue, set_vid vv st).
Proof.
  intros [Hne HV] Hr.
  rewrite parse_vid_pid_fields,
    (g_strsplit_one V Hne (numeral_no_colon _ _ _ HV)).
  destruct (hexadecimal_field V vv HV) as [E W]. cbn [vid_pid_of_fields].
  rewrite E, (refused_false _ _ Hr), (W (refused_false _ _ Hr)). reflexivity.
Qed.

Lemma parse_vid_pid_pair (V P : string) (vv vp : Z) (st : Selection) :
  is_numeral 16 V vv -> is_numeral 16 P vp ->
  0 < vv <= G_MAXUINT16 -> 0 < vp <= G_MAXUINT16 ->
  parse_vid_pid (V ++ ":" ++ P) st = (CbTrue, set_vid vv (set_pid vp st)).
Proof.
  intros [_ HV] [_ HP] Hv Hp.
  rewrite parse_vid_pid_fields.
  change (V ++ ":" ++ P)%string with (V ++ String colon P)%string.
  rewrite (g_strsplit_two V P (numeral_no_colon _ _ _ HV) (numeral_no_colon _ _ _ HP)).
  destruct (hexadecimal_field V vv HV) as [EV WV].
  destruct (hexadecimal_field P vp HP) as [EP WP]. cbn [vid_pid_of_fields].
  rewrite EV, EP, (refused_false _ _ Hv), (refused_false _ _ Hp),
    (WV (refused_false _ _ Hv)), (WP (refused_false _ _ Hp)). reflexivity.
Qed.

Lemma g_option_context_parse_app (pre rest : list cli_arg) :
  forall o,
  g_option_context_parse (pre ++ rest) o
  = match g_option_context_parse pre o with
    | ParseOk o1 => g_option_context_parse rest o1
    | failure => failure
    end.
Proof.
  induction pre as [|a pre IH]; intros o; simpl; [reflexivity|].
  destruct (apply_entry a o) as [o1|m|]; [apply IH | reflexivity | reflexivity].
Qed.

(** X9.  The selection variables are written one by one and never
    reset: after an option [B:D], a later option that gives the device
    number alone replaces the device number and keeps the earlier bus
    number; after [V:P], a later option that gives the vendor id alone
    replaces the vendor id and keeps the earlier product id.  The
    values are read from the variables the parse leaves behind. *)
Theorem X9_later_option_keeps_earlier_field :
  (forall B D D2 vb vd v2 o,
      is_numeral 10 B vb -> is_numeral 10 D vd -> is_numeral 10 D2 v2 ->
      0 < vb <= G_MAXUINT -> 0 < vd <= G_MAXUINT -> 0 < v2 <= G_MAXUINT ->
      exists o',
        g_option_context_parse
          [Opt_busnum_devnum (B ++ ":" ++ D); Opt_busnum_devnum D2] o
        = ParseOk o'
        /\ busnum (selection o') = vb /\ devnum (selection o') = v2
        /\ vid (selection o') = vid (selection o)
        /\ pid (selection o') = pid (selection o)
        /\ o' = set_selection (set_devnum v2 (set_busnum vb (selection o))) o)
  /\ (forall V P V2 vv vp v2 o,
         is_numeral 16 V vv -> is_numeral 16 P vp -> is_numeral 16 V2 v2 ->
         0 < vv <= G_MAXUINT16 -> 0 < vp <= G_MAXUINT16 -> 0 < v2 <= G_MAXUINT16 ->
         exists o',
           g_option_context_parse
             [Opt_vid_pid (V ++ ":" ++ P); Opt_vid_pid V2] o
           = ParseOk o'
           /\ vid (selection o') = v2 /\ pid (selection o') = vp
           /\ busnum (selection o') = busnum (selection o)
           /\ devnum (selection o') = devnum (selection o)
           /\ o' = set_selection (set_vid v2 (set_pid vp (selection o))) o).
Proof.
  split.
  - intros B D D2 vb vd v2 o HB HD HD2 Hb Hd H2.
    exists (set_selection (set_devnum v2 (set_busnum vb (selection o))) o).
    split; [|repeat split].
    cbn [g_option_context_parse apply_entry]. unfold run_callback.
    rewrite (parse_busnum_devnum_pair B D vb vd _ HB HD Hb Hd).
    cbn [selection set_selection].
    rewrite (parse_busnum_devnum_single D2 v2 _ HD2 H2). reflexivity.
  - intros V P V2 vv vp v2 o HV HP HV2 Hv Hp H2.
    exists (set_selection (set_vid v2 (set_pid vp (selection o))) o).
    split; [|repeat split].
    cbn [g_option_context_parse apply_entry]. unfold run_callback.
    rewrite (parse_vid_pid_pair V P vv vp _ HV HP Hv Hp).
    cbn [selection set_selection].
    rewrite (parse_vid_pid_single V2 v2 _ HV2 H2). reflexivity.
Qed.

Lemma repeated_flag_parse (a : cli_arg) (pre post : list cli_arg) (o : Options) :
  is_flag_entry a = true ->
  g_option_context_parse (pre ++ a :: a :: post) o
  = g_option_context_parse (pre ++ a :: post) o.
Proof.
  intros Ha. rewrite !g_option_context_parse_app.
  destruct (g_option_context_parse pre o) as [o1|m|]; try reflexivity.
  destruct a; try discriminate Ha; reflexivity.
Qed.

Lemma parse_abort_split (argv : list cli_arg) :
  forall o, g_option_context_parse argv o = ParseAbort ->
  exists pre a post o1,
    argv = (pre ++ a :: post)%list
    /\ g_option_context_parse pre o = ParseOk o1
    /\ (a = Opt_busnum_devnum EmptyString \/ a = Opt_vid_pid EmptyString).
Proof.
  induction argv as [|a rest IH]; intros o H; simpl in H; [discriminate H|].
  destruct (apply_entry a o) as [o1|m|] eqn:E.
  - destruct (IH _ H) as (pre & b & post & o2 & -> & Hp & Hb).
    exists (a :: pre), b, post, o2. simpl. rewrite E. auto.
  - discriminate H.
  - exists [], a, rest, o. split; [reflexivity|]. split; [reflexivity|].
    clear H IH. destruct a; simpl in E; try discriminate E; unfold run_callback in E.
    + left. f_equal.
      apply (callback_abort_busnum_devnum value (selection o)).
      destruct (parse_busnum_devnum value (selection o)) as [[| |] st];
        (discriminate E || reflexivity).
    + right. f_equal.
      apply (callback_abort_vid_pid value (selection o)).
      destruct (parse_vid_pid value (selection o)) as [[| |] st];
        (discriminate E || reflexivity).
Qed.

(* ================================================================== *)
(** ** Beyond the claims: [main] *)

Section MainFurther.

Variable QfuDeviceSelection : Type.
Variables QMI_DEVICE_OPEN_FLAGS_PROXY
          QMI_DEVICE_OPEN_FLAGS_MBIM
          QMI_DEVICE_OPEN_FLAGS_AUTO : Z.
Variable qfu_device_selection_new :
  option string -> option string -> Z -> Z -> Z -> Z ->
  string + QfuDeviceSelection.
Variable operation_returns : operation QfuDeviceSelection -> bool.

Local Abbreviation main_with' :=
  (main_with QfuDeviceSelection QMI_DEVICE_OPEN_FLAGS_PROXY
     QMI_DEVICE_OPEN_FLAGS_MBIM QMI_DEVICE_OPEN_FLAGS_AUTO
     qfu_device_selection_new operation_returns).
Local Abbreviation main' :=
  (main QfuDeviceSelection QMI_DEVICE_OPEN_FLAGS_PROXY
     QMI_DEVICE_OPEN_FLAGS_MBIM QMI_DEVICE_OPEN_FLAGS_AUTO
     qfu_device_selection_new operation_returns).
Local Abbreviation open_flags :=
  (resolved_open_flags QMI_DEVICE_OPEN_FLAGS_PROXY
     QMI_DEVICE_OPEN_FLAGS_MBIM QMI_DEVICE_OPEN_FLAGS_AUTO).
Local Abbreviation selected := (select_call qfu_device_selection_new).

(** Every path of [main_with' o], with what is known on it. *)
Ltac main_cases o :=
  let closed lem Hi Ha :=
    (rewrite (lem QfuDeviceSelection QMI_DEVICE_OPEN_FLAGS_PROXY
                QMI_DEVICE_OPEN_FLAGS_MBIM QMI_DEVICE_OPEN_FLAGS_AUTO
                qfu_device_selection_new operation_returns o Hi Ha)) in
  let Hi := fresh "Hi" in let Ha := fresh "Ha" in
  let Him := fresh "Him" in let Hs := fresh "Hs" in
  let Hc := fresh "Hc" in let Hx := fresh "Hx" in
  destruct (no_informational_flag o) eqn:Hi;
  [ destruct (sole_action o) as [[| | |]|] eqn:Ha;
    [ closed main_with_update Hi Ha;
      destruct (image_strv (main_options o)) as [?images|] eqn:Him;
      [ destruct (select_call qfu_device_selection_new o) as [?m|?d] eqn:Hs;
        [ | destruct (conflicting_modes o) eqn:Hc;
            [ | destruct ((modem_storage_index_int (update o) <? 0)
                          || (G_MAXUINT8 <? modem_storage_index_int (update o)))
                  eqn:Hx ] ]
      | ]
    | closed main_with_update_qdl Hi Ha;
      destruct (image_strv (main_options o)) as [?images|] eqn:Him;
      [ destruct (select_call qfu_device_selection_new o) as [?m|?d] eqn:Hs | ]
    | closed main_with_reset Hi Ha;
      destruct (select_call qfu_device_selection_new o) as [?m|?d] eqn:Hs;
      [ | destruct (conflicting_modes o) eqn:Hc ]
    | closed main_with_verify Hi Ha;
      destruct (image_strv (main_options o)) as [?images|] eqn:Him
    | let H0 := fresh "H0" in
      destruct (sole_action_none o Ha) as [H0|H0];
      [ rewrite (main_with_no_action QfuDeviceSelection
                   QMI_DEVICE_OPEN_FLAGS_PROXY QMI_DEVICE_OPEN_FLAGS_MBIM
                   QMI_DEVICE_OPEN_FLAGS_AUTO qfu_device_selection_new
                   operation_returns o Hi H0)
      | rewrite (main_with_many_actions QfuDeviceSelection
                   QMI_DEVICE_OPEN_FLAGS_PROXY QMI_DEVICE_OPEN_FLAGS_MBIM
                   QMI_DEVICE_OPEN_FLAGS_AUTO qfu_device_selection_new
                   operation_returns o Hi H0) ] ]
  | rewrite (main_with_informational QfuDeviceSelection
               QMI_DEVICE_OPEN_FLAGS_PROXY QMI_DEVICE_OPEN_FLAGS_MBIM
               QMI_DEVICE_OPEN_FLAGS_AUTO qfu_device_selection_new
               operation_returns o Hi) ].

(** X10.  Options of kind [G_OPTION_ARG_NONE] only ever set their flag:
    a command line with such an option twice in a row runs exactly as
    with the option once, so a repeated action flag is still one
    action. *)
Theorem X10_repeated_flag (a : cli_arg) (pre post : list cli_arg) :
  is_flag_entry a = true ->
  main' (pre ++ a :: a :: post) = main' (pre ++ a :: post).
Proof.
  intros Ha. unfold main. rewrite (repeated_flag_parse a pre post options0 Ha).
  reflexivity.
Qed.

(** X11.  An informational flag ends the run before logging starts and
    before any check: the version text wins over the help text, which
    wins over the examples; exactly one of them is printed and the run
    returns success, whatever else was on the command line. *)
Theorem X11_informational_precedence (argv : list cli_arg) (o : Options) :
  g_option_context_parse argv options0 = ParseOk o ->
  (version_flag (main_options o) = true ->
   main' argv = Exited EXIT_SUCCESS [PrintVersion; LogShutdown])
  /\ (version_flag (main_options o) = false ->
      help_flag (main_options o) = true ->
      main' argv = Exited EXIT_SUCCESS [PrintHelp; LogShutdown])
  /\ (version_flag (main_options o) = false ->
      help_flag (main_options o) = false ->
      help_examples_flag (main_options o) = true ->
      main' argv = Exited EXIT_SUCCESS [PrintHelpExamples; LogShutdown]).
Proof.
  intros Hp. unfold main. rewrite Hp.
  repeat split; intros;
    rewrite (main_with_informational QfuDeviceSelection
               QMI_DEVICE_OPEN_FLAGS_PROXY QMI_DEVICE_OPEN_FLAGS_MBIM
               QMI_DEVICE_OPEN_FLAGS_AUTO qfu_device_selection_new
               operation_returns o)
      by (unfold no_informational_flag;
          repeat match goal with H : _ = _ |- _ => rewrite H end;
          reflexivity || (destruct (help_flag _), (help_examples_flag _); reflexivity)
          || (destruct (help_examples_flag _); reflexivity));
    repeat match goal with H : _ = _ |- _ => rewrite H end; reflexivity.
Qed.

(** X12.  The first option a callback refuses ends the parse: [main]
    prints "couldn't parse option context" with the callback's message
    and fails, without starting the log, whatever comes after that
    option and whatever flags came before it. *)
Theorem X12_callback_failure_ends_run
  (pre post : list cli_arg) (o1 : Options) (value message : string) :
  g_option_context_parse pre options0 = ParseOk o1 ->
  (fst (parse_busnum_devnum value (selection o1)) = CbFalse message ->
   main' (pre ++ Opt_busnum_devnum value :: post)
   = Exited EXIT_FAILURE [Printerr (msg_parse message); LogShutdown])
  /\ (fst (parse_vid_pid value (selection o1)) = CbFalse message ->
      main' (pre ++ Opt_vid_pid value :: post)
      = Exited EXIT_FAILURE [Printerr (msg_parse message); LogShutdown]).
Proof.
  intros Hp. unfold main. rewrite !g_option_context_parse_app, Hp.
  cbn [g_option_context_parse apply_entry]. unfold run_callback.
  split; intros H.
  - destruct (parse_busnum_devnum value (selection o1)) as [r st].
    cbn in H. subst r. reflexivity.
  - destruct (parse_vid_pid value (selection o1)) as [r st].
    cbn in H. subst r. reflexivity.
Qed.

(** X13.  The process aborts exactly when the parse reaches a
    [--busnum-devnum] or [--vid-pid] option whose value is the empty
    string; it has printed nothing by then.  [main] itself never trips
    one of its assertions. *)
Theorem X13_abort_iff_empty_token (argv : list cli_arg) :
  (main' argv = Aborted [] <->
   exists pre a post o1,
     argv = (pre ++ a :: post)%list
     /\ g_option_context_parse pre options0 = ParseOk o1
     /\ (a = Opt_busnum_devnum EmptyString \/ a = Opt_vid_pid EmptyString))
  /\ (forall tr, main' argv = Aborted tr -> tr = [])
  /\ (forall o tr, main_with' o <> Aborted tr).
Proof.
  assert (N : forall o tr, main_with' o <> Aborted tr).
  { intros o tr. main_cases o; discriminate. }
  split; [|split; [|exact N]].
  - split.
    + unfold main.
      destruct (g_option_context_parse argv options0) as [o|m|] eqn:E.
      * intros H. elim (N _ _ H).
      * discriminate.
      * intros _. exact (parse_abort_split argv options0 E).
    + intros (pre & a & post & o1 & -> & Hp & Ha). unfold main.
      rewrite g_option_context_parse_app, Hp.
      destruct Ha as [-> | ->]; reflexivity.
  - intros tr. unfold main.
    destruct (g_option_context_parse argv options0) as [o|m|] eqn:E.
    + intros H. elim (N _ _ H).
    + discriminate.
    + intros [= <-]. reflexivity.
Qed.

Lemma run_event_origin
  (o : Options) (op : operation QfuDeviceSelection) (r : bool) :
  In (Run op r) (events_of (main_with' o)) ->
  no_informational_flag o = true
  /\ sole_action o = Some (action_of op)
  /\ r = operation_returns op
  /\ (action_of op <> Reset ->
      images_of op = image_strv (main_options o)
      /\ image_strv (main_options o) <> None).
Proof.
  main_cases o; cbn; unfold log_init_event, device_selection_event;
    intros H;
    repeat (destruct H as [H|H]; [try discriminate H|]); try contradiction;
    try (revert H; destruct (version_flag _);
         [discriminate | destruct (help_flag _); discriminate]);
    injection H as <- <-; cbn; repeat split; congruence.
Qed.

(** X14.  The operation [main] calls is the one of the single action
    asked for, called only when no informational flag is set; the value
    recorded is what the operation returned, and an operation that
    takes images is handed [image_strv] itself. *)
Theorem X14_operation_matches_action
  (o : Options) (op : operation QfuDeviceSelection) (r : bool) :
  In (Run op r) (events_of (main_with' o)) ->
  no_informational_flag o = true
  /\ sole_action o = Some (action_of op)
  /\ r = operation_returns op
  /\ (action_of op <> Reset -> images_of op = image_strv (main_options o)).
Proof.
  intros H. destruct (run_event_origin o op r H) as (A & B & C & D).
  repeat split; try assumption. intros Hr. exact (proj1 (D Hr)).
Qed.

(** X15.  An operation that takes images receives the positional
    arguments of the command line, all of them, in their order; there
    is at least one. *)
Theorem X15_images_are_the_positional_arguments
  (argv : list cli_arg) (op : operation QfuDeviceSelection) (r : bool) :
  In (Run op r) (events_of (main' argv)) -> action_of op <> Reset ->
  images_of op = Some (positional argv) /\ positional argv <> [].
Proof.
  unfold main.
  destruct (g_option_context_parse argv options0) as [o|m|] eqn:E.
  - intros H Hr.
    destruct (run_event_origin o op r H) as (_ & _ & _ & Him).
    destruct (Him Hr) as [-> Hsome].
    rewrite (parsed_images argv o E) in *.
    destruct (positional argv); [congruence|]. split; [reflexivity | discriminate].
  - cbn. intros [H|[H|[]]]; discriminate H.
  - cbn. intros [].
Qed.

Ltac before_shutdown l :=
  lazymatch l with
  | LogShutdown :: _ => constr:(@nil (event QfuDeviceSelection))
  | ?x :: ?t => let p := before_shutdown t in constr:(x :: p)
  end.

Ltac after_shutdown l :=
  lazymatch l with
  | LogShutdown :: ?t => t
  | _ :: ?t => after_shutdown t
  end.

(** After a successful parse: one shutdown, last but for the release. *)
Lemma main_with_shutdown_and_release (o : Options) :
  exists status pre post,
    main_with' o = Exited status (pre ++ LogShutdown :: post)
    /\ existsb is_log_shutdown pre = false
    /\ existsb is_unref pre = false
    /\ existsb is_log_init pre = no_informational_flag o
    /\ post = (if existsb is_device_selection pre
               then match selected o with
                    | inr d => [Unref d]
                    | inl _ => []
                    end
               else []).
Proof.
  main_cases o; cbv zeta;
    match goal with
    | |- exists status pre post, Exited ?st ?l = _ /\ _ =>
        let p := before_shutdown l in
        let q := after_shutdown l in
        exists st, p, q
    end;
    (split; [reflexivity|]);
    unfold log_init_event, device_selection_event; cbn;
    rewrite ?Hs;
    try (destruct (version_flag _); [|destruct (help_flag _)]);
    repeat split.
Qed.

(** X16.  Every run of [main] that returns shuts the log down exactly
    once, after everything else it did; the only thing that follows is
    the release of the device selection object, which happens exactly
    when [qfu_device_selection_new] was called and gave an object, and
    then for that object.  The log is started iff the parse succeeded
    and no informational flag is set: a refused command line shuts down
    a log that was never started, and selects and releases nothing. *)
Theorem X16_shutdown_and_release (argv : list cli_arg) :
  match main' argv with
  | Aborted tr => tr = []
  | Exited status tr =>
      exists pre post,
        tr = (pre ++ LogShutdown :: post)%list
        /\ existsb is_log_shutdown pre = false
        /\ existsb is_unref pre = false
        /\ match g_option_context_parse argv options0 with
           | ParseOk o =>
               existsb is_log_init pre = no_informational_flag o
               /\ post = (if existsb is_device_selection pre
                          then match selected o with
                               | inr d => [Unref d]
                               | inl _ => []
                               end
                          else [])
           | _ =>
               existsb is_log_init pre = false
               /\ existsb is_device_selection pre = false
               /\ post = []
           end
  end.
Proof.
  unfold main.
  destruct (g_option_context_parse argv options0) as [o|message|].
  - destruct (main_with_shutdown_and_release o)
      as (status & pre & post & E & H1 & H2 & H3 & H4).
    rewrite E. exists pre, post. repeat split; assumption.
  - cbn. exists [Printerr ("error: couldn't parse option context: "
                           ++ message ++ nl)], [].
    repeat split.
  - reflexivity.
Qed.

(** X17.  [qfu_device_selection_new] is called exactly when no
    informational flag is set, the single action is update, update-qdl
    or reset, and the image check has passed; it is then called once,
    with the six selection variables as the parse left them.  Verify
    never selects a device. *)
Theorem X17_device_selection_attempted (o : Options) :
  (existsb is_device_selection (events_of (main_with' o)) = true <->
   no_informational_flag o = true
   /\ exists a, sole_action o = Some a /\ a <> Verify
                /\ (a = Reset \/ image_strv (main_options o) <> None))
  /\ (existsb is_device_selection (events_of (main_with' o)) = true ->
      filter is_device_selection (events_of (main_with' o))
      = [device_selection_event o]).
Proof.
  main_cases o; unfold log_init_event, device_selection_event; cbn;
    try (destruct (version_flag _); [|destruct (help_flag _)]); cbn;
    (split; [split|]); try discriminate; try reflexivity;
    try (intros _; split; [reflexivity|]; eexists; split; [reflexivity|];
         split; [discriminate|]; (left; reflexivity) || (right; discriminate));
    try (intros (H1 & a & H2 & H3 & H4); try discriminate H1;
         try (injection H2 as <-); try congruence;
         destruct H4; congruence).
Qed.

(** X18.  When the device selection fails, [main] prints "couldn't
    select device::" with the message of
    [qfu_device_selection_new] and fails, before it looks at the
    open-mode flags or the storage index; nothing is released. *)
Theorem X18_device_selection_failure
  (o : Options) (a : action) (message : string) :
  no_informational_flag o = true -> sole_action o = Some a -> a <> Verify ->
  a = Reset \/ image_strv (main_options o) <> None ->
  selected o = inl message ->
  main_with' o
  = Exited EXIT_FAILURE
      [log_init_event o; device_selection_event o;
       Printerr (msg_select message); LogShutdown].
Proof.
  intros Hi' Ha' Hv Him' Hs'.
  main_cases o; try congruence;
    try (destruct Him'; congruence);
    try (rewrite Hs' in *; match goal with H : inl _ = inl _ |- _ =>
                                     injection H as <- end; reflexivity).
Qed.

Lemma sole_action_with_update (o : Options) (u' : UpdateOptions) (a : action) :
  sole_action o = Some a -> a <> Update -> action_update_flag u' = false ->
  sole_action (set_update u' o) = Some a.
Proof.
  intros Ha Hu Hu'. destruct (sole_action_flags o a Ha) as (Av & Au & Aq & Ar).
  unfold sole_action in *. cbn. rewrite Hu'.
  destruct a; try congruence; rewrite Av, Aq, Ar; reflexivity.
Qed.

(** X19.  A verify run depends on the images and the logging options
    only: the device selection variables and every update option, the
    open-mode flags and the storage index among them, leave it
    unchanged. *)
Theorem X19_verify_ignores_device_and_update_options
  (o : Options) (sel : Selection) (u' : UpdateOptions) :
  no_informational_flag o = true -> sole_action o = Some Verify ->
  action_update_flag u' = false ->
  main_with' (set_selection sel (set_update u' o)) = main_with' o.
Proof.
  intros Hi Ha Hu'.
  pose proof (sole_action_with_update o u' Verify Ha ltac:(discriminate) Hu') as Ha'.
  rewrite (main_with_verify _ _ _ _ _ _ o Hi Ha).
  rewrite (main_with_verify _ _ _ _ _ _ (set_selection sel (set_update u' o)) Hi Ha').
  reflexivity.
Qed.

(** X20.  An update-qdl run depends on the images, the device selection
    and the logging options only: no update option, open-mode flag or
    storage index changes it. *)
Theorem X20_update_qdl_ignores_update_options
  (o : Options) (u' : UpdateOptions) :
  no_informational_flag o = true -> sole_action o = Some UpdateQdl ->
  action_update_flag u' = false ->
  main_with' (set_update u' o) = main_with' o.
Proof.
  intros Hi Ha Hu'.
  pose proof (sole_action_with_update o u' UpdateQdl Ha ltac:(discriminate) Hu') as Ha'.
  rewrite (main_with_update_qdl _ _ _ _ _ _ o Hi Ha).
  rewrite (main_with_update_qdl _ _ _ _ _ _ (set_update u' o) Hi Ha').
  reflexivity.
Qed.

(** X21.  A reset run depends on the device selection, the four
    open-mode flags and the logging options only: images given with it
    are not looked at, and no other update option changes it. *)
Theorem X21_reset_ignores_images_and_update_options
  (o : Options) (u' : UpdateOptions) (images : option (list string)) :
  no_informational_flag o = true -> sole_action o = Some Reset ->
  action_update_flag u' = false ->
  device_open_proxy_flag u' = device_open_proxy_flag (update o) ->
  device_open_qmi_flag u' = device_open_qmi_flag (update o) ->
  device_open_mbim_flag u' = device_open_mbim_flag (update o) ->
  device_open_auto_flag u' = device_open_auto_flag (update o) ->
  main_with' (in_main (set_image_strv images) (set_update u' o)) = main_with' o.
Proof.
  intros Hi Ha Hu' Hp Hq Hm Hau.
  pose proof (sole_action_with_update o u' Reset Ha ltac:(discriminate) Hu') as Ha'.
  rewrite (main_with_reset _ _ _ _ _ _ o Hi Ha).
  rewrite (main_with_reset _ _ _ _ _ _
             (in_main (set_image_strv images) (set_update u' o)) Hi Ha').
  unfold conflicting_modes, resolved_open_flags. cbn.
  rewrite Hp, Hq, Hm, Hau. reflexivity.
Qed.

(** X22.  The open flags [main] builds hold nothing but the proxy, mbim
    and auto values: with these three as distinct single bits no other
    bit is ever set, the mbim and auto bits are never set together when
    the mode flags do not conflict, and the qmi flag sets no bit of its
    own, so that qmi alone gives no mode bit at all. *)
Theorem X22_open_flags_bits (o : Options) (p m a : Z) :
  0 <= p -> 0 <= m -> 0 <= a -> p <> m -> p <> a -> m <> a ->
  QMI_DEVICE_OPEN_FLAGS_PROXY = 2 ^ p ->
  QMI_DEVICE_OPEN_FLAGS_MBIM = 2 ^ m ->
  QMI_DEVICE_OPEN_FLAGS_AUTO = 2 ^ a ->
  (forall k, Z.testbit (open_flags o) k = true -> k = p \/ k = m \/ k = a)
  /\ (conflicting_modes o = false ->
      Z.testbit (open_flags o) m && Z.testbit (open_flags o) a = false)
  /\ (conflicting_modes o = false -> device_open_qmi_flag (update o) = true ->
      Z.testbit (open_flags o) m = false /\ Z.testbit (open_flags o) a = false
      /\ open_flags o
         = if device_open_proxy_flag (update o)
           then QMI_DEVICE_OPEN_FLAGS_PROXY else QMI_DEVICE_OPEN_FLAGS_NONE).
Proof.
  intros Hp Hm Ha Hpm Hpa Hma -> -> ->.
  unfold resolved_open_flags, conflicting_modes.
  split; [|split].
  - intros k. rewrite !Z.lor_spec, !testbit_flag by assumption.
    destruct (Z.eqb_spec p k), (Z.eqb_spec m k), (Z.eqb_spec a k); auto.
    rewrite !andb_false_r. discriminate.
  - rewrite !Z.lor_spec, !testbit_flag by assumption.
    rewrite !Z.eqb_refl,
      (proj2 (Z.eqb_neq p m)), (proj2 (Z.eqb_neq a m)),
      (proj2 (Z.eqb_neq p a)), (proj2 (Z.eqb_neq m a)) by congruence.
    destruct (device_open_proxy_flag _), (device_open_mbim_flag _),
      (device_open_qmi_flag _), (device_open_auto_flag _);
      intros H; try discriminate H; reflexivity.
  - rewrite !Z.lor_spec, !testbit_flag by assumption.
    rewrite !Z.eqb_refl,
      (proj2 (Z.eqb_neq p m)), (proj2 (Z.eqb_neq a m)),
      (proj2 (Z.eqb_neq p a)), (proj2 (Z.eqb_neq m a)) by congruence.
    destruct (device_open_proxy_flag _), (device_open_mbim_flag _),
      (device_open_qmi_flag _), (device_open_auto_flag _);
      intros H Hq; try discriminate H; try discriminate Hq;
      repeat split; cbn; rewrite ?Z.lor_0_r; reflexivity.
Qed.

(** X23.  An operation is only ever called with checked arguments: the
    device selection is the object [qfu_device_selection_new] gave; the
    update operation gets a non-[NULL] image vector, open flags built
    from mode flags that do not conflict, a storage index in 0..255
    equal to the option's value, and the version, carrier and boolean
    options as parsed; the reset operation gets open flags built from
    mode flags that do not conflict; update-qdl and verify get a
    non-[NULL] image vector. *)
Theorem X23_operations_get_checked_arguments
  (o : Options) (op : operation QfuDeviceSelection) (r : bool) :
  In (Run op r) (events_of (main_with' o)) ->
  match op with
  | qfu_operation_update_run images d fw cfg car flags ign ovr index skip =>
      selected o = inr d
      /\ images = image_strv (main_options o) /\ images <> None
      /\ conflicting_modes o = false /\ flags = open_flags o
      /\ index = modem_storage_index_int (update o) /\ 0 <= index <= 255
      /\ fw = firmware_version_str (update o)
      /\ cfg = config_version_str (update o)
      /\ car = carrier_str (update o)
      /\ ign = ignore_version_errors_flag (update o)
      /\ ovr = override_download_flag (update o)
      /\ skip = skip_validation_flag (update o)
  | qfu_operation_update_qdl_run images d =>
      selected o = inr d
      /\ images = image_strv (main_options o) /\ images <> None
  | qfu_operation_reset_run d flags =>
      selected o = inr d
      /\ conflicting_modes o = false /\ flags = open_flags o
  | qfu_operation_verify_run images =>
      images = image_strv (main_options o) /\ images <> None
  end.
Proof.
  main_cases o; cbn; unfold log_init_event, device_selection_event;
    intros H;
    repeat (destruct H as [H|H]; [try discriminate H|]); try contradiction;
    try (revert H; destruct (version_flag _);
         [discriminate | destruct (help_flag _); discriminate]);
    injection H as <- <-; cbn; repeat split; try congruence.
  all: apply orb_false_iff in Hx; unfold G_MAXUINT8 in Hx; lia.
Qed.

End MainFurther.

(* ================================================================== *)
(** ** The further properties at concrete inputs *)

Lemma X1_callback_aborts_iff_empty_witness :
  fst (parse_busnum_devnum "" selection0) = CbAbort
  /\ fst (parse_vid_pid "" selection0) = CbAbort.
Proof.
  split.
  - apply (X1_callback_aborts_iff_empty "" selection0). reflexivity.
  - apply (X1_callback_aborts_iff_empty "" selection0). reflexivity.
Defined.

Lemma X2_too_many_fields_iff_two_colons_witness :
  fst (parse_busnum_devnum "1::" selection0)
  = CbFalse "invalid busnum-devnum string: too many fields"
  /\ fst (parse_vid_pid "a:b:c:d" selection0)
     = CbFalse "invalid vid-pid string: too many fields".
Proof.
  split.
  - apply (X2_too_many_fields_iff_two_colons "1::" selection0). cbn. lia.
  - apply (X2_too_many_fields_iff_two_colons "a:b:c:d" selection0). cbn. lia.
Defined.

Lemma X3_parse_busnum_devnum_frame_witness :
  0 < devnum (snd (parse_busnum_devnum "1:2" selection0)) <= G_MAXUINT
  /\ devnum (snd (parse_busnum_devnum "1:0" selection0)) = devnum selection0
  /\ selection_fits (snd (parse_busnum_devnum "1:0" selection0)).
Proof.
  split; [|split].
  - apply (X3_parse_busnum_devnum_frame "1:2" selection0). reflexivity.
  - apply (X3_parse_busnum_devnum_frame "1:0" selection0). discriminate.
  - apply (X3_parse_busnum_devnum_frame "1:0" selection0).
    unfold selection_fits, G_MAXUINT, G_MAXUINT16. cbn. lia.
Defined.

Lemma X4_parse_vid_pid_frame_witness :
  0 < vid (snd (parse_vid_pid "1199:68c0" selection0)) <= G_MAXUINT16
  /\ vid (snd (parse_vid_pid "0:68c0" selection0)) = vid selection0
  /\ selection_fits (snd (parse_vid_pid "0:68c0" selection0)).
Proof.
  split; [|split].
  - apply (X4_parse_vid_pid_frame "1199:68c0" selection0). reflexivity.
  - apply (X4_parse_vid_pid_frame "0:68c0" selection0). discriminate.
  - apply (X4_parse_vid_pid_frame "0:68c0" selection0).
    unfold selection_fits, G_MAXUINT, G_MAXUINT16. cbn. lia.
Defined.

Lemma X5_parse_busnum_devnum_bus_first_witness :
  (fst (parse_busnum_devnum "3:0" selection0) = CbFalse "invalid dev number: 0"
   /\ busnum (snd (parse_busnum_devnum "3:0" selection0)) = 3
   /\ devnum (snd (parse_busnum_devnum "3:0" selection0)) = 0)
  /\ parse_busnum_devnum "0:0" selection0
     = (CbFalse "invalid bus number: 0", selection0).
Proof.
  split.
  - destruct (X5_parse_busnum_devnum_bus_first "3" "0" selection0 eq_refl eq_refl)
      as (Partial & _).
    destruct (Partial eq_refl eq_refl) as (E & Hb & Hd).
    split; [exact (f_equal fst E) | split; [exact Hb | exact Hd]].
  - apply (X5_parse_busnum_devnum_bus_first "0" "0" selection0 eq_refl eq_refl);
      reflexivity.
Defined.

Lemma X6_parse_busnum_devnum_lenient_witness :
  parse_busnum_devnum " +12abc" selection0 = (CbTrue, set_devnum 12 selection0).
Proof.
  apply (X6_parse_busnum_devnum_lenient " " "12" "abc" true 12 selection0);
    try reflexivity.
  - split; [discriminate | reflexivity].
  - unfold G_MAXUINT. lia.
Defined.

Lemma X7_parse_busnum_devnum_minus_witness :
  parse_busnum_devnum "-1" selection0
  = (CbFalse "invalid dev number: -1", selection0)
  /\ (fst (parse_busnum_devnum "-18446744073709551615" selection0) = CbTrue
      /\ devnum (snd (parse_busnum_devnum "-18446744073709551615" selection0)) = 1
      /\ busnum (snd (parse_busnum_devnum "-18446744073709551615" selection0)) = 0).
Proof.
  split.
  - apply (X7_parse_busnum_devnum_minus "1" 1 selection0).
    + split; [discriminate | reflexivity].
    + unfold ULONG_MAX, G_MAXUINT. lia.
  - assert (N : is_numeral 10 "18446744073709551615" 18446744073709551615)
      by (split; [discriminate | reflexivity]).
    destruct (X7_parse_busnum_devnum_minus "18446744073709551615"
                18446744073709551615 selection0 N) as (_ & Accepted).
    destruct Accepted as (E & Hd & Hb); [unfold ULONG_MAX, G_MAXUINT; lia|].
    split; [exact (f_equal fst E) | split; [exact Hd | exact Hb]].
Defined.

Lemma X8_parse_vid_pid_hex_prefix_witness :
  parse_vid_pid "0x1199" selection0 = (CbTrue, set_vid 4505 selection0)
  /\ parse_vid_pid "0X1199" selection0 = (CbTrue, set_vid 4505 selection0).
Proof.
  assert (N : is_numeral 16 "1199" 4505) by (split; [discriminate | reflexivity]).
  assert (R : 0 < 4505 <= G_MAXUINT16) by (unfold G_MAXUINT16; lia).
  split.
  - apply (X8_parse_vid_pid_hex_prefix "1199" 4505 selection0 N R).
  - apply (X8_parse_vid_pid_hex_prefix "1199" 4505 selection0 N R).
Defined.

Lemma X9_later_option_keeps_earlier_field_witness :
  (busnum (selection (parsed [Opt_busnum_devnum "1:2"; Opt_busnum_devnum "7"])) = 1
   /\ devnum (selection (parsed [Opt_busnum_devnum "1:2"; Opt_busnum_devnum "7"])) = 7)
  /\ (vid (selection (parsed [Opt_vid_pid "1199:68c0"; Opt_vid_pid "413c"])) = 16700
      /\ pid (selection (parsed [Opt_vid_pid "1199:68c0"; Opt_vid_pid "413c"])) = 26816).
Proof.
  pose proof X9_later_option_keeps_earlier_field as (BusDev & VidPid).
  assert (N10 : forall s v, s <> EmptyString -> numeral_value 10 s = Some v ->
                            is_numeral 10 s v) by (intros; split; assumption).
  assert (N16 : forall s v, s <> EmptyString -> numeral_value 16 s = Some v ->
                            is_numeral 16 s v) by (intros; split; assumption).
  split.
  - destruct (BusDev "1" "2" "7" 1 2 7 options0) as (o' & E & Hb & Hd & _);
      try (apply N10; [discriminate | reflexivity]);
      try (unfold G_MAXUINT; lia).
    assert (P : parsed [Opt_busnum_devnum "1:2"; Opt_busnum_devnum "7"] = o').
    { exact (f_equal (fun r => match r with ParseOk x => x | _ => options0 end) E). }
    rewrite P. split; [exact Hb | exact Hd].
  - destruct (VidPid "1199" "68c0" "413c" 4505 26816 16700 options0)
      as (o' & E & Hv & Hp & _);
      try (apply N16; [discriminate | reflexivity]);
      try (unfold G_MAXUINT16; lia).
    assert (P : parsed [Opt_vid_pid "1199:68c0"; Opt_vid_pid "413c"] = o').
    { exact (f_equal (fun r => match r with ParseOk x => x | _ => options0 end) E). }
    rewrite P. split; [exact Hv | exact Hp].
Defined.

Lemma X10_repeated_flag_witness :
  example_main [Opt_verify; Opt_verify; Arg_remaining "file.cwe"]
  = example_main [Opt_verify; Arg_remaining "file.cwe"].
Proof.
  exact (X10_repeated_flag unit (2 ^ 6) (2 ^ 7) (2 ^ 8) example_selection_new
           example_returns Opt_verify [] [Arg_remaining "file.cwe"] eq_refl).
Defined.

Lemma X11_informational_precedence_witness :
  example_main [Opt_help; Opt_update; Opt_reset; Opt_version]
  = Exited EXIT_SUCCESS [PrintVersion; LogShutdown]
  /\ example_main [Opt_help_examples; Opt_help]
     = Exited EXIT_SUCCESS [PrintHelp; LogShutdown]
  /\ example_main [Opt_help_examples; Opt_device_open_qmi; Opt_device_open_mbim]
     = Exited EXIT_SUCCESS [PrintHelpExamples; LogShutdown].
Proof.
  split; [|split].
  - apply (X11_informational_precedence unit (2 ^ 6) (2 ^ 7) (2 ^ 8)
             example_selection_new example_returns
             [Opt_help; Opt_update; Opt_reset; Opt_version]
             (parsed [Opt_help; Opt_update; Opt_reset; Opt_version]) eq_refl).
    reflexivity.
  - apply (X11_informational_precedence unit (2 ^ 6) (2 ^ 7) (2 ^ 8)
             example_selection_new example_returns
             [Opt_help_examples; Opt_help]
             (parsed [Opt_help_examples; Opt_help]) eq_refl); reflexivity.
  - apply (X11_informational_precedence unit (2 ^ 6) (2 ^ 7) (2 ^ 8)
             example_selection_new example_returns
             [Opt_help_examples; Opt_device_open_qmi; Opt_device_open_mbim]
             (parsed [Opt_help_examples; Opt_device_open_qmi; Opt_device_open_mbim])
             eq_refl); reflexivity.
Defined.

Lemma X12_callback_failure_ends_run_witness :
  example_main [Opt_version; Opt_busnum_devnum "1:2:3"; Arg_remaining "file.cwe"]
  = Exited EXIT_FAILURE
      [Printerr (msg_parse "invalid busnum-devnum string: too many fields");
       LogShutdown]
  /\ example_main [Opt_update; Opt_vid_pid "0"; Opt_help]
     = Exited EXIT_FAILURE
         [Printerr (msg_parse "invalid vendor id: 0"); LogShutdown].
Proof.
  split.
  - apply (X12_callback_failure_ends_run unit (2 ^ 6) (2 ^ 7) (2 ^ 8)
             example_selection_new example_returns
             [Opt_version] [Arg_remaining "file.cwe"] (parsed [Opt_version])
             "1:2:3" "invalid busnum-devnum string: too many fields" eq_refl).
    reflexivity.
  - apply (X12_callback_failure_ends_run unit (2 ^ 6) (2 ^ 7) (2 ^ 8)
             example_selection_new example_returns
             [Opt_update] [Opt_help] (parsed [Opt_update])
             "0" "invalid vendor id: 0" eq_refl).
    reflexivity.
Defined.

Lemma X13_abort_iff_empty_token_witness :
  example_main [Opt_update; Opt_vid_pid ""; Arg_remaining "file.cwe"] = Aborted [].
Proof.
  apply (X13_abort_iff_empty_token unit (2 ^ 6) (2 ^ 7) (2 ^ 8)
           example_selection_new example_returns
           [Opt_update; Opt_vid_pid ""; Arg_remaining "file.cwe"]).
  exists [Opt_update], (Opt_vid_pid ""), [Arg_remaining "file.cwe"],
    (parsed [Opt_update]).
  split; [reflexivity|]. split; [reflexivity|]. right. reflexivity.
Defined.

Lemma X14_operation_matches_action_witness :
  sole_action (parsed cli_update) = Some Update.
Proof.
  apply (X14_operation_matches_action unit (2 ^ 6) (2 ^ 7) (2 ^ 8)
           example_selection_new example_returns (parsed cli_update)
           (qfu_operation_update_run (Some ["file1.cwe"; "file2.nvu"]) tt
              None None None (2 ^ 8) false false 0 false) true).
  vm_compute. right. right. left. reflexivity.
Defined.

Lemma X15_images_are_the_positional_arguments_witness :
  Some ["file1.cwe"; "file2.nvu"] = Some (positional cli_update)
  /\ positional cli_update <> [].
Proof.
  apply (X15_images_are_the_positional_arguments unit (2 ^ 6) (2 ^ 7) (2 ^ 8)
           example_selection_new example_returns cli_update
           (qfu_operation_update_run (Some ["file1.cwe"; "file2.nvu"]) tt
              None None None (2 ^ 8) false false 0 false) true).
  - vm_compute. right. right. left. reflexivity.
  - discriminate.
Defined.

Lemma X17_device_selection_attempted_witness :
  existsb is_device_selection
    (events_of (example_main_with (parsed [Opt_reset]))) = true
  /\ filter is_device_selection
       (events_of (example_main_with (parsed [Opt_reset])))
     = [DeviceSelectionNew None None 0 0 0 0].
Proof.
  assert (A : existsb is_device_selection
                (events_of (example_main_with (parsed [Opt_reset]))) = true).
  { apply (X17_device_selection_attempted unit (2 ^ 6) (2 ^ 7) (2 ^ 8)
             example_selection_new example_returns (parsed [Opt_reset])).
    split; [reflexivity|]. exists Reset.
    split; [reflexivity|]. split; [discriminate | left; reflexivity]. }
  split; [exact A|].
  apply (X17_device_selection_attempted unit (2 ^ 6) (2 ^ 7) (2 ^ 8)
           example_selection_new example_returns (parsed [Opt_reset])).
  exact A.
Defined.

Lemma X18_device_selection_failure_witness :
  example_main_with
    (parsed [Opt_reset; Opt_device_open_qmi; Opt_device_open_mbim])
  = Exited EXIT_FAILURE
      [LogInit false false None; DeviceSelectionNew None None 0 0 0 0;
       Printerr (msg_select "No device selected"); LogShutdown].
Proof.
  apply (X18_device_selection_failure unit (2 ^ 6) (2 ^ 7) (2 ^ 8)
           example_selection_new example_returns
           (parsed [Opt_reset; Opt_device_open_qmi; Opt_device_open_mbim])
           Reset "No device selected");
    try reflexivity; [discriminate | left; reflexivity].
Defined.

Lemma X19_verify_ignores_device_and_update_options_witness :
  example_main_with
    (set_selection (set_busnum 1 selection0)
       (set_update (set_modem_storage_index_int 999 update0)
          (parsed cli_verify_modes)))
  = example_main_with (parsed cli_verify_modes).
Proof.
  apply (X19_verify_ignores_device_and_update_options unit (2 ^ 6) (2 ^ 7) (2 ^ 8)
           example_selection_new example_returns (parsed cli_verify_modes));
    reflexivity.
Defined.

Lemma X20_update_qdl_ignores_update_options_witness :
  example_main_with
    (set_update (set_modem_storage_index_int 999 update0)
       (parsed cli_update_qdl_modes))
  = example_main_with (parsed cli_update_qdl_modes).
Proof.
  apply (X20_update_qdl_ignores_update_options unit (2 ^ 6) (2 ^ 7) (2 ^ 8)
           example_selection_new example_returns (parsed cli_update_qdl_modes));
    reflexivity.
Defined.

Lemma X21_reset_ignores_images_and_update_options_witness :
  example_main_with
    (in_main (set_image_strv (Some ["file.cwe"]))
       (set_update (set_modem_storage_index_int 999
                      (update (parsed cli_reset_proxy_auto)))
          (parsed cli_reset_proxy_auto)))
  = example_main_with (parsed cli_reset_proxy_auto).
Proof.
  apply (X21_reset_ignores_images_and_update_options unit (2 ^ 6) (2 ^ 7) (2 ^ 8)
           example_selection_new example_returns (parsed cli_reset_proxy_auto));
    reflexivity.
Defined.

Lemma X22_open_flags_bits_witness :
  Z.testbit (resolved_open_flags (2 ^ 6) (2 ^ 7) (2 ^ 8)
               (parsed [Opt_device_open_qmi; Opt_device_open_proxy])) 7 = false
  /\ Z.testbit (resolved_open_flags (2 ^ 6) (2 ^ 7) (2 ^ 8)
                  (parsed [Opt_device_open_qmi; Opt_device_open_proxy])) 8 = false
  /\ resolved_open_flags (2 ^ 6) (2 ^ 7) (2 ^ 8)
       (parsed [Opt_device_open_qmi; Opt_device_open_proxy])
     = 2 ^ 6.
Proof.
  apply (X22_open_flags_bits (2 ^ 6) (2 ^ 7) (2 ^ 8)
           (parsed [Opt_device_open_qmi; Opt_device_open_proxy]) 6 7 8);
    (lia || reflexivity).
Defined.

Lemma X23_operations_get_checked_arguments_witness :
  example_selection_new None None 4505 26816 0 0 = inr tt
  /\ 0 <= 255 <= 255.
Proof.
  pose proof (X23_operations_get_checked_arguments unit (2 ^ 6) (2 ^ 7) (2 ^ 8)
                example_selection_new example_returns
                (parsed (cli_update_index 255))
                (qfu_operation_update_run (Some ["file1.cwe"; "file2.nvu"]) tt
                   None None None (2 ^ 8) false false 255 false) true) as H.
  destruct H as (Hs & _ & _ & _ & _ & _ & Hidx & _).
  - vm_compute. right. right. left. reflexivity.
  - split; [exact Hs | exact Hidx].
Defined.

(* ================================================================== *)
(** ** Beyond the claims: the option tables *)

(** X24.  No two of the registered options share a long name, and no
    two share a short name, so every option on the command line reaches
    one entry only; the entries that take no value are exactly the
    [G_OPTION_ARG_NONE] flags. *)
Theorem X24_option_names_distinct :
  NoDup (map long_name all_entries)
  /\ NoDup (short_names all_entries)
  /\ (forall a name,
         entry_name a = Some name ->
         exists e, In e all_entries /\ long_name e = name
                   /\ (is_flag_entry a = true <-> arg e = G_OPTION_ARG_NONE)).
Proof.
  split; [|split].
  - cbv [all_entries context_selection_entries context_update_entries
           context_reset_entries context_update_qdl_entries
           context_verify_entries context_main_entries app map long_name
           G_OPTION_REMAINING].
    repeat (constructor; [cbn [In]; intuition discriminate|]). constructor.
  - cbv [all_entries context_selection_entries context_update_entries
           context_reset_entries context_update_qdl_entries
           context_verify_entries context_main_entries app short_names
           flat_map short_name].
    repeat (constructor; [cbn [In]; intuition discriminate|]). constructor.
  - intros a name H.
    destruct a; cbn in H; try discriminate H; injection H as <-;
      match goal with
      | |- exists e, _ /\ long_name e = ?n /\ _ =>
          let r := eval vm_compute in
                     (find (fun e => String.eqb (long_name e) n) all_entries) in
          match r with Some ?e => exists e end
      end;
      (split; [cbn; repeat (first [left; reflexivity | right]) |]);
      (split; [reflexivity|]); cbn; split; (reflexivity || discriminate).
Qed.

Lemma X24_option_names_distinct_witness :
  exists e, In e all_entries /\ long_name e = "update-qdl"
            /\ (is_flag_entry Opt_update_qdl = true <-> arg e = G_OPTION_ARG_NONE).
Proof.
  apply (X24_option_names_distinct). reflexivity.
Defined.

Lemma X16_shutdown_and_release_witness :
  exists pre,
    events_of (example_main [Opt_reset; Opt_busnum_devnum "1:2:3"])
    = (pre ++ [LogShutdown])%list
    /\ existsb is_log_init pre = false.
Proof.
  pose proof (X16_shutdown_and_release unit (2 ^ 6) (2 ^ 7) (2 ^ 8)
                example_selection_new example_returns
                [Opt_reset; Opt_busnum_devnum "1:2:3"]) as H.
  vm_compute in H. destruct H as (pre & post & E & _ & _ & Hinit & _ & Hpost).
  subst post. exists pre. split; [exact E | exact Hinit].
Defined.
